(** * TrueFund: the route layer of [registerRoutes], embedded and verified

    The program is one TypeScript module: a helper that builds a campaign
    code, and [registerRoutes], which registers twenty-one Express handlers
    over a hosted relational store reached through a query-builder client.

    The embedding is shallow.  A handler is a function in a small state
    monad over a [World]: the tables of the store, the identity provider,
    the stream of results of [Math.random], an oracle that says which calls
    to the store fail, and the chronological log of every call made.  The
    store and the identity provider are external collaborators; their model
    (what a filter, an order, a limit, [single], an insert and an update do)
    is stated once in the section on the store and used by every handler.

    Conventions for the data: identifiers and tokens are strings,
    timestamps are integers, a nullable column is an [option].  An amount
    is a JavaScript value, because the handlers compute with it as they
    receive it: a number is a binary64, [+] and [||] are the operators of
    the language, and a value reaches the store as its JSON text. *)

From Stdlib Require Import ZArith NArith List String Ascii Bool Lia DecimalString.
From Stdlib Require Import Sorted Permutation SpecFloat Zpower.
Import ListNotations.
Local Open Scope string_scope.
Local Open Scope Z_scope.

Set Implicit Arguments.

(* ================================================================= *)
(** ** JavaScript strings, numbers and values *)

Module Js.

(** [s.charAt(i)]: the one-character string at index [i], the empty string
    when [i] is out of range. *)
Definition charAt (s : string) (i : Z) : string :=
  if i <? 0 then ""
  else match String.get (Z.to_nat i) s with
       | Some c => String c ""
       | None => ""
       end.

(** [s.replace(pat, rep)] with a string pattern: the first occurrence of
    [pat] is replaced, the rest of [s] is kept. *)
Fixpoint replace (pat rep s : string) : string :=
  if String.prefix pat s
  then rep ++ String.substring (String.length pat)
                               (String.length s - String.length pat) s
  else match s with
       | EmptyString => EmptyString
       | String c s' => String c (replace pat rep s')
       end.

(** Truthiness of a string that may be [undefined]: [undefined] and the
    empty string are falsy. *)
Definition truthy (x : option string) : bool :=
  match x with
  | None => false
  | Some s => negb (String.eqb s "")
  end.

(** A string that is known to be there. *)
Definition known (x : option string) : string :=
  match x with Some s => s | None => "" end.

(** A string that may be [undefined], inside a template or a log line. *)
Definition shown (x : option string) : string :=
  match x with Some s => s | None => "undefined" end.

(** A binary64 number in the half-open unit interval, as [Math.random]
    returns it: [mant * 2 ^ (- expo)] with a significand of at most 53 bits
    and an exponent of at least 53. *)
Record unit_double : Type := { mant : Z; expo : Z }.

Definition in_unit (r : unit_double) : Prop :=
  0 <= mant r < 2 ^ 53 /\ 53 <= expo r.

(** Round a non-negative integer to 53 significant bits, to nearest, ties
    to even: the rounding of a binary64 product. *)
Definition round53 (x : Z) : Z :=
  if x <? 2 ^ 53 then x
  else
    let s := Z.log2 x - 52 in
    let q := x / 2 ^ s in
    let r := x mod 2 ^ s in
    let h := 2 ^ (s - 1) in
    if (h <? r) || ((r =? h) && Z.odd q) then (q + 1) * 2 ^ s else q * 2 ^ s.

(** [Math.floor(r * n)] for a small non-negative integer [n]: the exact
    product [mant * n * 2 ^ (- expo)] is rounded to binary64, then floored.
    (A product below the normal range is rounded more coarsely than here;
    it is below one either way and its floor is 0.) *)
Definition floor_mul (r : unit_double) (n : Z) : Z :=
  round53 (mant r * n) / 2 ^ expo r.

(** *** Numbers

    A number is a binary64, in the representation of the Standard Library:
    a zero with its sign, an infinity, NaN, or [(-1)^s * m * 2^e] with a
    significand [m] of at most 53 bits. *)
Definition number : Type := spec_float.

Definition prec : Z := 53.
Definition emax : Z := 1024.

(** [x + y] on numbers: the sum, rounded to nearest, ties to even. *)
Definition add (x y : number) : number := SFadd prec emax x y.

(** The number an integer denotes: the nearest binary64. *)
Definition of_Z (n : Z) : number := binary_normalize prec emax n 0 false.

(** The integer a number is, when it is one. *)
Definition to_Z (x : number) : option Z :=
  match x with
  | S754_zero _ => Some 0
  | S754_finite s m e =>
      let n := if 0 <=? e then Some (Z.pos m * 2 ^ e)
               else if Z.pos m mod 2 ^ (- e) =? 0 then Some (Z.pos m / 2 ^ (- e))
               else None in
      match n with
      | Some v => Some (if s then - v else v)
      | None => None
      end
  | _ => None
  end.

(** *** The text of a number: [Number::toString] in radix 10 *)

(** [a * 2^b] compared with [s * 10^p]. *)
Definition compare_scaled (a b s p : Z) : comparison :=
  (a * 2 ^ Z.max b 0 * 10 ^ Z.max (- p) 0)
    ?= (s * 10 ^ Z.max p 0 * 2 ^ Z.max (- b) 0).

(** The least [n] with [m * 2^e < 10^n], searched upwards from an estimate
    that lies below it. *)
Fixpoint first_power (fuel : nat) (m e n : Z) : Z :=
  match fuel with
  | O => n
  | S fuel' =>
      match compare_scaled m e 1 n with
      | Lt => n
      | _ => first_power fuel' m e (n + 1)
      end
  end.

Definition decimal_exponent (m e : Z) : Z :=
  first_power 8 m e ((Z.log2 m + e) * 1233 / 4096 - 1).

(** [s * 10^p] rounds to the number [m * 2^e]: it lies between the midpoints
    to the two neighbours, which belong to the interval when [m] is even. *)
Definition rounds_to (m e s p : Z) : bool :=
  let lo := if (m =? 2 ^ 52) && (-1074 <? e) then 4 * m - 1 else 4 * m - 2 in
  let hi := 4 * m + 2 in
  match compare_scaled lo (e - 2) s p with
  | Lt => true
  | Eq => Z.even m
  | Gt => false
  end &&
  match compare_scaled hi (e - 2) s p with
  | Gt => true
  | Eq => Z.even m
  | Lt => false
  end.

(** The digits [s] and the position [n] of the decimal point: [s] has as few
    digits as a decimal that rounds to the number can have, and among those
    [s * 10^(n-k)] is the closest to the number. *)
Fixpoint shortest (fuel : nat) (m e nx k : Z) : Z * Z :=
  match fuel with
  | O => (0, 0)
  | S fuel' =>
      let p := nx - k in
      let below := (m * 2 ^ Z.max e 0 * 10 ^ Z.max (- p) 0)
                   / (10 ^ Z.max p 0 * 2 ^ Z.max (- e) 0) in
      let above := below + 1 in
      let pick :=
        match rounds_to m e below p, rounds_to m e above p with
        | true, true =>
            match compare_scaled (2 * m) e (2 * below + 1) p with
            | Lt => Some below
            | Gt => Some above
            | Eq => Some (if Z.even below then below else above)
            end
        | true, false => Some below
        | false, true => Some above
        | false, false => None
        end in
      match pick with
      | Some s => if s =? 10 ^ k then (10 ^ (k - 1), nx + 1) else (s, nx)
      | None => shortest fuel' m e nx (k + 1)
      end
  end.

Definition digits_of (n : Z) : string :=
  NilZero.string_of_uint (N.to_uint (Z.to_N n)).

Fixpoint zeros (n : nat) : string :=
  match n with
  | O => ""
  | S n' => String "0" (zeros n')
  end.

(** The text of the positive number [m * 2^e]. *)
Definition positive_to_string (m e : Z) : string :=
  let (s, n) := shortest 17 m e (decimal_exponent m e) 1 in
  let digits := digits_of s in
  let k := Z.of_nat (String.length digits) in
  if (k <=? n) && (n <=? 21) then digits ++ zeros (Z.to_nat (n - k))
  else if (0 <? n) && (n <=? 21) then
    String.substring 0 (Z.to_nat n) digits ++ "." ++
    String.substring (Z.to_nat n) (Z.to_nat (k - n)) digits
  else if (-6 <? n) && (n <=? 0) then "0." ++ zeros (Z.to_nat (- n)) ++ digits
  else
    let exponent := (if n - 1 <? 0 then "-" else "+") ++ digits_of (Z.abs (n - 1)) in
    if k =? 1 then digits ++ "e" ++ exponent
    else String.substring 0 1 digits ++ "." ++
         String.substring 1 (Z.to_nat (k - 1)) digits ++ "e" ++ exponent.

Definition number_to_string (x : number) : string :=
  match x with
  | S754_nan => "NaN"
  | S754_zero _ => "0"
  | S754_infinity s => if s then "-Infinity" else "Infinity"
  | S754_finite s m e =>
      (if s then "-" else "") ++ positive_to_string (Z.pos m) e
  end.

(** *** Values

    The values a parsed JSON text and the arithmetic on its members can
    give. *)
#[local] Set Warnings "-register-all".
Inductive value : Type :=
| Undefined : value
| Null : value
| Bool (b : bool)
| Num (x : number)
| Str (s : string)
| Arr (l : list value)
| Obj (l : list (string * value)).
#[local] Set Warnings "+register-all".

(** The value of an integer literal. *)
Definition int (n : Z) : value := Num (of_Z n).

(** Truthiness: [undefined], [null], [false], the zeros, NaN and the empty
    string are falsy. *)
Definition to_boolean (v : value) : bool :=
  match v with
  | Undefined | Null => false
  | Bool b => b
  | Num (S754_zero _) | Num S754_nan => false
  | Num _ => true
  | Str s => negb (String.eqb s "")
  | Arr _ | Obj _ => true
  end.

(** [a || b] *)
Definition or (a b : value) : value := if to_boolean a then a else b.

(** [v === s] for a string [s] *)
Definition is_string (s : string) (v : value) : bool :=
  match v with
  | Str t => String.eqb t s
  | _ => false
  end.

(** The text of a value, as a template or a concatenation takes it: an
    array is the texts of its elements joined by commas, with nothing for
    [null] and [undefined]. *)
Fixpoint to_string (v : value) : string :=
  match v with
  | Undefined => "undefined"
  | Null => "null"
  | Bool true => "true"
  | Bool false => "false"
  | Num x => number_to_string x
  | Str s => s
  | Arr l =>
      (fix join (l : list value) : string :=
         match l with
         | [] => ""
         | x :: l' =>
             match x with Undefined | Null => "" | _ => to_string x end ++
             match l' with [] => "" | _ :: _ => "," ++ join l' end
         end) l
  | Obj _ => "[object Object]"
  end.

(** The primitive value of an operand of [+]: an array or an object gives
    its text. *)
Definition to_primitive (v : value) : value :=
  match v with
  | Arr _ | Obj _ => Str (to_string v)
  | _ => v
  end.

(** The number of a primitive value that is not a string: [undefined]
    gives NaN, [null] and [false] give 0, [true] gives 1.  (A string never
    comes here: [+] concatenates as soon as it meets one.) *)
Definition to_number (v : value) : number :=
  match v with
  | Null | Bool false => S754_zero false
  | Bool true => of_Z 1
  | Num x => x
  | _ => S754_nan
  end.

(** [a + b]: the concatenation of the two texts as soon as one operand is
    a string, an array or an object; the sum of the two numbers
    otherwise. *)
Definition plus (a b : value) : value :=
  match to_primitive a, to_primitive b with
  | Str s, pb => Str (s ++ to_string pb)
  | pa, Str s => Str (to_string pa ++ s)
  | pa, pb => Num (add (to_number pa) (to_number pb))
  end.

(** What the other side receives of a value sent as JSON: NaN and the
    infinities are sent as [null], the negative zero as [0], an
    [undefined] element of an array as [null], and an [undefined] member of
    an object is not sent. *)
Fixpoint sent_as (v : value) : value :=
  match v with
  | Num (S754_nan) | Num (S754_infinity _) => Null
  | Num (S754_zero _) => Num (S754_zero false)
  | Arr l =>
      Arr (map (fun x => match sent_as x with Undefined => Null | y => y end) l)
  | Obj l =>
      Obj ((fix members (l : list (string * value)) : list (string * value) :=
              match l with
              | [] => []
              | (k, x) :: l' =>
                  match sent_as x with
                  | Undefined => members l'
                  | y => (k, y) :: members l'
                  end
              end) l)
  | _ => v
  end.

End Js.

(* ================================================================= *)
(** ** Regular expressions, matched by derivatives

    Enough of the regular-expression language to write the pattern of a
    campaign code.  A match is a match of the whole string, which is what
    the anchors [^] and [$] ask for. *)

Module Re.

Inductive regex : Type :=
| Void : regex
| Eps : regex
| Chr : ascii -> regex
| Range : ascii -> ascii -> regex
| Alt : regex -> regex -> regex
| Cat : regex -> regex -> regex.

Definition in_range (lo hi c : ascii) : bool :=
  (nat_of_ascii lo <=? nat_of_ascii c)%nat && (nat_of_ascii c <=? nat_of_ascii hi)%nat.

Fixpoint nullable (r : regex) : bool :=
  match r with
  | Void => false
  | Eps => true
  | Chr _ => false
  | Range _ _ => false
  | Alt a b => nullable a || nullable b
  | Cat a b => nullable a && nullable b
  end.

Fixpoint deriv (c : ascii) (r : regex) : regex :=
  match r with
  | Void => Void
  | Eps => Void
  | Chr d => if Ascii.eqb c d then Eps else Void
  | Range lo hi => if in_range lo hi c then Eps else Void
  | Alt a b => Alt (deriv c a) (deriv c b)
  | Cat a b =>
      if nullable a then Alt (Cat (deriv c a) b) (deriv c b)
      else Cat (deriv c a) b
  end.

Fixpoint matches (r : regex) (s : string) : bool :=
  match s with
  | EmptyString => nullable r
  | String c s' => matches (deriv c r) s'
  end.

(** [r{n}] *)
Fixpoint times (n : nat) (r : regex) : regex :=
  match n with
  | O => Eps
  | S n' => Cat r (times n' r)
  end.

(** [[A-Z0-9]] *)
Definition upper_or_digit : regex := Alt (Range "A" "Z") (Range "0" "9").

(** [^TF-[A-Z0-9]{6}$] *)
Definition campaign_code : regex :=
  Cat (Chr "T") (Cat (Chr "F") (Cat (Chr "-") (times 6 upper_or_digit))).

End Re.

(* ================================================================= *)
(** ** Data model

    The rows of the tables the handlers touch.  The schema is not part of
    the program; the columns are those the handlers name, and the columns a
    handler passes through from the request body untouched are kept as an
    uninterpreted list of fields.  The columns that hold an amount hold
    the value they were sent. *)

Definition fields : Type := list (string * string).

Record User : Type := {
  u_id : string;
  u_is_ngo : bool;
  u_fields : fields
}.

Record Campaign : Type := {
  c_id : string;
  c_created_by : string;
  c_unique_code : string;
  c_collected_amount : Js.value;
  c_verified : bool;
  c_created_at : Z;
  c_fields : fields
}.

Record Donation : Type := {
  d_id : string;
  d_campaign_id : string;
  d_amount : Js.value;
  d_tip_amount : Js.value;
  d_donor_name : option string;
  d_donor_id : option string;
  d_created_at : Z
}.

Record NgoVerification : Type := {
  v_id : string;
  v_user_id : string;
  v_verified : bool;
  v_requested_at : Z;
  v_fields : fields
}.

(** Reviews and tickets are flat records whose columns all come from the
    request body. *)
Record Doc : Type := {
  doc_id : string;
  doc_created_at : Z;
  doc_fields : fields
}.

Record Store : Type := {
  tbl_users : list User;
  tbl_campaigns : list Campaign;
  tbl_donations : list Donation;
  tbl_reviews : list Doc;
  tbl_tickets : list Doc;
  tbl_ngo_verifications : list NgoVerification;
  next_id : N;
  clock : Z
}.

(** A JavaScript reference that may be [null] or [undefined]. *)
Inductive nullable (A : Type) : Type :=
| Undefined : nullable A
| Null : nullable A
| Val : A -> nullable A.
Arguments Undefined {A}.
Arguments Null {A}.
Arguments Val {A} _.

(** What a column receives from such a reference: [undefined] is dropped
    from the serialised object and [null] is sent, both leave the column
    empty. *)
Definition to_column {A : Type} (x : nullable A) : option A :=
  match x with
  | Val a => Some a
  | _ => None
  end.

Inductive Table : Type :=
| users | campaigns | donations | reviews | tickets | ngo_verifications.

(** The columns of a row that a body can itself carry, under the names of
    the columns: a handler that inserts the body, or spreads it into the
    object it inserts, hands them to the store with it.  [None] and
    [undefined] stand for a member the body does not have. *)
Record Preset : Type := {
  p_id : option string;
  p_created_at : option Z;
  p_requested_at : option Z;
  p_collected_amount : Js.value
}.

(** [req.body]: the members the handlers read, the columns it carries and
    the members the handlers only pass through.  The amounts are the
    values the parser of the body found, [undefined] when there is none;
    the other members are taken at the types of the data model, a flag
    that the body does not have being false. *)
Record Body : Type := {
  campaignId : string;
  amount : Js.value;
  tipAmount : Js.value;
  donorName : option string;
  verified : bool;
  cause : string;
  hospitalEmail : option string;
  isTemporary : bool;
  preset : Preset;
  others : fields
}.

(** The object literals the handlers hand to [insert]. *)
Inductive Payload : Type :=
| NewCampaign (body : Body) (created_by : string) (unique_code : string)
| NewDonation (campaign_id : string) (amount : Js.value) (tip_amount : Js.value)
              (donor_name : option string) (donor_id : nullable string)
| NewVerification (body : Body) (user_id : string)
| NewDoc (body : Body).

(** The object literals the handlers hand to [update]. *)
Inductive Patch : Type :=
| SetCollectedAmount (v : Js.value)
| SetVerified (v : bool)
| SetIsNgo (v : bool)
| SetBody (body : Body).

(** A query as the builder accumulates it: the column list of [select],
    the [eq] filter, the descending [order] and the [limit]. *)
Record Query : Type := {
  q_columns : string;
  q_eq : option (string * string);
  q_order : option string;
  q_limit : option nat
}.

Definition select (cols : string) : Query :=
  {| q_columns := cols; q_eq := None; q_order := None; q_limit := None |}.
Definition eq_ (col val : string) (q : Query) : Query :=
  {| q_columns := q_columns q; q_eq := Some (col, val);
     q_order := q_order q; q_limit := q_limit q |}.
Definition order_desc (col : string) (q : Query) : Query :=
  {| q_columns := q_columns q; q_eq := q_eq q;
     q_order := Some col; q_limit := q_limit q |}.
Definition limit (n : nat) (q : Query) : Query :=
  {| q_columns := q_columns q; q_eq := q_eq q;
     q_order := q_order q; q_limit := Some n |}.
(** The filter of an [update] that selects nothing back. *)
Definition where_ (col val : string) : Query := eq_ col val (select "").

(** The error object of the client. *)
Record PgError : Type := { message : string; code : string }.

(** The [{ data, error }] pair of a call: one of the two is set. *)
Inductive Reply (A : Type) : Type :=
| Data : A -> Reply A
| Error : PgError -> Reply A.
Arguments Data {A} _.
Arguments Error {A} _.

(** The reply of [auth.getUser]: the identifier of the user, and an error. *)
Record AuthReply : Type := {
  au_user : option string;
  au_error : option string
}.

(** Every call that leaves the process, and every line written to the
    console. *)
Inductive Call : Type :=
| GetUser (token : string)
| Select (t : Table) (q : Query) (single : bool)
| Insert (t : Table) (p : Payload)
| Update (t : Table) (p : Patch) (q : Query) (single : bool)
| Console (line : string).

Record World : Type := {
  store : Store;
  getUser : string -> AuthReply;
  random : nat -> Js.unit_double;
  drawn : nat;
  supabase_url : option string;
  faults : list (option PgError);
  log : list Call
}.

(* ================================================================= *)
(** ** The monad of handlers *)

Definition M (A : Type) : Type := World -> A * World.

Definition ret {A : Type} (a : A) : M A := fun w => (a, w).
Definition bind {A B : Type} (m : M A) (k : A -> M B) : M B :=
  fun w => let (a, w') := m w in k a w'.

Declare Scope handler_scope.
Delimit Scope handler_scope with handler.
Notation "x <- m ;; k" := (bind m (fun x => k))
  (at level 61, m at next level, right associativity) : handler_scope.
Notation "m ;; k" := (bind m (fun _ => k))
  (at level 61, right associativity) : handler_scope.
Local Open Scope handler_scope.

Definition with_store (s : Store) (w : World) : World :=
  {| store := s; getUser := getUser w; random := random w;
     drawn := drawn w; supabase_url := supabase_url w;
     faults := faults w; log := log w |}.

Definition record (c : Call) : M unit := fun w =>
  (tt, {| store := store w; getUser := getUser w; random := random w;
          drawn := drawn w; supabase_url := supabase_url w;
          faults := faults w; log := log w ++ [c] |}).

(** The next answer of the fault oracle; an exhausted oracle reports no
    fault. *)
Definition next_fault : M (option PgError) := fun w =>
  match faults w with
  | [] => (None, w)
  | f :: fs =>
      (f, {| store := store w; getUser := getUser w; random := random w;
             drawn := drawn w; supabase_url := supabase_url w;
             faults := fs; log := log w |})
  end.

(** [Math.random()] *)
Definition Math_random : M Js.unit_double := fun w =>
  (random w (drawn w),
   {| store := store w; getUser := getUser w; random := random w;
      drawn := S (drawn w); supabase_url := supabase_url w;
      faults := faults w; log := log w |}).

(** [supabase.auth.getUser(token)] *)
Definition auth_getUser (token : string) : M AuthReply :=
  record (GetUser token) ;;
  fun w => (getUser w token, w).

(** [console.log(line)] *)
Definition console_log (line : string) : M unit := record (Console line).

(* ================================================================= *)
(** ** The store

    The model of the external store, as the client documents it.  A table
    is the list of its rows in insertion order.  [eq] keeps the rows whose
    column equals the value, [order] sorts by a timestamp column, newest
    first, [limit] keeps a prefix, [single] asks for exactly one row and
    answers with error [PGRST116] otherwise.  The column list of [select]
    is logged and not applied: a row comes back whole, and a handler reads
    the columns it asked for.  An insert appends a row; the row has a
    fresh identifier and the current time unless the object inserted
    carries its own, a column the object sets has the value sent, and the
    collected amount of a campaign is 0 when the object sets none.  An
    update rewrites every row the filter keeps.  Objects travel as JSON: a
    member that is [undefined] is not sent, so that an insert leaves the
    column empty and an update leaves it as it is.  Any call fails, without
    effect, when the fault oracle says so. *)

Record Schema (R : Type) : Type := {
  s_table : Table;
  s_rows : Store -> list R;
  s_put : list R -> Store -> Store;
  s_text : string -> R -> option string;
  s_time : string -> R -> Z;
  s_new : Payload -> option (string -> Z -> R);
  s_patch : Patch -> option (R -> R)
}.

Definition PGRST116 : PgError :=
  {| message := "JSON object requested, multiple (or no) rows returned";
     code := "PGRST116" |}.

Definition PGRST204 : PgError :=
  {| message := "Could not find the column in the schema cache";
     code := "PGRST204" |}.

Definition fresh_id (n : N) : string := NilEmpty.string_of_uint (N.to_uint n).

Definition tick (s : Store) : Store :=
  {| tbl_users := tbl_users s; tbl_campaigns := tbl_campaigns s;
     tbl_donations := tbl_donations s; tbl_reviews := tbl_reviews s;
     tbl_tickets := tbl_tickets s;
     tbl_ngo_verifications := tbl_ngo_verifications s;
     next_id := N.succ (next_id s); clock := clock s + 1 |}.

Section Queries.
Variable R : Type.
Variable sch : Schema R.

Definition keeps (q : Query) (r : R) : bool :=
  match q_eq q with
  | None => true
  | Some (col, val) =>
      match s_text sch col r with
      | Some v => String.eqb v val
      | None => false
      end
  end.

Fixpoint insert_desc (key : R -> Z) (x : R) (l : list R) : list R :=
  match l with
  | [] => [x]
  | y :: l' =>
      if key x <? key y then y :: insert_desc key x l' else x :: y :: l'
  end.

Fixpoint sort_desc (key : R -> Z) (l : list R) : list R :=
  match l with
  | [] => []
  | x :: l' => insert_desc key x (sort_desc key l')
  end.

Definition ordered (q : Query) (l : list R) : list R :=
  match q_order q with
  | None => l
  | Some col => sort_desc (s_time sch col) l
  end.

Definition limited (q : Query) (l : list R) : list R :=
  match q_limit q with
  | None => l
  | Some n => firstn n l
  end.

Definition rows_of (q : Query) (s : Store) : list R :=
  limited q (ordered q (filter (keeps q) (s_rows sch s))).

Definition the_one (l : list R) : Reply R :=
  match l with
  | [r] => Data r
  | _ => Error PGRST116
  end.

(** [await supabase.from(t).select(..)...] *)
Definition await_rows (q : Query) : M (Reply (list R)) :=
  record (Select (s_table sch) q false) ;;
  f <- next_fault ;;
  match f with
  | Some e => ret (Error e)
  | None => fun w => (Data (rows_of q (store w)), w)
  end.

(** [await supabase.from(t).select(..)....single()] *)
Definition await_row (q : Query) : M (Reply R) :=
  record (Select (s_table sch) q true) ;;
  f <- next_fault ;;
  match f with
  | Some e => ret (Error e)
  | None => fun w => (the_one (rows_of q (store w)), w)
  end.

(** [await supabase.from(t).insert(p).select().single()] *)
Definition await_insert (p : Payload) : M (Reply R) :=
  record (Insert (s_table sch) p) ;;
  f <- next_fault ;;
  match f with
  | Some e => ret (Error e)
  | None =>
      match s_new sch p with
      | None => ret (Error PGRST204)
      | Some mk => fun w =>
          let s := store w in
          let r := mk (fresh_id (next_id s)) (clock s) in
          (Data r, with_store (tick (s_put sch (s_rows sch s ++ [r]) s)) w)
      end
  end.

Definition rewrite_rows (q : Query) (f : R -> R) (l : list R) : list R :=
  map (fun r => if keeps q r then f r else r) l.

(** [await supabase.from(t).update(p).eq(..)] *)
Definition await_update (p : Patch) (q : Query) : M (Reply unit) :=
  record (Update (s_table sch) p q false) ;;
  f <- next_fault ;;
  match f with
  | Some e => ret (Error e)
  | None =>
      match s_patch sch p with
      | None => ret (Error PGRST204)
      | Some g => fun w =>
          let s := store w in
          (Data tt, with_store (s_put sch (rewrite_rows q g (s_rows sch s)) s) w)
      end
  end.

(** [await supabase.from(t).update(p).eq(..).select().single()]: when the
    filter does not keep exactly one row the request is answered with an
    error and rolled back. *)
Definition await_update_row (p : Patch) (q : Query) : M (Reply R) :=
  record (Update (s_table sch) p q true) ;;
  f <- next_fault ;;
  match f with
  | Some e => ret (Error e)
  | None =>
      match s_patch sch p with
      | None => ret (Error PGRST204)
      | Some g => fun w =>
          let s := store w in
          match filter (keeps q) (s_rows sch s) with
          | [r] =>
              (Data (g r),
               with_store (s_put sch (rewrite_rows q g (s_rows sch s)) s) w)
          | _ => (Error PGRST116, w)
          end
      end
  end.
End Queries.

(* ================================================================= *)
(** ** The tables *)

(** The value of a column after [v] was sent for it: the value received,
    or the old one when nothing was sent. *)
Definition stored (old v : Js.value) : Js.value :=
  match Js.sent_as v with
  | Js.Undefined => old
  | x => x
  end.

(** The value of a column of a new row: empty when nothing was sent. *)
Definition column (v : Js.value) : Js.value := stored Js.Null v.

(** A column of a new row that the store fills unless the object inserted
    carries it. *)
Definition preset_or {A : Type} (given : option A) (default : A) : A :=
  match given with
  | Some a => a
  | None => default
  end.

Definition put_users (l : list User) (s : Store) : Store :=
  {| tbl_users := l; tbl_campaigns := tbl_campaigns s;
     tbl_donations := tbl_donations s; tbl_reviews := tbl_reviews s;
     tbl_tickets := tbl_tickets s;
     tbl_ngo_verifications := tbl_ngo_verifications s;
     next_id := next_id s; clock := clock s |}.

Definition put_campaigns (l : list Campaign) (s : Store) : Store :=
  {| tbl_users := tbl_users s; tbl_campaigns := l;
     tbl_donations := tbl_donations s; tbl_reviews := tbl_reviews s;
     tbl_tickets := tbl_tickets s;
     tbl_ngo_verifications := tbl_ngo_verifications s;
     next_id := next_id s; clock := clock s |}.

Definition put_donations (l : list Donation) (s : Store) : Store :=
  {| tbl_users := tbl_users s; tbl_campaigns := tbl_campaigns s;
     tbl_donations := l; tbl_reviews := tbl_reviews s;
     tbl_tickets := tbl_tickets s;
     tbl_ngo_verifications := tbl_ngo_verifications s;
     next_id := next_id s; clock := clock s |}.

Definition put_reviews (l : list Doc) (s : Store) : Store :=
  {| tbl_users := tbl_users s; tbl_campaigns := tbl_campaigns s;
     tbl_donations := tbl_donations s; tbl_reviews := l;
     tbl_tickets := tbl_tickets s;
     tbl_ngo_verifications := tbl_ngo_verifications s;
     next_id := next_id s; clock := clock s |}.

Definition put_tickets (l : list Doc) (s : Store) : Store :=
  {| tbl_users := tbl_users s; tbl_campaigns := tbl_campaigns s;
     tbl_donations := tbl_donations s; tbl_reviews := tbl_reviews s;
     tbl_tickets := l;
     tbl_ngo_verifications := tbl_ngo_verifications s;
     next_id := next_id s; clock := clock s |}.

Definition put_ngo_verifications (l : list NgoVerification) (s : Store) : Store :=
  {| tbl_users := tbl_users s; tbl_campaigns := tbl_campaigns s;
     tbl_donations := tbl_donations s; tbl_reviews := tbl_reviews s;
     tbl_tickets := tbl_tickets s;
     tbl_ngo_verifications := l;
     next_id := next_id s; clock := clock s |}.

Definition Users : Schema User :=
  {| s_table := users;
     s_rows := tbl_users;
     s_put := put_users;
     s_text := fun col u => if String.eqb col "id" then Some (u_id u) else None;
     s_time := fun _ _ => 0;
     s_new := fun _ => None;
     s_patch := fun p =>
       match p with
       | SetIsNgo b => Some (fun u =>
           {| u_id := u_id u; u_is_ngo := b; u_fields := u_fields u |})
       | _ => None
       end |}.

Definition Campaigns : Schema Campaign :=
  {| s_table := campaigns;
     s_rows := tbl_campaigns;
     s_put := put_campaigns;
     s_text := fun col c =>
       if String.eqb col "id" then Some (c_id c)
       else if String.eqb col "created_by" then Some (c_created_by c)
       else if String.eqb col "unique_code" then Some (c_unique_code c)
       else None;
     s_time := fun col c =>
       if String.eqb col "created_at" then c_created_at c else 0;
     s_new := fun p =>
       match p with
       | NewCampaign body by_ code_ => Some (fun id now =>
           {| c_id := preset_or (p_id (preset body)) id;
              c_created_by := by_; c_unique_code := code_;
              c_collected_amount :=
                stored (Js.int 0) (p_collected_amount (preset body));
              c_verified := verified body;
              c_created_at := preset_or (p_created_at (preset body)) now;
              c_fields := others body |})
       | _ => None
       end;
     s_patch := fun p =>
       match p with
       | SetCollectedAmount v => Some (fun c =>
           {| c_id := c_id c; c_created_by := c_created_by c;
              c_unique_code := c_unique_code c;
              c_collected_amount := stored (c_collected_amount c) v;
              c_verified := c_verified c;
              c_created_at := c_created_at c; c_fields := c_fields c |})
       | SetVerified b => Some (fun c =>
           {| c_id := c_id c; c_created_by := c_created_by c;
              c_unique_code := c_unique_code c;
              c_collected_amount := c_collected_amount c; c_verified := b;
              c_created_at := c_created_at c; c_fields := c_fields c |})
       | _ => None
       end |}.

Definition Donations : Schema Donation :=
  {| s_table := donations;
     s_rows := tbl_donations;
     s_put := put_donations;
     s_text := fun col d =>
       if String.eqb col "id" then Some (d_id d)
       else if String.eqb col "campaign_id" then Some (d_campaign_id d)
       else if String.eqb col "donor_id" then d_donor_id d
       else None;
     s_time := fun col d =>
       if String.eqb col "created_at" then d_created_at d else 0;
     s_new := fun p =>
       match p with
       | NewDonation cid amt tip name donor => Some (fun id now =>
           {| d_id := id; d_campaign_id := cid; d_amount := column amt;
              d_tip_amount := column tip; d_donor_name := name;
              d_donor_id := to_column donor; d_created_at := now |})
       | _ => None
       end;
     s_patch := fun _ => None |}.

(** The columns of [body] replace the columns of the same name. *)
Definition merge_fields (body old : fields) : fields :=
  (body ++
   filter (fun kv =>
             negb (existsb (fun kv' => String.eqb (fst kv') (fst kv)) body))
          old)%list.

Definition docs (t : Table) (rows : Store -> list Doc)
    (put : list Doc -> Store -> Store) : Schema Doc :=
  {| s_table := t;
     s_rows := rows;
     s_put := put;
     s_text := fun col d => if String.eqb col "id" then Some (doc_id d) else None;
     s_time := fun col d =>
       if String.eqb col "created_at" then doc_created_at d else 0;
     s_new := fun p =>
       match p with
       | NewDoc body => Some (fun id now =>
           {| doc_id := preset_or (p_id (preset body)) id;
              doc_created_at := preset_or (p_created_at (preset body)) now;
              doc_fields := others body |})
       | _ => None
       end;
     s_patch := fun p =>
       match p with
       | SetBody body => Some (fun d =>
           {| doc_id := preset_or (p_id (preset body)) (doc_id d);
              doc_created_at :=
                preset_or (p_created_at (preset body)) (doc_created_at d);
              doc_fields := merge_fields (others body) (doc_fields d) |})
       | _ => None
       end |}.

Definition Reviews : Schema Doc := docs reviews tbl_reviews put_reviews.
Definition Tickets : Schema Doc := docs tickets tbl_tickets put_tickets.

Definition NgoVerifications : Schema NgoVerification :=
  {| s_table := ngo_verifications;
     s_rows := tbl_ngo_verifications;
     s_put := put_ngo_verifications;
     s_text := fun col v =>
       if String.eqb col "id" then Some (v_id v)
       else if String.eqb col "user_id" then Some (v_user_id v)
       else None;
     s_time := fun col v =>
       if String.eqb col "requested_at" then v_requested_at v else 0;
     s_new := fun p =>
       match p with
       | NewVerification body uid => Some (fun id now =>
           {| v_id := preset_or (p_id (preset body)) id;
              v_user_id := uid; v_verified := verified body;
              v_requested_at := preset_or (p_requested_at (preset body)) now;
              v_fields := others body |})
       | _ => None
       end;
     s_patch := fun p =>
       match p with
       | SetVerified b => Some (fun v =>
           {| v_id := v_id v; v_user_id := v_user_id v; v_verified := b;
              v_requested_at := v_requested_at v; v_fields := v_fields v |})
       | _ => None
       end |}.

(* ================================================================= *)
(** ** Requests and responses *)

Inductive Method : Type := GET | HEAD | POST | PUT | PATCH | DELETE.

Record Request : Type := {
  method : Method;
  path : list string;              (* the segments of the path *)
  authorization : option string;   (* req.headers.authorization *)
  query : list (string * Js.value);
    (* req.query, as the parser of the query string leaves it: a text for
       a key given once, an array for a key given several times *)
  body : Body                      (* req.body *)
}.

(** What a handler sends. *)
Inductive Sent : Type :=
| JNull
| JError (error : string)
| JSession (user : string)
| JUser (u : User)
| JCampaign (c : Campaign)
| JCampaigns (l : list Campaign)
| JDonation (d : Donation)
| JDonations (l : list Donation)
| JDoc (d : Doc)
| JDocs (l : list Doc)
| JVerification (v : NgoVerification)
| JVerifications (l : list NgoVerification)
| JStats (totalRaised : Js.value) (campaignsFunded livesImpacted : Z)
| JSuccess (message : string)
| Text (s : string)
| VerificationPage (verified : bool) (home : string).

Record Response : Type := { status : Z; sent : Sent }.

(** [res.json(x)] and [res.status(n).json(x)] *)
Definition json (x : Sent) : M Response := ret {| status := 200; sent := x |}.
Definition status_json (n : Z) (x : Sent) : M Response :=
  ret {| status := n; sent := x |}.

(* ================================================================= *)
(** ** The campaign code *)

Definition chars : string := "ABCDEFGHIJKLMNOPQRSTUVWXYZ0123456789".

(** The loop of [generateUniqueCampaignCode], [n] iterations left. *)
Fixpoint code_loop (n : nat) (code : string) : M string :=
  match n with
  | O => ret code
  | S n' =>
      r <- Math_random ;;
      code_loop n'
        (code ++ Js.charAt chars (Js.floor_mul r (Z.of_nat (String.length chars))))
  end.

Definition generateUniqueCampaignCode : M string := code_loop 6 "TF-".

(* ================================================================= *)
(** ** The handlers of [registerRoutes] *)

(** The block every protected handler starts with: no header, an error of
    the identity provider or no user end the request with 401; otherwise
    the handler goes on with the identifier of the user. *)
Definition authenticated (req : Request) (k : string -> M Response) : M Response :=
  let authHeader := authorization req in
  if negb (Js.truthy authHeader) then
    status_json 401 (JError "Unauthorized")
  else
    let token := Js.replace "Bearer " "" (Js.known authHeader) in
    a <- auth_getUser token ;;
    match au_error a, au_user a with
    | None, Some user => k user
    | _, _ => status_json 401 (JError "Unauthorized")
    end.

(** GET /api/auth/session *)
Definition get_auth_session (req : Request) : M Response :=
  let authHeader := authorization req in
  if negb (Js.truthy authHeader) then json JNull
  else
    let token := Js.replace "Bearer " "" (Js.known authHeader) in
    a <- auth_getUser token ;;
    match au_error a, au_user a with
    | None, Some user => json (JSession user)
    | _, _ => json JNull
    end.

(** GET /api/auth/user *)
Definition get_auth_user (req : Request) : M Response :=
  authenticated req (fun authUser =>
    r <- await_row Users (eq_ "id" authUser (select "*")) ;;
    match r with
    | Error _ => status_json 404 (JError "User not found")
    | Data user => json (JUser user)
    end).

(** GET /api/campaigns *)
Definition get_campaigns (req : Request) : M Response :=
  r <- await_rows Campaigns (order_desc "created_at" (select "*")) ;;
  match r with
  | Error e => status_json 500 (JError (message e))
  | Data l => json (JCampaigns l)
  end.

(** GET /api/campaigns/:id *)
Definition get_campaign (id : string) (req : Request) : M Response :=
  r <- await_row Campaigns (eq_ "id" id (select "*")) ;;
  match r with
  | Error _ => status_json 404 (JError "Campaign not found")
  | Data campaign => json (JCampaign campaign)
  end.

(** GET /api/campaigns/my *)
Definition get_campaigns_my (req : Request) : M Response :=
  authenticated req (fun user =>
    r <- await_rows Campaigns
           (order_desc "created_at" (eq_ "created_by" user (select "*"))) ;;
    match r with
    | Error e => status_json 500 (JError (message e))
    | Data l => json (JCampaigns l)
    end).

(** POST /api/campaigns *)
Definition post_campaigns (req : Request) : M Response :=
  authenticated req (fun user =>
    uniqueCode <- generateUniqueCampaignCode ;;
    r <- await_insert Campaigns (NewCampaign (body req) user uniqueCode) ;;
    match r with
    | Error e => status_json 500 (JError (message e))
    | Data campaign =>
        (if String.eqb (cause (body req)) "Medical"
            && Js.truthy (hospitalEmail (body req))
            && negb (isTemporary (body req))
         then console_log ("TODO: Send hospital verification email to: "
                           ++ Js.shown (hospitalEmail (body req)))
         else ret tt) ;;
        json (JCampaign campaign)
    end).

(** GET /api/campaigns/:id/donations *)
Definition get_campaign_donations (id : string) (req : Request) : M Response :=
  r <- await_rows Donations
         (order_desc "created_at" (eq_ "campaign_id" id (select "*"))) ;;
  match r with
  | Error e => status_json 500 (JError (message e))
  | Data l => json (JDonations l)
  end.

(** GET /api/donations/my *)
Definition get_donations_my (req : Request) : M Response :=
  authenticated req (fun user =>
    r <- await_rows Donations
           (order_desc "created_at" (eq_ "donor_id" user (select "*"))) ;;
    match r with
    | Error e => status_json 500 (JError (message e))
    | Data l => json (JDonations l)
    end).

(** [x || 0] *)
Definition or_zero (x : Js.value) : Js.value := Js.or x (Js.int 0).

(** [user?.id] *)
Definition optional_id (user : option string) : nullable string :=
  match user with
  | Some id => Val id
  | None => Undefined
  end.

(** The first part of POST /api/donations: [donorId]. *)
Definition resolve_donor (req : Request) : M (nullable string) :=
  let authHeader := authorization req in
  if Js.truthy authHeader then
    let token := Js.replace "Bearer " "" (Js.known authHeader) in
    a <- auth_getUser token ;;
    ret (optional_id (au_user a))
  else ret Null.

(** The rest of POST /api/donations, from the insert on. *)
Definition record_donation (req : Request) (donorId : nullable string) : M Response :=
  let campaignId := campaignId (body req) in
  let amount := amount (body req) in
  r <- await_insert Donations
         (NewDonation campaignId amount (or_zero (tipAmount (body req)))
                      (donorName (body req)) donorId) ;;
  match r with
  | Error donationError => status_json 500 (JError (message donationError))
  | Data donation =>
      c <- await_row Campaigns (eq_ "id" campaignId (select "collected_amount")) ;;
      match c with
      | Data campaign =>
          await_update Campaigns
            (SetCollectedAmount (Js.plus (c_collected_amount campaign) amount))
            (where_ "id" campaignId) ;;
          json (JDonation donation)
      | Error _ => json (JDonation donation)
      end
  end.

(** POST /api/donations *)
Definition post_donations (req : Request) : M Response :=
  donorId <- resolve_donor req ;;
  record_donation req donorId.

(** GET /api/reviews *)
Definition get_reviews (req : Request) : M Response :=
  r <- await_rows Reviews (limit 10 (order_desc "created_at" (select "*"))) ;;
  match r with
  | Error e => status_json 500 (JError (message e))
  | Data l => json (JDocs l)
  end.

(** POST /api/reviews *)
Definition post_reviews (req : Request) : M Response :=
  r <- await_insert Reviews (NewDoc (body req)) ;;
  match r with
  | Error e => status_json 500 (JError (message e))
  | Data review => json (JDoc review)
  end.

(** GET /api/admin/tickets *)
Definition get_admin_tickets (req : Request) : M Response :=
  r <- await_rows Tickets (order_desc "created_at" (select "*")) ;;
  match r with
  | Error e => status_json 500 (JError (message e))
  | Data l => json (JDocs l)
  end.

(** POST /api/tickets *)
Definition post_tickets (req : Request) : M Response :=
  r <- await_insert Tickets (NewDoc (body req)) ;;
  match r with
  | Error e => status_json 500 (JError (message e))
  | Data ticket => json (JDoc ticket)
  end.

(** PATCH /api/admin/tickets/:id *)
Definition patch_admin_ticket (id : string) (req : Request) : M Response :=
  r <- await_update_row Tickets (SetBody (body req)) (eq_ "id" id (select "*")) ;;
  match r with
  | Error e => status_json 500 (JError (message e))
  | Data ticket => json (JDoc ticket)
  end.

(** GET /api/ngo-verifications/my *)
Definition get_ngo_verifications_my (req : Request) : M Response :=
  authenticated req (fun user =>
    r <- await_row NgoVerifications (eq_ "user_id" user (select "*")) ;;
    match r with
    | Error e =>
        if negb (String.eqb (code e) "PGRST116")
        then status_json 500 (JError (message e))
        else json JNull
    | Data verification => json (JVerification verification)
    end).

(** POST /api/ngo-verifications *)
Definition post_ngo_verifications (req : Request) : M Response :=
  authenticated req (fun user =>
    r <- await_insert NgoVerifications (NewVerification (body req) user) ;;
    match r with
    | Error e => status_json 500 (JError (message e))
    | Data verification => json (JVerification verification)
    end).

(** GET /api/admin/ngo-verifications *)
Definition get_admin_ngo_verifications (req : Request) : M Response :=
  r <- await_rows NgoVerifications (order_desc "requested_at" (select "*")) ;;
  match r with
  | Error e => status_json 500 (JError (message e))
  | Data l => json (JVerifications l)
  end.

(** PATCH /api/admin/ngo-verifications/:id *)
Definition patch_admin_ngo_verification (id : string) (req : Request) : M Response :=
  let verified := verified (body req) in
  r <- await_update_row NgoVerifications (SetVerified verified)
         (eq_ "id" id (select "*")) ;;
  match r with
  | Error e => status_json 500 (JError (message e))
  | Data verification =>
      (if verified
       then await_update Users (SetIsNgo true)
              (where_ "id" (v_user_id verification)) ;; ret tt
       else ret tt) ;;
      json (JVerification verification)
  end.

(** [campaigns.reduce((sum, c) => sum + (c.collected_amount || 0), 0)] *)
Definition sum_collected (l : list Campaign) : Js.value :=
  fold_left (fun sum c => Js.plus sum (or_zero (c_collected_amount c))) l
            (Js.int 0).

(** GET /api/stats *)
Definition get_stats (req : Request) : M Response :=
  cs <- await_rows Campaigns (select "collected_amount, verified") ;;
  ds <- await_rows Donations (select "amount") ;;
  let totalRaised :=
    or_zero (match cs with
             | Data l => sum_collected l
             | Error _ => Js.Undefined
             end) in
  let campaignsFunded :=
    match cs with
    | Data l => Z.of_nat (List.length (filter c_verified l))
    | Error _ => 0
    end in
  let livesImpacted :=
    match ds with Data l => Z.of_nat (List.length l) | Error _ => 0 end in
  json (JStats totalRaised campaignsFunded livesImpacted).

(** POST /api/send-hospital-verification *)
Definition post_send_hospital_verification (req : Request) : M Response :=
  let campaignId := campaignId (body req) in
  let hospitalEmail := hospitalEmail (body req) in
  console_log ("Send verification email to " ++ Js.shown hospitalEmail
               ++ " for campaign " ++ campaignId) ;;
  url <- (fun w => (supabase_url w, w)) ;;
  console_log ("Verification link: " ++ Js.shown url
               ++ "/api/verify-hospital?campaign_id=" ++ campaignId
               ++ "&decision=yes") ;;
  json (JSuccess "Verification email sent (stubbed)").

Definition lookup {A : Type} (k : string) (l : list (string * A)) : option A :=
  match find (fun kv => String.eqb (fst kv) k) l with
  | Some kv => Some (snd kv)
  | None => None
  end.

(** [o.k] on a parsed object: [undefined] when there is no such member. *)
Definition member (k : string) (l : list (string * Js.value)) : Js.value :=
  match lookup k l with
  | Some v => v
  | None => Js.Undefined
  end.

(** GET /api/verify-hospital *)
Definition get_verify_hospital (req : Request) : M Response :=
  let campaign_id := member "campaign_id" (query req) in
  let decision := member "decision" (query req) in
  if negb (Js.to_boolean campaign_id) || negb (Js.to_boolean decision) then
    ret {| status := 400; sent := Text "Invalid request" |}
  else
    let verified := Js.is_string "yes" decision in
    r <- await_update Campaigns (SetVerified verified)
           (where_ "id" (Js.to_string campaign_id)) ;;
    match r with
    | Error _ => ret {| status := 500; sent := Text "Error updating campaign" |}
    | Data _ =>
        url <- (fun w => (supabase_url w, w)) ;;
        ret {| status := 200;
               sent := VerificationPage verified
                         (if Js.truthy url then Js.shown url
                          else "https://truefund.com") |}
    end.

(* ================================================================= *)
(** ** The router

    Express tries the routes in the order of their registration; the first
    one whose method and path match the request handles it.  A [:name]
    segment matches any segment, a literal segment matches without regard
    to case, and a route registered for GET also serves HEAD. *)

Inductive Segment : Type :=
| Lit (s : string)
| Param (name : string).

Definition lower_ascii (c : ascii) : ascii :=
  let n := nat_of_ascii c in
  if (65 <=? n)%nat && (n <=? 90)%nat then ascii_of_nat (n + 32) else c.

Fixpoint lower (s : string) : string :=
  match s with
  | EmptyString => EmptyString
  | String c s' => String (lower_ascii c) (lower s')
  end.

Fixpoint match_path (pat : list Segment) (p : list string)
    : option (list (string * string)) :=
  match pat, p with
  | [], [] => Some []
  | Lit s :: pat', x :: p' =>
      if String.eqb (lower s) (lower x) then match_path pat' p' else None
  | Param name :: pat', x :: p' =>
      match match_path pat' p' with
      | Some ps => Some ((name, x) :: ps)
      | None => None
      end
  | _, _ => None
  end.

Definition serves (route request : Method) : bool :=
  match route, request with
  | GET, GET | GET, HEAD | POST, POST | PATCH, PATCH => true
  | _, _ => false
  end.

Definition Handler : Type := list (string * string) -> Request -> M Response.

Record Route : Type := {
  r_method : Method;
  r_path : list Segment;
  r_handler : Handler
}.

Definition param (name : string) (ps : list (string * string)) : string :=
  match lookup name ps with Some v => v | None => "" end.

Definition app_get (p : list Segment) (h : Handler) : Route :=
  {| r_method := GET; r_path := p; r_handler := h |}.
Definition app_post (p : list Segment) (h : Handler) : Route :=
  {| r_method := POST; r_path := p; r_handler := h |}.
Definition app_patch (p : list Segment) (h : Handler) : Route :=
  {| r_method := PATCH; r_path := p; r_handler := h |}.

(** The registrations of [registerRoutes], in their order. *)
Definition registerRoutes : list Route :=
  [ app_get [Lit "api"; Lit "auth"; Lit "session"] (fun _ => get_auth_session);
    app_get [Lit "api"; Lit "auth"; Lit "user"] (fun _ => get_auth_user);
    app_get [Lit "api"; Lit "campaigns"] (fun _ => get_campaigns);
    app_get [Lit "api"; Lit "campaigns"; Param "id"]
      (fun ps => get_campaign (param "id" ps));
    app_get [Lit "api"; Lit "campaigns"; Lit "my"] (fun _ => get_campaigns_my);
    app_post [Lit "api"; Lit "campaigns"] (fun _ => post_campaigns);
    app_get [Lit "api"; Lit "campaigns"; Param "id"; Lit "donations"]
      (fun ps => get_campaign_donations (param "id" ps));
    app_get [Lit "api"; Lit "donations"; Lit "my"] (fun _ => get_donations_my);
    app_post [Lit "api"; Lit "donations"] (fun _ => post_donations);
    app_get [Lit "api"; Lit "reviews"] (fun _ => get_reviews);
    app_post [Lit "api"; Lit "reviews"] (fun _ => post_reviews);
    app_get [Lit "api"; Lit "admin"; Lit "tickets"] (fun _ => get_admin_tickets);
    app_post [Lit "api"; Lit "tickets"] (fun _ => post_tickets);
    app_patch [Lit "api"; Lit "admin"; Lit "tickets"; Param "id"]
      (fun ps => patch_admin_ticket (param "id" ps));
    app_get [Lit "api"; Lit "ngo-verifications"; Lit "my"]
      (fun _ => get_ngo_verifications_my);
    app_post [Lit "api"; Lit "ngo-verifications"]
      (fun _ => post_ngo_verifications);
    app_get [Lit "api"; Lit "admin"; Lit "ngo-verifications"]
      (fun _ => get_admin_ngo_verifications);
    app_patch [Lit "api"; Lit "admin"; Lit "ngo-verifications"; Param "id"]
      (fun ps => patch_admin_ngo_verification (param "id" ps));
    app_get [Lit "api"; Lit "stats"] (fun _ => get_stats);
    app_post [Lit "api"; Lit "send-hospital-verification"]
      (fun _ => post_send_hospital_verification);
    app_get [Lit "api"; Lit "verify-hospital"] (fun _ => get_verify_hospital) ].

(** The first route that matches, with the parameters of the match. *)
Fixpoint dispatch (routes : list Route) (req : Request)
    : option (Route * list (string * string)) :=
  match routes with
  | [] => None
  | r :: rest =>
      if serves (r_method r) (method req) then
        match match_path (r_path r) (path req) with
        | Some ps => Some (r, ps)
        | None => dispatch rest req
        end
      else dispatch rest req
  end.

(** The response of the application to a request; [None] when no route of
    [registerRoutes] matches and the request goes on to later middleware. *)
Definition serve (req : Request) : option (M Response) :=
  match dispatch registerRoutes req with
  | Some (r, ps) => Some (r_handler r ps req)
  | None => None
  end.

(* ================================================================= *)
(** ** Vocabulary of the statements *)

Local Open Scope list_scope.

(** *** Worlds and calls *)

(** The answer of the fault oracle to the [n]-th call to the store. *)
Definition fault_at (n : nat) (w : World) : option PgError :=
  nth n (faults w) None.

(** The world after a call to the store: the call is logged and the fault
    oracle has given one answer. *)
Definition called (c : Call) (w : World) : World :=
  {| store := store w; getUser := getUser w; random := random w;
     drawn := drawn w; supabase_url := supabase_url w;
     faults := tl (faults w); log := log w ++ [c] |}.

Definition is_read (c : Call) : bool :=
  match c with
  | Select _ _ _ => true
  | _ => false
  end.

(** *** The campaign code *)

(** A character of [[A-Z0-9]]. *)
Definition alnum (c : ascii) : bool :=
  Re.in_range "A" "Z" c || Re.in_range "0" "9" c.

Fixpoint text_of (l : list ascii) : string :=
  match l with
  | [] => ""
  | c :: l' => String c (text_of l')
  end.

(** The next [n] results of [Math.random] are binary64 numbers of the unit
    interval. *)
Definition valid_draws (n : nat) (w : World) : Prop :=
  forall k, (drawn w <= k < drawn w + n)%nat -> Js.in_unit (random w k).

(** Two worlds that agree on what [Math.random] returns from now on. *)
Definition same_entropy (w1 w2 : World) : Prop :=
  random w1 = random w2 /\ drawn w1 = drawn w2.

(** *** Credentials *)

(** The token a handler extracts from the header. *)
Definition bearer (h : option string) : string :=
  Js.replace "Bearer " "" (Js.known h).

(** The request carries no usable credential: no header, or a token the
    identity provider answers with an error or with no user. *)
Definition unauthenticated (req : Request) (w : World) : Prop :=
  Js.truthy (authorization req) = false \/
  au_error (getUser w (bearer (authorization req))) <> None \/
  au_user (getUser w (bearer (authorization req))) = None.

(** The same request without its [Authorization] header. *)
Definition anonymous (req : Request) : Request :=
  {| method := method req; path := path req; authorization := None;
     query := query req; body := body req |}.

Definition unauthorized : Response :=
  {| status := 401; sent := JError "Unauthorized" |}.

Definition campaign_not_found : Response :=
  {| status := 404; sent := JError "Campaign not found" |}.

Definition internal_error (e : PgError) : Response :=
  {| status := 500; sent := JError (message e) |}.

(** The request comes with a token that the identity provider resolves,
    without error, to [user]. *)
Definition signed_in (req : Request) (w : World) (user : string) : Prop :=
  Js.truthy (authorization req) = true /\
  getUser w (bearer (authorization req))
    = {| au_user := Some user; au_error := None |}.

(** The world after the call to the identity provider. *)
Definition called_provider (req : Request) (w : World) : World :=
  {| store := store w; getUser := getUser w; random := random w;
     drawn := drawn w; supabase_url := supabase_url w;
     faults := faults w;
     log := log w ++ [GetUser (bearer (authorization req))] |}.

Definition user_not_found : Response :=
  {| status := 404; sent := JError "User not found" |}.

(** The handlers that check the error of their call to the store and
    answer it with 500 and the message of the store: those that need no
    credential, and those that start with the guard.  With
    GET /api/ngo-verifications/my, which does so for every code but one,
    they are the fifteen handlers that contain the line
    [return res.status(500).json({ error: error.message })]. *)
Definition checking_handlers (id : string) : list (Request -> M Response) :=
  [ get_campaigns; get_campaign_donations id; post_donations;
    get_reviews; post_reviews; get_admin_tickets; post_tickets;
    patch_admin_ticket id; get_admin_ngo_verifications;
    patch_admin_ngo_verification id ].

Definition guarded_checking_handlers : list (Request -> M Response) :=
  [ get_campaigns_my; post_campaigns; get_donations_my;
    post_ngo_verifications ].

(** The protected endpoints that the router hands to their own handler. *)
Definition guarded_endpoints : list (Method * list string) :=
  [ (GET, ["api"; "auth"; "user"]);
    (POST, ["api"; "campaigns"]);
    (GET, ["api"; "donations"; "my"]);
    (GET, ["api"; "ngo-verifications"; "my"]);
    (POST, ["api"; "ngo-verifications"]) ].

(** *** Numbers *)

(** The binary64 of a positive integer below [2^53]: the bits of the
    integer, moved up to the top of the significand of 53 bits. *)
Definition canonical (n : Z) : Js.number :=
  S754_finite false (Z.to_pos (n * 2 ^ (52 - Z.log2 n))) (Z.log2 n - 52).

(** *** The ledger *)

(** The campaign of an identifier, as a read with [single] returns it. *)
Definition find_campaign (id : string) (s : Store) : Reply Campaign :=
  the_one (rows_of Campaigns (eq_ "id" id (select "*")) s).

(** The integer an amount is, when it is a number and an integer. *)
Definition amount_of (v : Js.value) : option Z :=
  match v with
  | Js.Num x => Js.to_Z x
  | _ => None
  end.

(** The sum of amounts that are integers. *)
Fixpoint sum_amounts (l : list Js.value) : option Z :=
  match l with
  | [] => Some 0
  | v :: l' =>
      match amount_of v, sum_amounts l' with
      | Some a, Some sum => Some (a + sum)
      | _, _ => None
      end
  end.

(** The sum of the donations made to a campaign. *)
Definition donated (id : string) (s : Store) : option Z :=
  sum_amounts
    (map d_amount
       (filter (fun d => String.eqb (d_campaign_id d) id) (tbl_donations s))).

(** The ledger invariant for one campaign: its total is the sum of its
    donations. *)
Definition ledger_balanced (id : string) (s : Store) : Prop :=
  forall c, find_campaign id s = Data c ->
    exists total, amount_of (c_collected_amount c) = Some total /\
                  donated id s = Some total.

(** The donor reference that the first step of POST /api/donations yields,
    and the call it makes to the identity provider. *)
Definition donor_of (req : Request) (w : World) : nullable string :=
  if Js.truthy (authorization req)
  then optional_id (au_user (getUser w (bearer (authorization req))))
  else Null.

Definition auth_calls (req : Request) : list Call :=
  if Js.truthy (authorization req)
  then [GetUser (bearer (authorization req))]
  else [].

(** The object POST /api/donations inserts, the row the store makes of it,
    and the store after the insert. *)
Definition donation_payload (req : Request) (donor : nullable string) : Payload :=
  NewDonation (campaignId (body req)) (amount (body req))
              (or_zero (tipAmount (body req))) (donorName (body req)) donor.

Definition donation_row (req : Request) (donor : nullable string) (s : Store) : Donation :=
  {| d_id := fresh_id (next_id s);
     d_campaign_id := campaignId (body req);
     d_amount := column (amount (body req));
     d_tip_amount := column (or_zero (tipAmount (body req)));
     d_donor_name := donorName (body req);
     d_donor_id := to_column donor;
     d_created_at := clock s |}.

Definition with_donation (req : Request) (donor : nullable string) (s : Store) : Store :=
  tick (put_donations (tbl_donations s ++ [donation_row req donor s]) s).

(** The three calls POST /api/donations makes to the store. *)
Definition insert_call (req : Request) (donor : nullable string) : Call :=
  Insert donations (donation_payload req donor).
Definition read_call (req : Request) : Call :=
  Select campaigns (eq_ "id" (campaignId (body req)) (select "collected_amount")) true.
Definition write_call (req : Request) (total : Js.value) : Call :=
  Update campaigns (SetCollectedAmount total)
         (where_ "id" (campaignId (body req))) false.

(** A campaign with its total replaced, and the campaigns table with the
    total of the campaigns of one identifier replaced. *)
Definition set_total (total : Js.value) (c : Campaign) : Campaign :=
  {| c_id := c_id c; c_created_by := c_created_by c;
     c_unique_code := c_unique_code c;
     c_collected_amount := total; c_verified := c_verified c;
     c_created_at := c_created_at c; c_fields := c_fields c |}.

Definition with_total (id : string) (total : Js.value) (s : Store) : Store :=
  put_campaigns
    (rewrite_rows Campaigns (where_ "id" id) (set_total total) (tbl_campaigns s)) s.

(** *** The steps of POST /api/donations

    The calls of the four steps, written from their description and not
    with the helpers of the handler: the tip inserted is the tip given, or
    0 when there is none; the read asks for the collected amount of the
    campaign of the donation; the write sets it to the total read plus the
    amount, on the same campaign. *)
Definition tip_given (b : Body) : Js.value :=
  if Js.to_boolean (tipAmount b) then tipAmount b else Js.int 0.

Definition step_insert (b : Body) (donor : nullable string) : Call :=
  Insert donations
    (NewDonation (campaignId b) (amount b) (tip_given b) (donorName b) donor).

Definition step_read (b : Body) : Call :=
  Select campaigns
    {| q_columns := "collected_amount"; q_eq := Some ("id", campaignId b);
       q_order := None; q_limit := None |} true.

Definition step_write (b : Body) (total : Js.value) : Call :=
  Update campaigns (SetCollectedAmount (Js.plus total (amount b)))
    {| q_columns := ""; q_eq := Some ("id", campaignId b);
       q_order := None; q_limit := None |} false.

(** The calls that follow the first step, for a donor: the insert alone
    when the store fails it; the insert and the read when the read fails or
    finds no campaign; the insert, the read and the write otherwise. *)
Definition steps_from_insert (b : Body) (donor : nullable string) (w : World)
    : list Call :=
  match fault_at 0 w with
  | Some _ => [step_insert b donor]
  | None =>
      match fault_at 1 w, find_campaign (campaignId b) (store w) with
      | None, Data c =>
          [step_insert b donor; step_read b; step_write b (c_collected_amount c)]
      | _, _ => [step_insert b donor; step_read b]
      end
  end.

(** *** NGO verifications *)

(** The two calls of PATCH /api/admin/ngo-verifications/:id. *)
Definition verify_call (id : string) (v : bool) : Call :=
  Update ngo_verifications (SetVerified v) (eq_ "id" id (select "*")) true.
Definition promote_call (user : string) : Call :=
  Update users (SetIsNgo true) (where_ "id" user) false.

Definition set_verified (b : bool) (v : NgoVerification) : NgoVerification :=
  {| v_id := v_id v; v_user_id := v_user_id v; v_verified := b;
     v_requested_at := v_requested_at v; v_fields := v_fields v |}.

Definition set_is_ngo (b : bool) (u : User) : User :=
  {| u_id := u_id u; u_is_ngo := b; u_fields := u_fields u |}.

(** The verification records of an identifier. *)
Definition verifications_of (id : string) (s : Store) : list NgoVerification :=
  filter (keeps NgoVerifications (eq_ "id" id (select "*")))
         (tbl_ngo_verifications s).

(** The users table after the promotion of one user. *)
Definition promoted (user : string) (l : list User) : list User :=
  rewrite_rows Users (where_ "id" user) (set_is_ngo true) l.

(** No row of the second table has lost its NGO flag. *)
Definition flags_kept (before after : list User) : Prop :=
  Forall2 (fun u u' => u_id u' = u_id u /\
                       (u_is_ngo u = true -> u_is_ngo u' = true))
          before after.

(** *** Reviews *)

(** Newest first: the second row is not newer than the first. *)
Definition not_newer (R : Type) (key : R -> Z) (a b : R) : Prop :=
  key b <= key a.

(* ================================================================= *)
(** ** Sample data *)

Definition empty_store : Store :=
  {| tbl_users := []; tbl_campaigns := []; tbl_donations := [];
     tbl_reviews := []; tbl_tickets := []; tbl_ngo_verifications := [];
     next_id := 1; clock := 0 |}.

(** An identity provider that knows one token. *)
Definition sessions (token : string) : AuthReply :=
  if String.eqb token "alice-token"
  then {| au_user := Some "alice"; au_error := None |}
  else {| au_user := None; au_error := Some "invalid JWT" |}.

(** One half, as a binary64. *)
Definition one_half : Js.unit_double := {| Js.mant := 2 ^ 52; Js.expo := 53 |}.

(** A world over a store, with the answers of the fault oracle. *)
Definition world_of (s : Store) (fs : list (option PgError)) : World :=
  {| store := s; getUser := sessions; random := fun _ => one_half;
     drawn := 0; supabase_url := None; faults := fs; log := [] |}.

Definition store_timeout : PgError :=
  {| message := "upstream timeout"; code := "57014" |}.

(** One campaign that has received one donation. *)
Definition campaign_c1 : Campaign :=
  {| c_id := "c1"; c_created_by := "alice"; c_unique_code := "TF-ABC123";
     c_collected_amount := Js.int 100; c_verified := false; c_created_at := 1;
     c_fields := [] |}.

Definition donation_d1 : Donation :=
  {| d_id := "d1"; d_campaign_id := "c1"; d_amount := Js.int 100;
     d_tip_amount := Js.int 0;
     d_donor_name := None; d_donor_id := None; d_created_at := 2 |}.

Definition store_c1 : Store :=
  {| tbl_users := [{| u_id := "alice"; u_is_ngo := false; u_fields := [] |}];
     tbl_campaigns := [campaign_c1];
     tbl_donations := [donation_d1];
     tbl_reviews := []; tbl_tickets := []; tbl_ngo_verifications := [];
     next_id := 7; clock := 3 |}.

(** A pending verification of user bob, a granted one of user alice. *)
Definition store_ngo : Store :=
  {| tbl_users := [{| u_id := "alice"; u_is_ngo := true; u_fields := [] |};
                   {| u_id := "bob"; u_is_ngo := false; u_fields := [] |}];
     tbl_campaigns := []; tbl_donations := [];
     tbl_reviews := []; tbl_tickets := [];
     tbl_ngo_verifications :=
       [{| v_id := "v1"; v_user_id := "bob"; v_verified := false;
           v_requested_at := 5; v_fields := [] |};
        {| v_id := "v2"; v_user_id := "alice"; v_verified := true;
           v_requested_at := 4; v_fields := [] |}];
     next_id := 9; clock := 6 |}.

(** Twelve reviews, inserted oldest first. *)
Definition review (n : Z) : Doc :=
  {| doc_id := fresh_id (Z.to_N n); doc_created_at := n; doc_fields := [] |}.

Definition store_reviews : Store :=
  {| tbl_users := []; tbl_campaigns := []; tbl_donations := [];
     tbl_reviews := map review [1; 2; 3; 4; 5; 6; 7; 8; 9; 10; 11; 12];
     tbl_tickets := []; tbl_ngo_verifications := [];
     next_id := 13; clock := 13 |}.

(** Bodies and requests. *)
Definition no_preset : Preset :=
  {| p_id := None; p_created_at := None; p_requested_at := None;
     p_collected_amount := Js.Undefined |}.

Definition give_value (id : string) (v : Js.value) : Body :=
  {| campaignId := id; amount := v; tipAmount := Js.Undefined;
     donorName := None; verified := false; cause := "";
     hospitalEmail := None; isTemporary := false;
     preset := no_preset; others := [] |}.

Definition give (id : string) (n : Z) : Body := give_value id (Js.int n).

Definition decide_ (v : bool) : Body :=
  {| campaignId := ""; amount := Js.Undefined; tipAmount := Js.Undefined;
     donorName := None; verified := v; cause := ""; hospitalEmail := None;
     isTemporary := false; preset := no_preset; others := [] |}.

Definition no_body : Body := decide_ false.

Definition request (m : Method) (p : list string) (auth : option string) (b : Body) : Request :=
  {| method := m; path := p; authorization := auth; query := []; body := b |}.

Definition donate_50 : Request :=
  request POST ["api"; "donations"] None (give "c1" 50).
Definition donate_50_bogus : Request :=
  request POST ["api"; "donations"] (Some "Bearer bogus") (give "c1" 50).
Definition donate_50_alice : Request :=
  request POST ["api"; "donations"] (Some "Bearer alice-token") (give "c1" 50).
Definition create_campaign : Request :=
  request POST ["api"; "campaigns"] (Some "Bearer alice-token") no_body.
Definition approve_v1 : Request :=
  request PATCH ["api"; "admin"; "ngo-verifications"; "v1"] None (decide_ true).
Definition reject_v2 : Request :=
  request PATCH ["api"; "admin"; "ngo-verifications"; "v2"] None (decide_ false).
Definition get_my_campaigns : Request :=
  request GET ["api"; "campaigns"; "my"] None no_body.
Definition get_c1 : Request :=
  request GET ["api"; "campaigns"; "c1"] None no_body.
Definition get_reviews_request : Request :=
  request GET ["api"; "reviews"] None no_body.

(* ================================================================= *)
(** ** Vocabulary of the further statements *)

(** The path pattern of the route GET /api/campaigns/my. *)
Definition my_campaigns_path : list Segment :=
  [Lit "api"; Lit "campaigns"; Lit "my"].

(** A call that asks the store to change a table. *)
Definition is_write (c : Call) : bool :=
  match c with
  | Insert _ _ | Update _ _ _ _ => true
  | _ => false
  end.

(** A computation that leaves the store as it was and asks for no change:
    the calls it adds to the log are reads, calls to the identity provider
    and console lines. *)
Definition read_only (A : Type) (m : M A) : Prop :=
  forall w, store (snd (m w)) = store w /\
            exists l, log (snd (m w)) = log w ++ l /\ existsb is_write l = false.

(** The path pattern of the route GET /api/verify-hospital. *)
Definition verify_hospital_path : list Segment :=
  [Lit "api"; Lit "verify-hospital"].

(** GET /api/campaigns/my with the token of alice. *)
Definition get_my_campaigns_alice : Request :=
  request GET ["api"; "campaigns"; "my"] (Some "Bearer alice-token") no_body.

(** GET /api/verify-hospital?campaign_id=c1&decision=..., and the same
    request with the decision [yes] given twice, which the parser of the
    query string turns into an array. *)
Definition verify_c1 (decision : string) : Request :=
  {| method := GET; path := ["api"; "verify-hospital"]; authorization := None;
     query := [("campaign_id", Js.Str "c1"); ("decision", Js.Str decision)];
     body := no_body |}.
Definition verify_c1_twice : Request :=
  {| method := GET; path := ["api"; "verify-hospital"]; authorization := None;
     query := [("campaign_id", Js.Str "c1");
               ("decision", Js.Arr [Js.Str "yes"; Js.Str "yes"])];
     body := no_body |}.

(** [pat] occurs somewhere in [s]. *)
Fixpoint occurs (pat s : string) : bool :=
  String.prefix pat s ||
  match s with
  | EmptyString => false
  | String _ s' => occurs pat s'
  end.

(** The character [c] does not occur in [s]. *)
Fixpoint lacks (c : ascii) (s : string) : bool :=
  match s with
  | EmptyString => true
  | String d s' => negb (Ascii.eqb d c) && lacks c s'
  end.

(** GET /api/donations/my with the token of alice, and the donations of a
    campaign. *)
Definition get_my_donations_alice : Request :=
  request GET ["api"; "donations"; "my"] (Some "Bearer alice-token") no_body.
Definition get_donations_of (id : string) : Request :=
  request GET ["api"; "campaigns"; id; "donations"] None no_body.

(** Three donations: one of alice, one of bob and an anonymous one. *)
Definition store_donors : Store :=
  {| tbl_users := []; tbl_campaigns := [campaign_c1];
     tbl_donations :=
       [ {| d_id := "d1"; d_campaign_id := "c1"; d_amount := Js.int 60;
            d_tip_amount := Js.int 0;
            d_donor_name := None; d_donor_id := Some "alice"; d_created_at := 2 |};
         {| d_id := "d2"; d_campaign_id := "c1"; d_amount := Js.int 30;
            d_tip_amount := Js.int 0;
            d_donor_name := None; d_donor_id := Some "bob"; d_created_at := 3 |};
         {| d_id := "d3"; d_campaign_id := "c2"; d_amount := Js.int 10;
            d_tip_amount := Js.int 0;
            d_donor_name := Some "a friend"; d_donor_id := None; d_created_at := 4 |} ];
     tbl_reviews := []; tbl_tickets := []; tbl_ngo_verifications := [];
     next_id := 9; clock := 5 |}.

(** The donation was made by [user]; the donation was made to campaign [id]. *)
Definition donated_by (user : string) (d : Donation) : bool :=
  match d_donor_id d with
  | Some u => String.eqb u user
  | None => false
  end.
Definition donated_to (id : string) (d : Donation) : bool :=
  String.eqb (d_campaign_id d) id.

(** The collected amount of a campaign is the non-negative integer [n];
    an empty column counts as 0. *)
Definition collected_is (c : Campaign) (n : Z) : Prop :=
  0 <= n /\
  (c_collected_amount c = Js.int n \/
   (n = 0 /\ c_collected_amount c = Js.Null)).

(** The sum of a list of integers. *)
Definition total (ns : list Z) : Z := fold_right Z.add 0 ns.

(** The two reads of GET /api/stats. *)
Definition stats_calls : list Call :=
  [ Select campaigns (select "collected_amount, verified") false;
    Select donations (select "amount") false ].

(** A campaign with its verification flag replaced. *)
Definition set_campaign_verified (b : bool) (c : Campaign) : Campaign :=
  {| c_id := c_id c; c_created_by := c_created_by c;
     c_unique_code := c_unique_code c;
     c_collected_amount := c_collected_amount c; c_verified := b;
     c_created_at := c_created_at c; c_fields := c_fields c |}.

(** The verification records of a user. *)
Definition verifications_by (user : string) (s : Store) : list NgoVerification :=
  filter (fun v => String.eqb (v_user_id v) user) (tbl_ngo_verifications s).

(** The tickets of an identifier, and the users of an identifier. *)
Definition tickets_of (id : string) (s : Store) : list Doc :=
  filter (fun d => String.eqb (doc_id d) id) (tbl_tickets s).
Definition users_of (id : string) (s : Store) : list User :=
  filter (fun u => String.eqb (u_id u) id) (tbl_users s).

(** Requests for the NGO verifications and the tickets. *)
Definition get_my_verification (token : string) : Request :=
  request GET ["api"; "ngo-verifications"; "my"] (Some ("Bearer " ++ token)%string) no_body.
Definition patch_ticket (id : string) : Request :=
  request PATCH ["api"; "admin"; "tickets"; id] None no_body.

(** Two verification records of the same user. *)
Definition store_twice : Store :=
  {| tbl_users := [{| u_id := "alice"; u_is_ngo := false; u_fields := [] |}];
     tbl_campaigns := []; tbl_donations := [];
     tbl_reviews := []; tbl_tickets := [];
     tbl_ngo_verifications :=
       [{| v_id := "v1"; v_user_id := "alice"; v_verified := false;
           v_requested_at := 5; v_fields := [] |};
        {| v_id := "v2"; v_user_id := "alice"; v_verified := false;
           v_requested_at := 6; v_fields := [] |}];
     next_id := 9; clock := 7 |}.

Definition get_user_alice : Request :=
  request GET ["api"; "auth"; "user"] (Some "Bearer alice-token") no_body.

(** The index of the first occurrence of a character in a string. *)
Fixpoint position (c : ascii) (s : string) : nat :=
  match s with
  | EmptyString => O
  | String d s' => if Ascii.eqb c d then O else S (position c s')
  end.

(** A binary64 of the unit interval whose product with 36 has floor [i]:
    the least multiple of [2 ^ (-53)] above [i / 36]. *)
Definition draw_for (i : Z) : Js.unit_double :=
  {| Js.mant := i * 2 ^ 53 / 36 + 1; Js.expo := 53 |}.

(** Draws that spell the characters of [l]. *)
Definition draws_for (l : list ascii) (k : nat) : Js.unit_double :=
  draw_for (Z.of_nat (position (nth k l "A"%char) chars)).

(** A world whose draws spell [l]. *)
Definition world_spelling (l : list ascii) : World :=
  {| store := empty_store; getUser := sessions; random := draws_for l;
     drawn := 0; supabase_url := None; faults := []; log := [] |}.

(** The query of each listing of donations. *)
Definition donations_of_query (id : string) : Query :=
  order_desc "created_at" (eq_ "campaign_id" id (select "*")).
Definition donations_by_query (user : string) : Query :=
  order_desc "created_at" (eq_ "donor_id" user (select "*")).

(** Every review of the store was created before the current time. *)
Definition reviews_in_the_past (s : Store) : Prop :=
  forall d, In d (tbl_reviews s) -> doc_created_at d < clock s.

Definition post_review : Request :=
  request POST ["api"; "reviews"] None no_body.
Definition request_verification (token : string) : Request :=
  request POST ["api"; "ngo-verifications"] (Some ("Bearer " ++ token)%string) no_body.

(** A handler that never answers 401. *)
Definition never_401 (m : M Response) : Prop :=
  forall w, status (fst (m w)) <> 401.

(** The routes whose handler starts with the guard and that a request can
    reach. *)
Definition guarded_routes : list (Method * list Segment) :=
  [ (GET, [Lit "api"; Lit "auth"; Lit "user"]);
    (POST, [Lit "api"; Lit "campaigns"]);
    (GET, [Lit "api"; Lit "donations"; Lit "my"]);
    (GET, [Lit "api"; Lit "ngo-verifications"; Lit "my"]);
    (POST, [Lit "api"; Lit "ngo-verifications"]) ].

(** A request that matches a route: its method, and a path in which every
    parameter is the segment [x]. *)
Definition sample_path (p : list Segment) : list string :=
  map (fun s => match s with Lit x => x | Param _ => "x" end) p.
Definition sample_request (r : Route) : Request :=
  request (r_method r) (sample_path (r_path r)) None no_body.

(** HEAD /api/Donations/MY, without a header. *)
Definition head_my_donations : Request :=
  request HEAD ["api"; "Donations"; "MY"] None no_body.

(** GET /api/auth/user, without a header. *)
Definition get_user_anonymous : Request :=
  request GET ["api"; "auth"; "user"] None no_body.

(** A campaign after a donation to the campaign [id]: the same row, or,
    when it is a campaign of that identifier, the row with another
    total. *)
Definition after_donation (id : string) (c c' : Campaign) : Prop :=
  c' = c \/ (c_id c = id /\ exists total, c' = set_total total c).

(** Two requests that name the same campaign and the same amount. *)
Definition same_gift (req1 req2 : Request) : Prop :=
  campaignId (body req1) = campaignId (body req2) /\
  amount (body req1) = amount (body req2).

(** The statuses a handler of [registerRoutes] sends. *)
Definition statuses : list Z := [200; 400; 401; 404; 500].

Definition answers_within (l : list Z) (m : M Response) : Prop :=
  forall w, In (status (fst (m w))) l.

(** A donation of 50 to c1 with a tip and a name. *)
Definition donate_50_tip : Request :=
  request POST ["api"; "donations"] (Some "Bearer alice-token")
    {| campaignId := "c1"; amount := Js.int 50; tipAmount := Js.int 5;
       donorName := Some "Alice"; verified := false; cause := "";
       hospitalEmail := None; isTemporary := false;
       preset := no_preset; others := [] |}.

(* ================================================================= *)
(** ** Numbers: sums of integers that binary64 holds exactly *)

Module NumberFacts.

Lemma iter_pos_iter (A : Type) (f : A -> A) (p : positive) (x : A) :
  iter_pos f p x = Pos.iter f x p.
Proof.
  revert x. induction p as [p IH | p IH |]; intros x; simpl.
  - rewrite !IH. now rewrite !Pos.iter_swap.
  - now rewrite !IH.
  - reflexivity.
Qed.

Lemma digits_log2 (p : positive) :
  Z.pos (digits2_pos p) = Z.log2 (Z.pos p) + 1.
Proof.
  induction p as [p IH | p IH |]; simpl; try reflexivity.
  - rewrite Pos2Z.inj_succ, IH. destruct p; simpl; lia.
  - rewrite Pos2Z.inj_succ, IH. destruct p; simpl; lia.
Qed.

Lemma shifted_value (q s : positive) :
  Z.pos (Pos.iter xO q s) = Z.pos q * 2 ^ Z.pos s.
Proof.
  change (Pos.iter xO q s) with (shift_pos s q).
  rewrite shift_pos_correct. change (Z.pow_pos 2 s) with (2 ^ Z.pos s). lia.
Qed.

(** Shifting out the zeros that a shift to the left has put in loses
    nothing. *)
Lemma shr_exact (s q : positive) :
  Pos.iter shr_1 {| shr_m := Z.pos (Pos.iter xO q s); shr_r := false; shr_s := false |} s
  = {| shr_m := Z.pos q; shr_r := false; shr_s := false |}.
Proof.
  induction s as [|s IH] using Pos.peano_ind.
  - reflexivity.
  - rewrite Pos.iter_succ_r, Pos.iter_succ. simpl. exact IH.
Qed.

Lemma shl_align_value (m : positive) (e e' : Z) :
  e' <= e -> Z.pos (fst (shl_align m e e')) = Z.pos m * 2 ^ (e - e').
Proof.
  intros H. unfold shl_align.
  destruct (e' - e) as [|d|d] eqn:E.
  - replace (e - e') with 0 by lia. simpl fst. rewrite Z.pow_0_r. lia.
  - lia.
  - simpl fst. rewrite shifted_value. replace (e - e') with (Z.pos d) by lia.
    reflexivity.
Qed.

(** A significand of 53 bits followed by [s] zeros rounds to itself. *)
Lemma round_shifted (q M : positive) (e s : Z) :
  Z.pos (digits2_pos q) = 53 -> -1074 <= e <= 971 -> 0 <= s ->
  Z.pos M = Z.pos q * 2 ^ s ->
  binary_round_aux 53 1024 false (Z.pos M) (e - s) loc_Exact
  = S754_finite false q e.
Proof.
  intros Hq He Hs HM.
  assert (HdM : Z.pos (digits2_pos M) = 53 + s).
  { rewrite digits_log2, HM, Z.log2_mul_pow2 by lia.
    rewrite digits_log2 in Hq. lia. }
  assert (Hfexp : forall x, x = 53 + e -> fexp 53 1024 x = e).
  { intros x ->. unfold fexp, emin. lia. }
  unfold binary_round_aux, shr_fexp. simpl Zdigits2.
  rewrite HdM, (Hfexp (53 + s + (e - s))) by lia.
  replace (e - (e - s)) with s by lia.
  assert (Hshift : shr {| shr_m := Z.pos M; shr_r := false; shr_s := false |} (e - s) s
                   = ({| shr_m := Z.pos q; shr_r := false; shr_s := false |}, e)).
  { destruct s as [|sp|sp]; [| |lia].
    - simpl. f_equal; [|lia]. f_equal. rewrite HM. simpl. lia.
    - unfold shr. rewrite iter_pos_iter. f_equal; [|lia].
      assert (M = Pos.iter xO q sp) as ->
        by (apply Pos2Z.inj; rewrite HM, shifted_value; reflexivity).
      apply shr_exact. }
  simpl shr_record_of_loc. rewrite Hshift.
  cbn [shr_m loc_of_shr_record round_nearest_even shr_record_of_loc Zdigits2].
  rewrite Hq, (Hfexp (53 + e)) by lia. rewrite Z.sub_diag.
  cbn [shr shr_m].
  destruct (e <=? 1024 - 53) eqn:L; [reflexivity | lia].
Qed.

Lemma canonical_mantissa_value (n : Z) :
  0 < n < 2 ^ 53 ->
  0 <= Z.log2 n <= 52 /\
  Z.pos (Z.to_pos (n * 2 ^ (52 - Z.log2 n))) = n * 2 ^ (52 - Z.log2 n) /\
  Z.pos (digits2_pos (Z.to_pos (n * 2 ^ (52 - Z.log2 n)))) = 53.
Proof.
  intros Hn.
  assert (Hl : 0 <= Z.log2 n <= 52).
  { split; [apply Z.log2_nonneg|].
    assert (Z.log2 n < 53) by (apply Z.log2_lt_pow2; lia). lia. }
  assert (Hp : 0 < n * 2 ^ (52 - Z.log2 n)) by (apply Z.mul_pos_pos; lia).
  split; [exact Hl|]. split; [apply Z2Pos.id; exact Hp|].
  rewrite digits_log2, Z2Pos.id by exact Hp.
  rewrite Z.log2_mul_pow2 by lia. lia.
Qed.

Lemma normalize_shifted (n k : Z) (M : positive) :
  0 < n < 2 ^ 53 -> 0 <= k ->
  Z.pos M = n * 2 ^ k ->
  binary_normalize 53 1024 (Z.pos M) (- k) false = canonical n.
Proof.
  intros Hn Hk HM.
  destruct (@canonical_mantissa_value n Hn) as (Hl & Hq & Hd).
  assert (HdM : Z.pos (digits2_pos M) = Z.log2 n + 1 + k).
  { rewrite digits_log2, HM, Z.log2_mul_pow2 by lia. lia. }
  unfold binary_normalize, binary_round.
  rewrite HdM. unfold fexp at 1, emin.
  replace (Z.max (Z.log2 n + 1 + k + - k - 53) (3 - 1024 - 53))
    with (Z.log2 n - 52) by lia.
  unfold shl_align.
  destruct (Z.log2 n - 52 - - k) as [|d|d] eqn:E.
  - replace (- k) with (Z.log2 n - 52 - 0) by lia.
    apply (@round_shifted _ M); try lia. rewrite Hq, HM.
    rewrite <- Z.mul_assoc, <- Z.pow_add_r by lia. f_equal. f_equal. lia.
  - replace (- k) with (Z.log2 n - 52 - Z.pos d) by lia.
    apply (@round_shifted _ M); try lia. rewrite Hq, HM.
    rewrite <- Z.mul_assoc, <- Z.pow_add_r by lia. f_equal. f_equal. lia.
  - replace (Z.log2 n - 52) with (Z.log2 n - 52 - 0) at 1 by lia.
    apply round_shifted; try lia.
    rewrite shifted_value, Hq, HM, Z.pow_0_r, Z.mul_1_r.
    rewrite <- Z.mul_assoc, <- Z.pow_add_r by lia. f_equal. f_equal. lia.
Qed.

Lemma of_Z_canonical (n : Z) :
  0 < n < 2 ^ 53 -> Js.of_Z n = canonical n.
Proof.
  intros Hn. unfold Js.of_Z, Js.prec, Js.emax.
  destruct n as [|p|p]; try lia.
  change 0 with (- 0) at 1. apply normalize_shifted; try lia.
Qed.

(** The sum of two non-negative integers is exact as long as it is below
    [2^53]. *)
Lemma add_of_Z (a b : Z) :
  0 <= a -> 0 <= b -> a + b < 2 ^ 53 ->
  Js.add (Js.of_Z a) (Js.of_Z b) = Js.of_Z (a + b).
Proof.
  intros Ha Hb Hab.
  destruct (Z.eq_dec a 0) as [-> | Na];
    [destruct (Z.eq_dec b 0) as [-> | Nb]|].
  - reflexivity.
  - simpl (0 + b). rewrite (@of_Z_canonical b) by lia. reflexivity.
  - destruct (Z.eq_dec b 0) as [-> | Nb].
    + rewrite Z.add_0_r. rewrite (@of_Z_canonical a) by lia. reflexivity.
    + rewrite (@of_Z_canonical a), (@of_Z_canonical b), (@of_Z_canonical (a + b)) by lia.
      destruct (@canonical_mantissa_value a) as (Hla & Hqa & _); [lia|].
      destruct (@canonical_mantissa_value b) as (Hlb & Hqb & _); [lia|].
      assert (Hl : Z.log2 a <= Z.log2 (a + b) /\ Z.log2 b <= Z.log2 (a + b))
        by (split; apply Z.log2_le_mono; lia).
      unfold canonical at 1 2.
      set (ma := Z.to_pos (a * 2 ^ (52 - Z.log2 a))) in *.
      set (mb := Z.to_pos (b * 2 ^ (52 - Z.log2 b))) in *.
      unfold Js.add, SFadd, Js.prec, Js.emax.
      set (ez := Z.min (Z.log2 a - 52) (Z.log2 b - 52)).
      assert (Hez : ez <= Z.log2 a - 52 /\ ez <= Z.log2 b - 52 /\ ez <= 0) by lia.
      unfold cond_Zopp.
      rewrite <- Pos2Z.inj_add.
      replace ez with (- (- ez)) at 3 by lia.
      apply normalize_shifted; try lia.
      rewrite Pos2Z.inj_add, !shl_align_value by lia.
      rewrite Hqa, Hqb.
      rewrite <- !Z.mul_assoc, <- !Z.pow_add_r by lia.
      replace (52 - Z.log2 a + (Z.log2 a - 52 - ez)) with (- ez) by lia.
      replace (52 - Z.log2 b + (Z.log2 b - 52 - ez)) with (- ez) by lia.
      lia.
Qed.

Lemma to_Z_of_Z (n : Z) :
  0 <= n < 2 ^ 53 -> Js.to_Z (Js.of_Z n) = Some n.
Proof.
  intros Hn. destruct (Z.eq_dec n 0) as [-> | N]; [reflexivity|].
  rewrite of_Z_canonical by lia.
  destruct (@canonical_mantissa_value n) as (Hl & Hq & _); [lia|].
  unfold canonical, Js.to_Z. rewrite Hq.
  destruct (0 <=? Z.log2 n - 52) eqn:E.
  - replace (Z.log2 n - 52) with 0 by lia.
    replace (52 - Z.log2 n) with 0 by lia. f_equal. lia.
  - replace (- (Z.log2 n - 52)) with (52 - Z.log2 n) by lia.
    rewrite Z.mod_mul, Z.div_mul by lia. reflexivity.
Qed.

Lemma of_Z_is_sent (n : Z) :
  0 <= n < 2 ^ 53 -> Js.sent_as (Js.Num (Js.of_Z n)) = Js.Num (Js.of_Z n).
Proof.
  intros Hn. destruct (Z.eq_dec n 0) as [-> | N]; [reflexivity|].
  now rewrite of_Z_canonical by lia.
Qed.

End NumberFacts.

(* ================================================================= *)
(** ** The campaign code *)

(** The binary64 product of a draw and 36 stays below 36. *)
Lemma round53_bound (x : Z) :
  0 <= x <= 36 * (2 ^ 53 - 1) -> 0 <= Js.round53 x < 36 * 2 ^ 53.
Proof.
  intros Hx. unfold Js.round53.
  destruct (x <? 2 ^ 53) eqn:Hsmall.
  - apply Z.ltb_lt in Hsmall. lia.
  - apply Z.ltb_ge in Hsmall.
    assert (Hpos : 0 < x) by lia.
    pose proof (Z.log2_spec x Hpos) as [Hlo Hhi].
    assert (Hl : 53 <= Z.log2 x) by (apply Z.log2_le_pow2; lia).
    assert (Hu : Z.log2 x < 59) by (apply Z.log2_lt_pow2; lia).
    set (s := Z.log2 x - 52).
    assert (Hs : s = 1 \/ s = 2 \/ s = 3 \/ s = 4 \/ s = 5 \/ s = 6) by lia.
    assert (Hl2 : Z.log2 x = s + 52) by lia.
    rewrite Hl2 in Hlo, Hhi. clearbody s. clear Hl Hu Hl2.
    destruct Hs as [-> | [-> | [-> | [-> | [-> | ->]]]]];
      change (Z.succ _) with 54 in Hhi || idtac;
      cbn in Hlo, Hhi |- *.
    all: match goal with
         | |- context [?y / ?d] =>
             pose proof (Z.div_mod y d ltac:(lia)) as Hdm;
             pose proof (Z.mod_pos_bound y d ltac:(lia)) as Hmb
         end.
    all: destruct (_ || _) eqn:Hup; lia.
Qed.

Lemma floor_mul_chars (r : Js.unit_double) :
  Js.in_unit r -> 0 <= Js.floor_mul r 36 < 36.
Proof.
  intros [Hm He]. unfold Js.floor_mul.
  pose proof (round53_bound (x := Js.mant r * 36) ltac:(lia)) as Hb.
  assert (Hp : 2 ^ 53 <= 2 ^ Js.expo r) by (apply Z.pow_le_mono_r; lia).
  split.
  - apply Z.div_pos; lia.
  - apply Z.div_lt_upper_bound; nia.
Qed.

Module ReFacts.
Import Re.

Lemma matches_Void s : matches Void s = false.
Proof. induction s; simpl; auto. Qed.

Lemma matches_Alt s : forall a b, matches (Alt a b) s = matches a s || matches b s.
Proof. induction s as [|c s IH]; intros a b; simpl; auto. Qed.

Lemma matches_Cat s1 : forall a b s2,
  matches a s1 = true -> matches b s2 = true -> matches (Cat a b) (s1 ++ s2)%string = true.
Proof.
  induction s1 as [|c s1 IH]; intros a b s2 Ha Hb; simpl in *.
  - destruct s2 as [|d s2]; simpl in *.
    + now rewrite Ha, Hb.
    + rewrite Ha, matches_Alt, Hb. apply orb_true_r.
  - destruct (nullable a).
    + rewrite matches_Alt, IH; auto.
    + apply IH; auto.
Qed.

Lemma matches_Chr c : matches (Chr c) (String c "") = true.
Proof. simpl. now rewrite Ascii.eqb_refl. Qed.

Lemma matches_upper_or_digit c :
  alnum c = true -> matches upper_or_digit (String c "") = true.
Proof.
  unfold alnum. intros H. simpl.
  destruct (in_range "A" "Z" c), (in_range "0" "9" c); simpl in *; congruence.
Qed.

End ReFacts.

Lemma charAt_chars (i : Z) :
  0 <= i < 36 -> exists c, Js.charAt chars i = String c "" /\ alnum c = true.
Proof.
  intros Hi. unfold Js.charAt.
  destruct (i <? 0) eqn:E; [lia|].
  assert (Hn : (Z.to_nat i < 36)%nat) by lia.
  remember (Z.to_nat i) as n eqn:Hn'. clear Hn' E Hi.
  do 36 (destruct n as [|n]; [eexists; split; reflexivity|]).
  lia.
Qed.

Lemma append_one s c t :
  ((s ++ String c "") ++ t = s ++ String c t)%string.
Proof. induction s as [|d s IH]; simpl; congruence. Qed.

Lemma code_loop_spec (n : nat) : forall code w,
  valid_draws n w ->
  exists l, List.length l = n /\ Forall (fun c => alnum c = true) l /\
    fst (code_loop n code w) = (code ++ text_of l)%string /\
    store (snd (code_loop n code w)) = store w /\
    log (snd (code_loop n code w)) = log w /\
    faults (snd (code_loop n code w)) = faults w /\
    drawn (snd (code_loop n code w)) = (drawn w + n)%nat.
Proof.
  induction n as [|n IH]; intros code w Hv.
  - exists []. simpl. repeat split; auto.
    + induction code; simpl; congruence.
  - simpl. unfold bind, Math_random.
    destruct (charAt_chars (i := Js.floor_mul (random w (drawn w)) 36)) as (c & Hc & Hal).
    { apply floor_mul_chars, Hv. lia. }
    change (Z.of_nat (String.length chars)) with 36. rewrite Hc.
    match goal with |- context [code_loop n ?s ?w'] =>
      destruct (IH s w') as (l & Hl & Hall & Hf & Hs & Hg & Hfa & Hd) end.
    { intros k Hk. simpl in *. apply Hv. lia. }
    exists (c :: l). simpl in *. repeat split; auto.
    + now rewrite Hf, append_one.
    + lia.
Qed.

Lemma code_loop_entropy (n : nat) : forall code w1 w2,
  same_entropy w1 w2 ->
  fst (code_loop n code w1) = fst (code_loop n code w2).
Proof.
  induction n as [|n IH]; intros code w1 w2 [Hr Hd]; simpl; auto.
  unfold bind, Math_random. rewrite Hr, Hd.
  apply IH. split; simpl; congruence.
Qed.

(** The rounding of the product is visible: for this draw the exact product
    is below 32 and the binary64 product is 32. *)
Example floor_mul_rounds_up :
  let r := {| Js.mant := 4 * (2 ^ 54 - 1) / 9; Js.expo := 53 |} in
  Js.in_unit r /\ Js.mant r * 36 / 2 ^ 53 = 31 /\ Js.floor_mul r 36 = 32.
Proof. cbv zeta. unfold Js.in_unit. simpl Js.mant. simpl Js.expo. repeat split; try reflexivity; vm_compute; intro; discriminate. Qed.

(** C4.  Whatever [Math.random] returns, the code of
    [generateUniqueCampaignCode] is nine characters long, is [TF-] followed
    by six characters of [A-Z0-9], and matches [^TF-[A-Z0-9]{6}$].  The
    generator makes no call to the store: the log and the store are left as
    they were and the code is a function of the random draws alone, so no
    record is consulted for uniqueness. *)
Theorem campaign_code_format (w : World) :
  valid_draws 6 w ->
  let code := fst (generateUniqueCampaignCode w) in
  let w' := snd (generateUniqueCampaignCode w) in
  String.length code = 9%nat /\
  (exists l, List.length l = 6%nat /\ Forall (fun c => alnum c = true) l /\
             code = ("TF-" ++ text_of l)%string) /\
  Re.matches Re.campaign_code code = true /\
  log w' = log w /\ store w' = store w /\
  (forall w2, same_entropy w w2 -> fst (generateUniqueCampaignCode w2) = code).
Proof.
  intros Hv. cbv zeta. unfold generateUniqueCampaignCode.
  destruct (@code_loop_spec 6 "TF-" w Hv)
    as (l & Hl & Hall & Hcode & Hs & Hlog & _ & _).
  rewrite Hcode, Hlog, Hs.
  destruct l as [|c1 [|c2 [|c3 [|c4 [|c5 [|c6 [|c7 l]]]]]]];
    try discriminate Hl.
  repeat match goal with H : Forall _ (_ :: _) |- _ => inversion_clear H end.
  split; [reflexivity|].
  split.
  { exists [c1; c2; c3; c4; c5; c6]. split; [reflexivity|]. split; [|reflexivity].
    repeat constructor; assumption. }
  split.
  { unfold Re.campaign_code.
    change ("TF-" ++ text_of [c1; c2; c3; c4; c5; c6])%string
      with ("T" ++ ("F" ++ ("-" ++ (String c1 "" ++ (String c2 "" ++
            (String c3 "" ++ (String c4 "" ++ (String c5 "" ++
            (String c6 "" ++ "")))))))))%string.
    repeat (apply ReFacts.matches_Cat;
            [first [apply ReFacts.matches_Chr
                   | apply ReFacts.matches_upper_or_digit; assumption]|]).
    reflexivity. }
  split; [reflexivity|]. split; [reflexivity|].
  intros w2 He. rewrite <- Hcode. symmetry. now apply code_loop_entropy.
Qed.

Lemma campaign_code_format_witness :
  valid_draws 6 (world_of empty_store []) /\
  fst (generateUniqueCampaignCode (world_of empty_store [])) = "TF-SSSSSS" /\
  String.length (fst (generateUniqueCampaignCode (world_of empty_store []))) = 9%nat.
Proof.
  assert (H : valid_draws 6 (world_of empty_store [])).
  { intros k _. unfold Js.in_unit. simpl. lia. }
  split; [exact H|]. split; [reflexivity|].
  exact (proj1 (campaign_code_format H)).
Defined.

(** Two campaigns created from equal draws get the same code; the store is
    never read before the insert. *)
Example codes_can_collide :
  let w1 := snd (post_campaigns create_campaign (world_of empty_store [])) in
  let w2 := snd (post_campaigns create_campaign
                   (world_of (store w1) [])) in
  map c_unique_code (tbl_campaigns (store w2)) = ["TF-SSSSSS"; "TF-SSSSSS"]%string /\
  existsb is_read (log w1 ++ log w2) = false.
Proof. split; reflexivity. Qed.

(* ================================================================= *)
(** ** Calls to the store, as equations *)

Section CallEquations.
Variable R : Type.
Variable sch : Schema R.

Lemma await_rows_eq (q : Query) (w : World) :
  await_rows sch q w =
    (match fault_at 0 w with
     | Some e => Error e
     | None => Data (rows_of sch q (store w))
     end, called (Select (s_table sch) q false) w).
Proof.
  unfold await_rows, fault_at, called, bind, record, next_fault, ret.
  destruct w as [s gu rnd dr url fs lg]; simpl.
  destruct fs as [|[e|] fs]; reflexivity.
Qed.

Lemma await_row_eq (q : Query) (w : World) :
  await_row sch q w =
    (match fault_at 0 w with
     | Some e => Error e
     | None => the_one (rows_of sch q (store w))
     end, called (Select (s_table sch) q true) w).
Proof.
  unfold await_row, fault_at, called, bind, record, next_fault, ret.
  destruct w as [s gu rnd dr url fs lg]; simpl.
  destruct fs as [|[e|] fs]; reflexivity.
Qed.

Lemma await_insert_eq (p : Payload) (w : World) :
  await_insert sch p w =
    match fault_at 0 w, s_new sch p with
    | Some e, _ => (Error e, called (Insert (s_table sch) p) w)
    | None, None => (Error PGRST204, called (Insert (s_table sch) p) w)
    | None, Some mk =>
        let r := mk (fresh_id (next_id (store w))) (clock (store w)) in
        (Data r,
         with_store (tick (s_put sch (s_rows sch (store w) ++ [r]) (store w)))
                    (called (Insert (s_table sch) p) w))
    end.
Proof.
  unfold await_insert, fault_at, called, bind, record, next_fault, ret.
  destruct w as [s gu rnd dr url fs lg]; simpl.
  destruct fs as [|[e|] fs]; simpl; destruct (s_new sch p); reflexivity.
Qed.

Lemma await_update_eq (p : Patch) (q : Query) (w : World) :
  await_update sch p q w =
    match fault_at 0 w, s_patch sch p with
    | Some e, _ => (Error e, called (Update (s_table sch) p q false) w)
    | None, None => (Error PGRST204, called (Update (s_table sch) p q false) w)
    | None, Some g =>
        (Data tt,
         with_store (s_put sch (rewrite_rows sch q g (s_rows sch (store w))) (store w))
                    (called (Update (s_table sch) p q false) w))
    end.
Proof.
  unfold await_update, fault_at, called, bind, record, next_fault, ret.
  destruct w as [s gu rnd dr url fs lg]; simpl.
  destruct fs as [|[e|] fs]; simpl; destruct (s_patch sch p); reflexivity.
Qed.

Lemma await_update_row_eq (p : Patch) (q : Query) (w : World) :
  await_update_row sch p q w =
    match fault_at 0 w, s_patch sch p with
    | Some e, _ => (Error e, called (Update (s_table sch) p q true) w)
    | None, None => (Error PGRST204, called (Update (s_table sch) p q true) w)
    | None, Some g =>
        match filter (keeps sch q) (s_rows sch (store w)) with
        | [r] =>
            (Data (g r),
             with_store (s_put sch (rewrite_rows sch q g (s_rows sch (store w))) (store w))
                        (called (Update (s_table sch) p q true) w))
        | _ => (Error PGRST116, called (Update (s_table sch) p q true) w)
        end
    end.
Proof.
  unfold await_update_row, fault_at, called, bind, record, next_fault, ret.
  destruct w as [s gu rnd dr url fs lg]; simpl.
  destruct fs as [|[e|] fs]; simpl; destruct (s_patch sch p); try reflexivity;
    destruct (filter _ _) as [|r [|r' l]]; reflexivity.
Qed.
End CallEquations.

Lemma fault_at_called n c w : fault_at n (called c w) = fault_at (S n) w.
Proof.
  unfold fault_at, called. simpl.
  destruct (faults w); simpl; auto. now destruct n.
Qed.

Lemma fault_at_with_store n s w : fault_at n (with_store s w) = fault_at n w.
Proof. reflexivity. Qed.

(* ================================================================= *)
(** ** Donations *)

Lemma filter_rewrite_rows (R : Type) (sch : Schema R) (q : Query) (g : R -> R) :
  (forall r, keeps sch q (g r) = keeps sch q r) ->
  forall l, filter (keeps sch q) (rewrite_rows sch q g l)
            = map g (filter (keeps sch q) l).
Proof.
  intros Hg l. induction l as [|r l IH]; simpl; auto.
  destruct (keeps sch q r) eqn:E.
  - rewrite Hg, E. simpl. now rewrite IH.
  - rewrite E. exact IH.
Qed.

Lemma rewrite_rows_ext (R : Type) (sch : Schema R) (q : Query) (f g : R -> R) :
  (forall r, f r = g r) ->
  forall l, rewrite_rows sch q f l = rewrite_rows sch q g l.
Proof.
  intros H l. unfold rewrite_rows. apply map_ext. intros r. now rewrite H.
Qed.

(** A sum is a number or a string: the store receives a value for it. *)
Lemma stored_plus (old a b : Js.value) :
  stored old (Js.plus a b) = Js.sent_as (Js.plus a b).
Proof.
  unfold stored, Js.plus.
  destruct (Js.to_primitive a), (Js.to_primitive b);
    try reflexivity;
    match goal with |- context [Js.add ?x ?y] => now destruct (Js.add x y) end.
Qed.

(** Every path of the handler after [donorId] is known. *)
Lemma record_donation_run (req : Request) (donor : nullable string) (w : World) :
  let r := record_donation req donor w in
  let s1 := with_donation req donor (store w) in
  let ok := {| status := 200; sent := JDonation (donation_row req donor (store w)) |} in
  match fault_at 0 w with
  | Some e =>
      fst r = {| status := 500; sent := JError (message e) |} /\
      store (snd r) = store w /\
      log (snd r) = log w ++ [insert_call req donor]
  | None =>
      fst r = ok /\
      match fault_at 1 w, find_campaign (campaignId (body req)) (store w) with
      | None, Data c =>
          log (snd r) = log w ++ [insert_call req donor; read_call req;
                                  write_call req
                                    (Js.plus (c_collected_amount c) (amount (body req)))] /\
          store (snd r) =
            match fault_at 2 w with
            | Some _ => s1
            | None => with_total (campaignId (body req))
                        (Js.sent_as (Js.plus (c_collected_amount c) (amount (body req))))
                        s1
            end
      | _, _ =>
          log (snd r) = log w ++ [insert_call req donor; read_call req] /\
          store (snd r) = s1
      end
  end.
Proof.
  cbv zeta. unfold record_donation, bind.
  rewrite await_insert_eq. simpl s_new.
  destruct (fault_at 0 w) as [e|] eqn:F0; simpl.
  - auto.
  - rewrite await_row_eq, fault_at_with_store, fault_at_called.
    unfold find_campaign.
    change (rows_of Campaigns (eq_ "id" (campaignId (body req)) (select "collected_amount")) _)
      with (rows_of Campaigns (eq_ "id" (campaignId (body req)) (select "*")) (store w)).
    destruct (fault_at 1 w) as [e1|] eqn:F1; simpl.
    + rewrite <- !app_assoc. auto.
    + destruct (the_one _) as [c|e2]; simpl.
      * rewrite await_update_eq. simpl s_patch.
        rewrite !fault_at_called, !fault_at_with_store, !fault_at_called.
        destruct (fault_at 2 w) as [e2|] eqn:F2; simpl;
          rewrite <- !app_assoc; [auto|].
        split; [reflexivity|]. split; [reflexivity|].
        unfold with_total, with_donation.
        apply (f_equal2 put_campaigns); [|reflexivity].
        apply rewrite_rows_ext. intros c0. unfold set_total.
        now rewrite stored_plus.
      * rewrite <- !app_assoc. auto.
Qed.

Lemma post_donations_split (req : Request) (w : World) :
  post_donations req w =
    record_donation req (fst (resolve_donor req w)) (snd (resolve_donor req w)).
Proof.
  unfold post_donations, bind. now destruct (resolve_donor req w).
Qed.

Lemma resolve_donor_world (req : Request) (w : World) :
  let w1 := snd (resolve_donor req w) in
  fst (resolve_donor req w) = donor_of req w /\
  store w1 = store w /\
  log w1 = log w ++ auth_calls req /\
  forall n, fault_at n w1 = fault_at n w.
Proof.
  unfold resolve_donor, donor_of, auth_calls, bearer, fault_at.
  destruct (Js.truthy (authorization req)); simpl;
    rewrite ?app_nil_r; auto.
Qed.

(** Every path of POST /api/donations: the response, the store and the log. *)
Lemma post_donations_run (req : Request) (w : World) :
  let donor := donor_of req w in
  let r := post_donations req w in
  let s1 := with_donation req donor (store w) in
  let ok := {| status := 200; sent := JDonation (donation_row req donor (store w)) |} in
  match fault_at 0 w with
  | Some e =>
      fst r = {| status := 500; sent := JError (message e) |} /\
      store (snd r) = store w /\
      log (snd r) = log w ++ auth_calls req ++ [insert_call req donor]
  | None =>
      fst r = ok /\
      match fault_at 1 w, find_campaign (campaignId (body req)) (store w) with
      | None, Data c =>
          log (snd r) = log w ++ auth_calls req ++
                          [insert_call req donor; read_call req;
                           write_call req
                             (Js.plus (c_collected_amount c) (amount (body req)))] /\
          store (snd r) =
            match fault_at 2 w with
            | Some _ => s1
            | None => with_total (campaignId (body req))
                        (Js.sent_as (Js.plus (c_collected_amount c) (amount (body req))))
                        s1
            end
      | _, _ =>
          log (snd r) = log w ++ auth_calls req ++ [insert_call req donor; read_call req] /\
          store (snd r) = s1
      end
  end.
Proof.
  cbv zeta. rewrite post_donations_split.
  destruct (resolve_donor_world req w) as (Hd & Hs & Hl & Hf).
  pose proof (record_donation_run req (fst (resolve_donor req w))
                (snd (resolve_donor req w))) as H.
  cbv zeta in H. rewrite !Hf, Hs, Hl, Hd in H. rewrite Hd.
  destruct (fault_at 0 w);
    [|destruct (fault_at 1 w); [|destruct (find_campaign _ _)]];
    rewrite <- ?app_assoc in H; exact H.
Qed.

(** C2.  POST /api/donations makes these calls, in this order.  Step 1:
    without a header the donor is [null] and the identity provider is not
    called; with a header the provider is called with the token taken from
    it, and the donor is the user it answers with, or [undefined] when it
    answers with none.  Step 2: the insert of the donation with the
    campaign, the amount, the tip given (0 when none is given), the donor
    name and that donor.  Step 3: the read of the collected amount of the
    campaign.  Step 4: the write of the total read plus the amount.  The
    handler stops after the insert when the store fails it, and after the
    read when the read fails or finds no campaign. *)
Theorem post_donations_steps (req : Request) (w : World) :
  let b := body req in
  let w' := snd (post_donations req w) in
  match authorization req with
  | None => log w' = log w ++ steps_from_insert b Null w
  | Some h =>
      if String.eqb h "" then log w' = log w ++ steps_from_insert b Null w
      else
        let token := Js.replace "Bearer " "" h in
        log w' = log w ++ GetUser token ::
                   steps_from_insert b
                     (match au_user (getUser w token) with
                      | Some user => Val user
                      | None => Undefined
                      end) w
  end.
Proof.
  pose proof (post_donations_run req w) as H. cbv zeta in *.
  assert (Hlog : log (snd (post_donations req w))
                 = log w ++ auth_calls req
                     ++ steps_from_insert (body req) (donor_of req w) w).
  { unfold steps_from_insert.
    destruct (fault_at 0 w); [exact (proj2 (proj2 H))|].
    destruct H as (_ & H).
    destruct (fault_at 1 w); [exact (proj1 H)|].
    destruct (find_campaign _ _); exact (proj1 H). }
  rewrite Hlog. unfold auth_calls, donor_of, bearer, Js.truthy, Js.known.
  destruct (authorization req) as [h|]; [|reflexivity].
  destruct (String.eqb h ""); reflexivity.
Qed.

(** C3.  When the insert of the donation fails, the response is 500 with
    the message of the store, the store is left as it was and the only call
    made to it is the insert.  When the insert succeeds and the read of the
    campaign or the write of the total fails, nothing compensates: the
    response is still the donation, the donation row stays in its table,
    the campaigns are as they were, and the log ends with the failed call. *)
Theorem post_donations_failures (req : Request) (w : World) :
  let r := post_donations req w in
  let donor := donor_of req w in
  let id := campaignId (body req) in
  (forall e, fault_at 0 w = Some e ->
     fst r = {| status := 500; sent := JError (message e) |} /\
     store (snd r) = store w /\
     log (snd r) = log w ++ auth_calls req ++ [insert_call req donor]) /\
  (fault_at 0 w = None ->
   fault_at 1 w <> None \/ (exists e, find_campaign id (store w) = Error e)
     \/ fault_at 2 w <> None ->
     fst r = {| status := 200; sent := JDonation (donation_row req donor (store w)) |} /\
     tbl_donations (store (snd r)) =
       tbl_donations (store w) ++ [donation_row req donor (store w)] /\
     tbl_campaigns (store (snd r)) = tbl_campaigns (store w) /\
     exists tail,
       log (snd r) = log w ++ auth_calls req ++
                       insert_call req donor :: read_call req :: tail /\
       (tail = [] \/ exists total, tail = [write_call req total])).
Proof.
  pose proof (post_donations_run req w) as H. cbv zeta in *. split.
  - intros e F0. rewrite F0 in H. exact H.
  - intros F0 Hfail. rewrite F0 in H. destruct H as (Hr & H).
    split; [exact Hr|].
    destruct (fault_at 1 w) as [e1|] eqn:F1.
    { destruct H as (Hl & ->). repeat split. exists []. auto. }
    destruct (find_campaign _ _) as [c|e] eqn:Fc.
    + destruct H as (Hl & Hs).
      destruct (fault_at 2 w) as [e2|] eqn:F2.
      * rewrite Hs. repeat split. eexists. split; [exact Hl|]. right. eauto.
      * exfalso. destruct Hfail as [Hf | [(e & Hf) | Hf]]; congruence.
    + destruct H as (Hl & ->). repeat split. exists []. auto.
Qed.

Lemma post_donations_failures_witness :
  let w := world_of store_c1 [None; None; Some store_timeout] in
  fst (post_donations donate_50 w) =
    {| status := 200;
       sent := JDonation (donation_row donate_50 Null store_c1) |} /\
  tbl_campaigns (store (snd (post_donations donate_50 w))) = [campaign_c1].
Proof.
  cbv zeta.
  destruct (proj2 (post_donations_failures donate_50
                     (world_of store_c1 [None; None; Some store_timeout])))
    as (Hr & _ & Hc & _).
  - reflexivity.
  - right. right. discriminate.
  - split; [exact Hr | exact Hc].
Defined.

Lemma donation_row_anonymous (req : Request) (donor : nullable string) (s : Store) :
  to_column donor = None ->
  donation_row req donor s = donation_row (anonymous req) Null s.
Proof. unfold donation_row. intros ->. reflexivity. Qed.

(** C8.  POST /api/donations never answers 401.  Without a header, or with
    a token the identity provider resolves to no user, the donor reference
    of the inserted object is [null] or [undefined], the donor column of the
    row is empty, and the response and the store are those of the same
    request sent without a header. *)
Theorem post_donations_never_401 (req : Request) (w : World) :
  let r := post_donations req w in
  let donor := donor_of req w in
  status (fst r) <> 401 /\
  (Js.truthy (authorization req) = false \/
   au_user (getUser w (bearer (authorization req))) = None ->
     (donor = Null \/ donor = Undefined) /\
     In (insert_call req donor) (log (snd r)) /\
     (fault_at 0 w = None ->
        exists l, tbl_donations (store (snd r)) = l ++ [donation_row req donor (store w)]
                  /\ d_donor_id (donation_row req donor (store w)) = None) /\
     fst r = fst (post_donations (anonymous req) w) /\
     store (snd r) = store (snd (post_donations (anonymous req) w))).
Proof.
  pose proof (post_donations_run req w) as H.
  pose proof (post_donations_run (anonymous req) w) as H0.
  cbv zeta in *. split.
  - destruct (fault_at 0 w); [destruct H as (-> & _); discriminate|].
    destruct H as (-> & _). discriminate.
  - intros Hanon.
    assert (Hd : donor_of req w = Null \/ donor_of req w = Undefined).
    { unfold donor_of. destruct (Js.truthy (authorization req)); auto.
      destruct Hanon as [Hh | ->]; [discriminate|]. auto. }
    assert (Hc : to_column (donor_of req w) = None)
      by (destruct Hd as [-> | ->]; reflexivity).
    assert (Hrow : forall s, donation_row req (donor_of req w) s
                             = donation_row (anonymous req) Null s)
      by (intros s; now apply donation_row_anonymous).
    assert (Hst : forall s, with_donation req (donor_of req w) s
                            = with_donation (anonymous req) Null s)
      by (intros s; unfold with_donation; now rewrite Hrow).
    change (donor_of (anonymous req) w) with (@Null string) in H0.
    change (campaignId (body (anonymous req))) with (campaignId (body req)) in H0.
    change (amount (body (anonymous req))) with (amount (body req)) in H0.
    rewrite <- Hrow, <- Hst in H0.
    split; [exact Hd|].
    destruct (fault_at 0 w) as [e|].
    + destruct H as (Hr & Hs & Hl). destruct H0 as (Hr0 & Hs0 & _).
      repeat split; try congruence.
      rewrite Hl, !in_app_iff. right. right. now left.
    + destruct H as (Hr & H). destruct H0 as (Hr0 & H0).
      assert (Hin : forall t, In (insert_call req (donor_of req w))
                (log w ++ auth_calls req ++ insert_call req (donor_of req w) :: t))
        by (intros t; rewrite !in_app_iff; right; right; now left).
      destruct (fault_at 1 w).
      * destruct H as (Hl & Hs). destruct H0 as (_ & Hs0).
        rewrite Hl, Hs, Hs0, Hr, Hr0. repeat split; auto.
        intros _. eexists. split; [reflexivity | exact Hc].
      * destruct (find_campaign _ _).
        -- destruct H as (Hl & Hs). destruct H0 as (_ & Hs0).
           rewrite Hl, Hs, Hs0, Hr, Hr0. repeat split; auto.
           intros _. destruct (fault_at 2 w); eexists; (split; [reflexivity | exact Hc]).
        -- destruct H as (Hl & Hs). destruct H0 as (_ & Hs0).
           rewrite Hl, Hs, Hs0, Hr, Hr0. repeat split; auto.
           intros _. eexists. split; [reflexivity | exact Hc].
Qed.

Lemma post_donations_never_401_witness :
  let w := world_of store_c1 [] in
  status (fst (post_donations donate_50_bogus w)) <> 401 /\
  fst (post_donations donate_50_bogus w) = fst (post_donations donate_50 w).
Proof.
  cbv zeta.
  destruct (post_donations_never_401 donate_50_bogus (world_of store_c1 []))
    as (H1 & H2).
  split; [exact H1|].
  apply H2. right. reflexivity.
Defined.

Lemma sum_amounts_app (l : list Js.value) (v : Js.value) :
  sum_amounts (l ++ [v]) =
    match sum_amounts l, amount_of v with
    | Some sum, Some a => Some (sum + a)
    | _, _ => None
    end.
Proof.
  induction l as [|x l IH]; simpl.
  - destruct (amount_of v); [f_equal; lia | reflexivity].
  - rewrite IH. destruct (amount_of x), (sum_amounts l), (amount_of v);
      try reflexivity. f_equal. lia.
Qed.

Lemma donated_with_donation (req : Request) donor (s : Store) :
  donated (campaignId (body req)) (with_donation req donor s) =
    match donated (campaignId (body req)) s,
          amount_of (column (amount (body req))) with
    | Some sum, Some a => Some (sum + a)
    | _, _ => None
    end.
Proof.
  unfold donated, with_donation. simpl.
  rewrite filter_app. simpl. rewrite String.eqb_refl.
  rewrite map_app. apply sum_amounts_app.
Qed.

Lemma find_campaign_with_total (id : string) (total : Js.value) (s : Store) (c : Campaign) :
  find_campaign id s = Data c ->
  find_campaign id (with_total id total s) = Data (set_total total c).
Proof.
  unfold find_campaign, rows_of, with_total, the_one. simpl.
  change (keeps Campaigns (eq_ "id" id (select "*")))
    with (keeps Campaigns (where_ "id" id)).
  rewrite filter_rewrite_rows by reflexivity.
  destruct (filter _ (tbl_campaigns s)) as [|c0 [|c1 l]]; try discriminate.
  intros [= ->]. reflexivity.
Qed.

(** The sum of two integer amounts, as the handler computes it and as the
    store receives it. *)
Lemma plus_int (a b : Z) :
  0 <= a -> 0 <= b -> a + b < 2 ^ 53 ->
  Js.sent_as (Js.plus (Js.int a) (Js.int b)) = Js.int (a + b).
Proof.
  intros Ha Hb Hab.
  change (Js.plus (Js.int a) (Js.int b))
    with (Js.Num (Js.add (Js.of_Z a) (Js.of_Z b))).
  rewrite NumberFacts.add_of_Z by assumption.
  apply NumberFacts.of_Z_is_sent. lia.
Qed.

Lemma amount_of_int (n : Z) :
  0 <= n < 2 ^ 53 -> amount_of (Js.int n) = Some n.
Proof. intros H. now apply NumberFacts.to_Z_of_Z. Qed.

Lemma column_int (n : Z) :
  0 <= n < 2 ^ 53 -> column (Js.int n) = Js.int n.
Proof.
  intros H. unfold column, stored, Js.int.
  now rewrite NumberFacts.of_Z_is_sent by assumption.
Qed.

(** C1, amended.  For a donation recorded against an existing campaign,
    with no other writer, when the read of the campaign and the write of
    the total that follow the insert both succeed: the total read after the
    handler is the value of [total + amount] in the language, whenever that
    value is one that JSON carries as it is (a string, or a number that is
    neither NaN, nor infinite, nor the negative zero).  When the total and
    the amount are non-negative integers whose sum is below [2^53], that
    value is their sum, and a ledger in which the total equals the sum of
    the donations stays so. *)
Theorem donation_increments_total (req : Request) (w : World) (c : Campaign) :
  fault_at 0 w = None -> fault_at 1 w = None -> fault_at 2 w = None ->
  find_campaign (campaignId (body req)) (store w) = Data c ->
  let id := campaignId (body req) in
  let s' := store (snd (post_donations req w)) in
  let sum := Js.plus (c_collected_amount c) (amount (body req)) in
  (Js.sent_as sum = sum -> find_campaign id s' = Data (set_total sum c)) /\
  (forall total gift,
     c_collected_amount c = Js.int total -> amount (body req) = Js.int gift ->
     0 <= total -> 0 <= gift -> total + gift < 2 ^ 53 ->
     sum = Js.int (total + gift) /\
     find_campaign id s' = Data (set_total (Js.int (total + gift)) c) /\
     (ledger_balanced id (store w) -> ledger_balanced id s')).
Proof.
  intros F0 F1 F2 Fc. cbv zeta.
  pose proof (post_donations_run req w) as H. cbv zeta in H.
  rewrite F0, F1, F2, Fc in H. destruct H as (_ & _ & ->).
  set (s1 := with_donation req (donor_of req w) (store w)).
  assert (Hfind : forall v,
            find_campaign (campaignId (body req))
              (with_total (campaignId (body req)) v s1)
            = Data (set_total v c))
    by (intros v; apply find_campaign_with_total; exact Fc).
  split; [intros Hsent; rewrite Hsent; apply Hfind|].
  intros total gift Ht Hg Ht0 Hg0 Hsum.
  rewrite Ht, Hg.
  assert (Hplus : Js.plus (Js.int total) (Js.int gift) = Js.int (total + gift)).
  { change (Js.plus (Js.int total) (Js.int gift))
      with (Js.Num (Js.add (Js.of_Z total) (Js.of_Z gift))).
    unfold Js.int. now rewrite NumberFacts.add_of_Z by assumption. }
  split; [exact Hplus|].
  rewrite plus_int by assumption.
  split; [apply Hfind|].
  intros Hbal c' Hc'. rewrite Hfind in Hc'. injection Hc' as <-.
  destruct (Hbal c Fc) as (t & Hc & Hd).
  rewrite Ht, amount_of_int in Hc by lia. injection Hc as <-.
  exists (total + gift). split.
  - simpl. apply amount_of_int. lia.
  - change (donated (campaignId (body req)) (with_total _ _ s1))
      with (donated (campaignId (body req)) s1).
    unfold s1. rewrite donated_with_donation, Hd, Hg, column_int by lia.
    now rewrite amount_of_int by lia.
Qed.

Lemma donation_increments_total_witness :
  let s' := store (snd (post_donations donate_50 (world_of store_c1 []))) in
  find_campaign "c1" s' = Data (set_total (Js.int 150) campaign_c1) /\
  donated "c1" s' = Some 150.
Proof.
  cbv zeta.
  destruct (@donation_increments_total donate_50 (world_of store_c1 []) campaign_c1
              eq_refl eq_refl eq_refl eq_refl) as (_ & H).
  destruct (H 100 50 eq_refl eq_refl) as (_ & H1 & H2); [lia | lia | lia |].
  split; [exact H1|].
  assert (Hb : ledger_balanced "c1" store_c1).
  { intros c0 Hc. vm_compute in Hc. injection Hc as <-.
    exists 100. split; reflexivity. }
  destruct (H2 Hb _ H1) as (t & Ht & Hd).
  vm_compute in Ht. injection Ht as <-. exact Hd.
Defined.

(** C1, as stated, at a donation whose write of the total the store fails:
    the donation is recorded and answered with 200, the campaign existed
    and its ledger was balanced, and afterwards the total is still the old
    one while the donations sum to fifty more. *)
Lemma donation_total_lost_when_write_fails :
  let w := world_of store_c1 [None; None; Some store_timeout] in
  let r := post_donations donate_50 w in
  find_campaign "c1" (store w) = Data campaign_c1 /\
  donated "c1" (store w) = Some 100 /\
  fst r = {| status := 200; sent := JDonation (donation_row donate_50 Null store_c1) |} /\
  tbl_donations (store (snd r)) = [donation_d1; donation_row donate_50 Null store_c1] /\
  find_campaign "c1" (store (snd r)) = Data campaign_c1 /\
  c_collected_amount campaign_c1 = Js.int 100 /\
  donated "c1" (store (snd r)) = Some 150 /\
  ~ ledger_balanced "c1" (store (snd r)).
Proof.
  cbv zeta. repeat split.
  intros Hbal. destruct (Hbal campaign_c1 eq_refl) as (t & Ht & Hd).
  vm_compute in Ht, Hd. congruence.
Qed.

(** The same donation where binary64 has no room for the sum: the total is
    [2^53] before and after a donation of 1. *)
Example donation_total_is_rounded :
  let before := Js.int (2 ^ 53) in
  Js.sent_as (Js.plus before (Js.int 1)) = before /\
  amount_of before = Some (2 ^ 53).
Proof. split; reflexivity. Qed.

(** The same donation with the amount sent as the text ["50"]: the total
    100 becomes the text ["10050"]. *)
Example donation_total_is_concatenated :
  let w := world_of store_c1 [] in
  let req := request POST ["api"; "donations"] None (give_value "c1" (Js.Str "50")) in
  find_campaign "c1" (store (snd (post_donations req w)))
    = Data (set_total (Js.Str "10050") campaign_c1).
Proof. reflexivity. Qed.

(** The four steps on the sample store, for a donor with a valid token. *)
Example post_donations_four_steps :
  log (snd (post_donations donate_50_alice (world_of store_c1 []))) =
    [ GetUser "alice-token";
      Insert donations (NewDonation "c1" (Js.int 50) (Js.int 0) None (Val "alice"));
      Select campaigns (eq_ "id" "c1" (select "collected_amount")) true;
      Update campaigns (SetCollectedAmount (Js.int 150)) (where_ "id" "c1") false ].
Proof. reflexivity. Qed.

(* ================================================================= *)
(** ** NGO verifications *)

(** Every path of PATCH /api/admin/ngo-verifications/:id. *)
Lemma patch_admin_ngo_verification_run (id : string) (req : Request) (w : World) :
  let r := patch_admin_ngo_verification id req w in
  let b := verified (body req) in
  match fault_at 0 w, verifications_of id (store w) with
  | Some e, _ =>
      fst r = {| status := 500; sent := JError (message e) |} /\
      store (snd r) = store w /\
      log (snd r) = log w ++ [verify_call id b]
  | None, [v] =>
      fst r = {| status := 200; sent := JVerification (set_verified b v) |} /\
      tbl_ngo_verifications (store (snd r)) =
        rewrite_rows NgoVerifications (eq_ "id" id (select "*")) (set_verified b)
          (tbl_ngo_verifications (store w)) /\
      if b then
        log (snd r) = log w ++ [verify_call id b; promote_call (v_user_id v)] /\
        tbl_users (store (snd r)) =
          match fault_at 1 w with
          | Some _ => tbl_users (store w)
          | None => promoted (v_user_id v) (tbl_users (store w))
          end
      else
        log (snd r) = log w ++ [verify_call id b] /\
        tbl_users (store (snd r)) = tbl_users (store w)
  | None, _ =>
      fst r = {| status := 500; sent := JError (message PGRST116) |} /\
      store (snd r) = store w /\
      log (snd r) = log w ++ [verify_call id b]
  end.
Proof.
  cbv zeta. unfold patch_admin_ngo_verification, bind, verifications_of.
  rewrite await_update_row_eq. simpl s_patch. simpl s_rows.
  destruct (fault_at 0 w) as [e|] eqn:F0; simpl; auto.
  destruct (filter _ _) as [|v [|v' l]] eqn:Hrows; simpl; auto.
  destruct (verified (body req)) eqn:Hb; simpl.
  - rewrite await_update_eq. simpl s_patch.
    rewrite !fault_at_with_store, !fault_at_called.
    destruct (fault_at 1 w) as [e1|] eqn:F1; simpl;
      rewrite <- !app_assoc; auto.
  - auto.
Qed.

Lemma promoted_flag (user : string) (l : list User) :
  forall u, In u (promoted user l) -> u_id u = user -> u_is_ngo u = true.
Proof.
  unfold promoted, rewrite_rows. intros u Hin Hid.
  apply in_map_iff in Hin as (u0 & Hu & _).
  unfold keeps in Hu. simpl in Hu.
  destruct (String.eqb (u_id u0) user) eqn:E.
  - now subst u.
  - subst u0. apply String.eqb_neq in E. contradiction.
Qed.

Lemma flags_kept_refl (l : list User) : flags_kept l l.
Proof. induction l; constructor; auto. Qed.

Lemma flags_kept_promoted (user : string) (l : list User) :
  flags_kept l (promoted user l).
Proof.
  induction l as [|u l IH]; constructor; auto.
  destruct (keeps Users (where_ "id" user) u); simpl; auto.
Qed.

(** C5.  When the body sets [verified] to true and the update of the
    verification record succeeds, returning the record [v], the handler
    makes a second write, the last call of the request: it sets [is_ngo] to
    true on the users whose identifier is [v]'s user.  When the store
    carries that write out, every such user has the flag afterwards. *)
Theorem approval_promotes_user
    (id : string) (req : Request) (w : World) (v : NgoVerification) :
  verified (body req) = true ->
  fst (patch_admin_ngo_verification id req w)
    = {| status := 200; sent := JVerification v |} ->
  let w' := snd (patch_admin_ngo_verification id req w) in
  log w' = log w ++ [verify_call id true; promote_call (v_user_id v)] /\
  (fault_at 1 w = None ->
     tbl_users (store w') = promoted (v_user_id v) (tbl_users (store w)) /\
     forall u, In u (tbl_users (store w')) -> u_id u = v_user_id v ->
               u_is_ngo u = true).
Proof.
  intros Hb Hresp. cbv zeta.
  pose proof (patch_admin_ngo_verification_run id req w) as H. cbv zeta in H.
  rewrite Hb in H.
  destruct (fault_at 0 w) as [e|].
  { destruct H as (Hr & _). rewrite Hr in Hresp. discriminate. }
  destruct (verifications_of id (store w)) as [|v0 [|v1 l]].
  1, 3: destruct H as (Hr & _); rewrite Hr in Hresp; discriminate.
  destruct H as (Hr & _ & Hl & Hu).
  rewrite Hr in Hresp. injection Hresp as <-. simpl v_user_id.
  split; [exact Hl|].
  intros F1. rewrite F1 in Hu. rewrite Hu. split; [reflexivity|].
  apply promoted_flag.
Qed.

Lemma approval_promotes_user_witness :
  let w' := snd (patch_admin_ngo_verification "v1" approve_v1 (world_of store_ngo [])) in
  log w' = [verify_call "v1" true; promote_call "bob"] /\
  map u_is_ngo (tbl_users (store w')) = [true; true].
Proof.
  cbv zeta.
  destruct (@approval_promotes_user "v1" approve_v1 (world_of store_ngo [])
              {| v_id := "v1"; v_user_id := "bob"; v_verified := true;
                 v_requested_at := 5; v_fields := [] |} eq_refl eq_refl)
    as (Hl & Hu).
  split; [exact Hl|].
  destruct (Hu eq_refl) as (-> & _). reflexivity.
Defined.

(** C9.  When the body sets [verified] to false the handler makes one call,
    the update of the verification record, and the users are as they were.
    Whatever the body is, no user loses the NGO flag: the handler only ever
    writes true to it. *)
Theorem rejection_keeps_users (id : string) (req : Request) (w : World) :
  let w' := snd (patch_admin_ngo_verification id req w) in
  (verified (body req) = false ->
     tbl_users (store w') = tbl_users (store w) /\
     log w' = log w ++ [verify_call id false]) /\
  flags_kept (tbl_users (store w)) (tbl_users (store w')).
Proof.
  cbv zeta.
  pose proof (patch_admin_ngo_verification_run id req w) as H. cbv zeta in H.
  split.
  - intros Hb. rewrite Hb in H.
    destruct (fault_at 0 w) as [e|].
    { destruct H as (_ & -> & ->). auto. }
    destruct (verifications_of id (store w)) as [|v0 [|v1 l]].
    1, 3: destruct H as (_ & -> & ->); auto.
    destruct H as (_ & _ & -> & ->). auto.
  - destruct (fault_at 0 w) as [e|].
    { destruct H as (_ & -> & _). apply flags_kept_refl. }
    destruct (verifications_of id (store w)) as [|v0 [|v1 l]].
    1, 3: destruct H as (_ & -> & _); apply flags_kept_refl.
    destruct H as (_ & _ & H).
    destruct (verified (body req)).
    + destruct H as (_ & ->).
      destruct (fault_at 1 w); [apply flags_kept_refl | apply flags_kept_promoted].
    + destruct H as (_ & ->). apply flags_kept_refl.
Qed.

Lemma rejection_keeps_users_witness :
  let w' := snd (patch_admin_ngo_verification "v2" reject_v2 (world_of store_ngo [])) in
  tbl_users (store w') = tbl_users store_ngo /\
  map v_verified (tbl_ngo_verifications (store w')) = [false; false].
Proof.
  cbv zeta. split.
  - exact (proj1 (proj1 (rejection_keeps_users "v2" reject_v2 (world_of store_ngo []))
                    eq_refl)).
  - reflexivity.
Defined.

(* ================================================================= *)
(** ** Reviews *)

Section Sorting.
Variable R : Type.
Variable key : R -> Z.

Lemma insert_desc_perm (x : R) (l : list R) :
  Permutation (insert_desc key x l) (x :: l).
Proof.
  induction l as [|y l IH]; simpl; auto.
  destruct (key x <? key y); auto.
  rewrite IH. apply perm_swap.
Qed.

Lemma sort_desc_perm (l : list R) : Permutation (sort_desc key l) l.
Proof.
  induction l as [|x l IH]; simpl; auto.
  rewrite insert_desc_perm. now constructor.
Qed.

Lemma insert_desc_sorted (x : R) (l : list R) :
  StronglySorted (not_newer key) l -> StronglySorted (not_newer key) (insert_desc key x l).
Proof.
  induction 1 as [|y l Hs IH Hall]; simpl.
  - repeat constructor.
  - destruct (key x <? key y) eqn:E.
    + constructor; auto.
      rewrite insert_desc_perm. constructor; auto.
      unfold not_newer. apply Z.ltb_lt in E. lia.
    + apply Z.ltb_ge in E. constructor; [constructor; auto|].
      constructor; [exact E|].
      eapply Forall_impl; [|exact Hall]. unfold not_newer. intros; lia.
Qed.

Lemma sort_desc_sorted (l : list R) : StronglySorted (not_newer key) (sort_desc key l).
Proof.
  induction l; simpl; [constructor | now apply insert_desc_sorted].
Qed.

Lemma sorted_app (l1 l2 : list R) :
  StronglySorted (not_newer key) (l1 ++ l2) ->
  StronglySorted (not_newer key) l1 /\
  forall a b, In a l1 -> In b l2 -> key b <= key a.
Proof.
  induction l1 as [|x l1 IH]; simpl; intros H.
  - split; [constructor | intros a b []].
  - inversion_clear H as [|? ? Hs Hall].
    destruct (IH Hs) as (Hs1 & Hcross).
    apply Forall_app in Hall as (Ha1 & Ha2).
    split; [now constructor|].
    intros a b [<- | Ha] Hb; [|now apply Hcross].
    rewrite Forall_forall in Ha2. now apply Ha2.
Qed.
End Sorting.

Lemma filter_keeps_all (R : Type) (sch : Schema R) (q : Query) (l : list R) :
  q_eq q = None -> filter (keeps sch q) l = l.
Proof.
  intros Hq. unfold keeps. rewrite Hq.
  induction l; simpl; congruence.
Qed.

(** C10.  GET /api/reviews answers a failure of the store with 500;
    otherwise it sends at most ten reviews, newest first: the first ten of
    the table sorted by creation time, descending.  The reviews it leaves
    out are not newer than those it sends, however many there are. *)
Theorem reviews_latest_ten (req : Request) (w : World) :
  let r := fst (get_reviews req w) in
  let all := tbl_reviews (store w) in
  match fault_at 0 w with
  | Some e => r = {| status := 500; sent := JError (message e) |}
  | None =>
      exists l rest,
        r = {| status := 200; sent := JDocs l |} /\
        l = firstn 10 (sort_desc doc_created_at all) /\
        (List.length l <= 10)%nat /\
        List.length l = Nat.min 10 (List.length all) /\
        StronglySorted (not_newer doc_created_at) l /\
        Permutation (l ++ rest) all /\
        forall a b, In a l -> In b rest -> doc_created_at b <= doc_created_at a
  end.
Proof.
  cbv zeta. unfold get_reviews, bind. rewrite await_rows_eq.
  destruct (fault_at 0 w) as [e|]; simpl; [reflexivity|].
  unfold rows_of, limited, ordered. rewrite filter_keeps_all by reflexivity. simpl.
  set (sorted := sort_desc doc_created_at (tbl_reviews (store w))).
  exists (firstn 10 sorted), (skipn 10 sorted).
  pose proof (sort_desc_sorted doc_created_at (tbl_reviews (store w))) as Hs.
  fold sorted in Hs. rewrite <- (firstn_skipn 10 sorted) in Hs.
  apply sorted_app in Hs as (Hs1 & Hcross).
  repeat split; auto.
  - apply firstn_le_length.
  - rewrite length_firstn. unfold sorted.
    now rewrite (Permutation_length (sort_desc_perm doc_created_at _)).
  - rewrite firstn_skipn. apply sort_desc_perm.
Qed.

(** Twelve reviews in the table: the ten newest are sent, newest first. *)
Example reviews_of_twelve :
  fst (get_reviews get_reviews_request (world_of store_reviews []))
  = {| status := 200;
       sent := JDocs (map review [12; 11; 10; 9; 8; 7; 6; 5; 4; 3]) |}.
Proof. reflexivity. Qed.

(* ================================================================= *)
(** ** Authentication and routing *)

(** The guard: an unauthenticated request ends with 401; the store is not
    called and the only call logged is the one to the identity provider. *)
Lemma authenticated_rejects (req : Request) (k : string -> M Response) (w : World) :
  unauthenticated req w ->
  fst (authenticated req k w) = unauthorized /\
  store (snd (authenticated req k w)) = store w /\
  faults (snd (authenticated req k w)) = faults w /\
  log (snd (authenticated req k w)) = log w ++ auth_calls req.
Proof.
  unfold unauthenticated, authenticated, auth_calls, bearer.
  destruct (Js.truthy (authorization req)); simpl.
  - intros [Hh | H]; [discriminate|].
    unfold bind, auth_getUser, record. simpl.
    destruct (au_error _) eqn:E; simpl; auto.
    destruct (au_user _) eqn:U; simpl; auto.
    destruct H as [H | H]; congruence.
  - intros _. rewrite app_nil_r. auto.
Qed.

(** The protected endpoints other than GET /api/campaigns/my reach their
    handler, and an unauthenticated request to them is answered 401 without
    a call to the store. *)
Lemma guarded_endpoints_reject (req : Request) (w : World) :
  In (method req, path req) guarded_endpoints ->
  unauthenticated req w ->
  exists m, serve req = Some m /\
    fst (m w) = unauthorized /\
    store (snd (m w)) = store w /\
    log (snd (m w)) = log w ++ auth_calls req.
Proof.
  intros Hin Hu. unfold serve.
  destruct req as [m p a q b].
  simpl in Hin.
  destruct Hin as [Hin | [Hin | [Hin | [Hin | [Hin | []]]]]];
    injection Hin as <- <-; simpl; eexists; (split; [reflexivity|]).
  all: unfold get_auth_user, post_campaigns, get_donations_my,
         get_ngo_verifications_my, post_ngo_verifications.
  all: match goal with |- context [authenticated _ ?k _] =>
         destruct (authenticated_rejects k Hu) as (H1 & H2 & _ & H4)
       end; auto.
Qed.

(** Every path of GET /api/campaigns/:id. *)
Lemma get_campaign_run (id : string) (req : Request) (w : World) :
  get_campaign id req w =
    (match fault_at 0 w, find_campaign id (store w) with
     | None, Data c => {| status := 200; sent := JCampaign c |}
     | _, _ => campaign_not_found
     end,
     called (Select campaigns (eq_ "id" id (select "*")) true) w).
Proof.
  unfold get_campaign, bind. rewrite await_row_eq. unfold find_campaign.
  destruct (fault_at 0 w); simpl; auto.
  destruct (the_one _); reflexivity.
Qed.

(** C6, at the request GET /api/campaigns/my sent without a header.  The
    route [/api/campaigns/:id] is registered before [/api/campaigns/my], so
    the router hands the request to the handler of a single campaign with
    [id = "my"]: the answer is 404 or 200, never the 401 that the handler
    written for the endpoint would give.  The store is read and not
    written. *)
Theorem campaigns_my_is_shadowed (w : World) :
  let r := get_campaign "my" get_my_campaigns w in
  unauthenticated get_my_campaigns w /\
  serve get_my_campaigns = Some (get_campaign "my" get_my_campaigns) /\
  status (fst r) <> 401 /\
  (status (fst r) = 404 \/ status (fst r) = 200) /\
  log (snd r) = log w ++ [Select campaigns (eq_ "id" "my" (select "*")) true] /\
  store (snd r) = store w /\
  fst (get_campaigns_my get_my_campaigns w) = unauthorized.
Proof.
  cbv zeta. rewrite get_campaign_run.
  split; [left; reflexivity|].
  split; [reflexivity|]. simpl.
  split; [|split].
  - destruct (fault_at 0 w); [discriminate|].
    destruct (find_campaign _ _); discriminate.
  - destruct (fault_at 0 w); [now left|].
    destruct (find_campaign _ _); auto.
  - repeat split; reflexivity.
Qed.

(** The same request on the sample store: 404, "Campaign not found". *)
Example campaigns_my_on_sample_store :
  option_map (fun m => fst (m (world_of store_c1 []))) (serve get_my_campaigns)
  = Some campaign_not_found.
Proof. reflexivity. Qed.

(** C7, as stated, at a failure of the store on GET /api/campaigns/c1: the
    answer is 404 with a fixed text, not 500 with the message of the store. *)
Lemma campaign_store_error_is_not_500 :
  let w := world_of store_c1 [Some store_timeout] in
  fault_at 0 w = Some store_timeout /\
  find_campaign "c1" (store w) = Data campaign_c1 /\
  serve get_c1 = Some (get_campaign "c1" get_c1) /\
  fst (get_campaign "c1" get_c1 w) = campaign_not_found /\
  fst (get_campaign "c1" get_c1 w) <> internal_error store_timeout.
Proof. cbv zeta. repeat split; try reflexivity. discriminate. Qed.

(** The guard lets a request through when the provider resolves its token:
    the handler goes on with the user, after the one call to the provider. *)
Lemma authenticated_passes (req : Request) (k : string -> M Response) (w : World) user :
  Js.truthy (authorization req) = true ->
  getUser w (bearer (authorization req)) = {| au_user := Some user; au_error := None |} ->
  authenticated req k w = k user (called_provider req w).
Proof.
  unfold authenticated, bearer, called_provider. intros -> Hu. simpl.
  unfold bind, auth_getUser, record, bearer. simpl. now rewrite Hu.
Qed.

(** The generator of codes leaves the fault oracle as it is. *)
Lemma code_loop_faults (n : nat) : forall code w,
  faults (snd (code_loop n code w)) = faults w.
Proof.
  induction n as [|n IH]; intros code w; simpl; [reflexivity|].
  unfold bind, Math_random. now rewrite IH.
Qed.

(** The handlers without a guard that check the error of their first call
    to the store. *)
Lemma checking_handlers_surface (id : string) (req : Request) (w : World) (e : PgError)
    (h : Request -> M Response) :
  fault_at 0 w = Some e -> In h (checking_handlers id) ->
  fst (h req w) = internal_error e.
Proof.
  intros F0 Hin. unfold checking_handlers in Hin. simpl in Hin.
  repeat (destruct Hin as [<- | Hin]); try contradiction.
  - unfold get_campaigns, bind. now rewrite await_rows_eq, F0.
  - unfold get_campaign_donations, bind. now rewrite await_rows_eq, F0.
  - pose proof (post_donations_run req w) as H. cbv zeta in H.
    rewrite F0 in H. exact (proj1 H).
  - unfold get_reviews, bind. now rewrite await_rows_eq, F0.
  - unfold post_reviews, bind. now rewrite await_insert_eq, F0.
  - unfold get_admin_tickets, bind. now rewrite await_rows_eq, F0.
  - unfold post_tickets, bind. now rewrite await_insert_eq, F0.
  - unfold patch_admin_ticket, bind. now rewrite await_update_row_eq, F0.
  - unfold get_admin_ngo_verifications, bind. now rewrite await_rows_eq, F0.
  - pose proof (patch_admin_ngo_verification_run id req w) as H.
    cbv zeta in H. rewrite F0 in H. exact (proj1 H).
Qed.

(** The same for the handlers that start with the guard, once the caller
    is known. *)
Lemma guarded_checking_handlers_surface (req : Request) (w : World) (e : PgError)
    (user : string) (h : Request -> M Response) :
  fault_at 0 w = Some e -> signed_in req w user ->
  In h guarded_checking_handlers ->
  fst (h req w) = internal_error e.
Proof.
  intros F0 (Ht & Hu) Hin. unfold guarded_checking_handlers in Hin. simpl in Hin.
  assert (F : fault_at 0 (called_provider req w) = Some e) by exact F0.
  repeat (destruct Hin as [<- | Hin]); try contradiction.
  - unfold get_campaigns_my.
    rewrite (@authenticated_passes req _ w user Ht Hu). unfold bind.
    now rewrite await_rows_eq, F.
  - unfold post_campaigns.
    rewrite (@authenticated_passes req _ w user Ht Hu). unfold bind.
    unfold generateUniqueCampaignCode.
    pose proof (code_loop_faults 6 "TF-" (called_provider req w)) as Hf.
    destruct (code_loop 6 "TF-" (called_provider req w)) as [code w1].
    simpl in Hf. rewrite await_insert_eq.
    assert (F1 : fault_at 0 w1 = Some e)
      by (unfold fault_at in *; now rewrite Hf).
    now rewrite F1.
  - unfold get_donations_my.
    rewrite (@authenticated_passes req _ w user Ht Hu). unfold bind.
    now rewrite await_rows_eq, F.
  - unfold post_ngo_verifications.
    rewrite (@authenticated_passes req _ w user Ht Hu). unfold bind.
    now rewrite await_insert_eq, F.
Qed.

(** Every path of GET /api/ngo-verifications/my after the guard. *)
Lemma ngo_my_run (req : Request) (w : World) (user : string) :
  signed_in req w user ->
  fst (get_ngo_verifications_my req w) =
    match fault_at 0 w with
    | Some e =>
        if String.eqb (code e) "PGRST116"
        then {| status := 200; sent := JNull |}
        else internal_error e
    | None =>
        match verifications_by user (store w) with
        | [v] => {| status := 200; sent := JVerification v |}
        | _ => {| status := 200; sent := JNull |}
        end
    end.
Proof.
  intros (Ht & Hu). unfold get_ngo_verifications_my.
  rewrite (@authenticated_passes req _ w user Ht Hu). unfold bind.
  rewrite await_row_eq.
  change (fault_at 0 (called_provider req w)) with (fault_at 0 w).
  change (store (called_provider req w)) with (store w).
  destruct (fault_at 0 w) as [e|]; simpl.
  - now destruct (String.eqb (code e) "PGRST116").
  - unfold rows_of, limited, ordered. simpl.
    change (filter _ (tbl_ngo_verifications (store w)))
      with (verifications_by user (store w)).
    now destruct (verifications_by user (store w)) as [|v [|v' l]].
Qed.

(** C7, amended.  A failure of the store is answered 500 with the message
    of the store by every handler that checks the error of its call: the
    ten handlers without a guard and the four guarded handlers of the two
    lists, and GET /api/ngo-verifications/my for every code but PGRST116,
    which it answers 200 with [null].  The other handlers that call the
    store answer it otherwise: GET /api/campaigns/:id with 404 and a fixed
    text, GET /api/auth/user with 404 and a fixed text, GET /api/stats with
    200, GET /api/verify-hospital with 500 and a fixed text.  A protected
    handler answers a request without a usable credential with 401.
    GET /api/campaigns/:id answers every error of its read, a failure of
    the store as well as an identifier with no campaign, with 404, and
    sends the campaign otherwise. *)
Theorem error_pattern (req : Request) (w : World) :
  (forall e, fault_at 0 w = Some e ->
     (forall id h, In h (checking_handlers id) ->
        fst (h req w) = internal_error e) /\
     (forall user h, signed_in req w user -> In h guarded_checking_handlers ->
        fst (h req w) = internal_error e) /\
     (forall user, signed_in req w user ->
        fst (get_ngo_verifications_my req w) =
          if String.eqb (code e) "PGRST116"
          then {| status := 200; sent := JNull |}
          else internal_error e) /\
     (forall user, signed_in req w user ->
        fst (get_auth_user req w) = user_not_found) /\
     status (fst (get_stats req w)) = 200 /\
     (fst (get_verify_hospital req w)
        = {| status := 400; sent := Text "Invalid request" |} \/
      fst (get_verify_hospital req w)
        = {| status := 500; sent := Text "Error updating campaign" |})) /\
  (unauthenticated req w ->
     forall k, fst (authenticated req k w) = unauthorized) /\
  (forall id,
     fault_at 0 w <> None \/ (exists e, find_campaign id (store w) = Error e) ->
     fst (get_campaign id req w) = campaign_not_found) /\
  (forall id c,
     fault_at 0 w = None -> find_campaign id (store w) = Data c ->
     fst (get_campaign id req w) = {| status := 200; sent := JCampaign c |}).
Proof.
  split; [|split; [|split]].
  - intros e F0. split; [|split; [|split; [|split; [|split]]]].
    + intros id h Hin. exact (@checking_handlers_surface id req w e h F0 Hin).
    + intros user h Hs Hin.
      exact (@guarded_checking_handlers_surface req w e user h F0 Hs Hin).
    + intros user Hs. now rewrite (@ngo_my_run req w user Hs), F0.
    + intros user (Ht & Hu). unfold get_auth_user.
      rewrite (@authenticated_passes req _ w user Ht Hu). unfold bind.
      rewrite await_row_eq.
      change (fault_at 0 (called_provider req w)) with (fault_at 0 w).
      now rewrite F0.
    + unfold get_stats, bind, json, ret.
      rewrite await_rows_eq, await_rows_eq. reflexivity.
    + unfold get_verify_hospital.
      destruct (negb _ || negb _); [now left|].
      right. unfold bind. now rewrite await_update_eq, F0.
  - intros Hu k. now destruct (authenticated_rejects k Hu).
  - intros id H. rewrite get_campaign_run. simpl.
    destruct (fault_at 0 w); [reflexivity|].
    destruct H as [H | (e & ->)]; [congruence | reflexivity].
  - intros id c F0 Fc. rewrite get_campaign_run, F0, Fc. reflexivity.
Qed.

Lemma error_pattern_witness :
  let w := world_of store_c1 [Some store_timeout] in
  fst (get_campaigns get_c1 w) = internal_error store_timeout /\
  fst (post_reviews get_c1 w) = internal_error store_timeout /\
  fst (post_campaigns create_campaign w) = internal_error store_timeout /\
  fst (get_campaign "c1" get_c1 w) = campaign_not_found /\
  fst (get_campaign "zz" get_c1 (world_of store_c1 [])) = campaign_not_found.
Proof.
  cbv zeta.
  destruct (proj1 (error_pattern get_c1 (world_of store_c1 [Some store_timeout]))
              store_timeout eq_refl) as (H1 & _).
  destruct (proj1 (error_pattern create_campaign
                     (world_of store_c1 [Some store_timeout]))
              store_timeout eq_refl) as (_ & H2 & _).
  split; [apply (H1 ""); simpl; auto|].
  split; [apply (H1 ""); simpl; auto 10|].
  split; [apply (H2 "alice"); [split; reflexivity | simpl; auto]|].
  split.
  - apply (proj1 (proj2 (proj2 (error_pattern get_c1 (world_of store_c1 [Some store_timeout]))))).
    left. discriminate.
  - apply (proj1 (proj2 (proj2 (error_pattern get_c1 (world_of store_c1 []))))).
    right. eexists. reflexivity.
Defined.

(** The requests of the examples reach the handlers the statements are
    about. *)
Example routes_of_the_samples :
  serve donate_50 = Some (post_donations donate_50) /\
  serve create_campaign = Some (post_campaigns create_campaign) /\
  serve get_reviews_request = Some (get_reviews get_reviews_request) /\
  serve approve_v1 = Some (patch_admin_ngo_verification "v1" approve_v1) /\
  serve (request DELETE ["api"; "campaigns"; "c1"] None no_body) = None.
Proof. repeat split. Qed.

(* ================================================================= *)
(** ** The router, over every request *)

Lemma literal_then_param (a b c n : string) (p : list string) ps :
  match_path [Lit a; Lit b; Lit c] p = Some ps ->
  match_path [Lit a; Lit b; Param n] p <> None.
Proof.
  destruct p as [|x [|y [|z [|t p]]]]; simpl; try discriminate;
    repeat (destruct (String.eqb _ _); try discriminate).
Qed.

Lemma dispatch_cons (r : Route) (rest : list Route) (req : Request) x :
  dispatch (r :: rest) req = Some x ->
  (serves (r_method r) (method req) = true /\
   exists ps, match_path (r_path r) (path req) = Some ps /\ x = (r, ps)) \/
  ((serves (r_method r) (method req) = false \/
    match_path (r_path r) (path req) = None) /\
   dispatch rest req = Some x).
Proof.
  simpl. destruct (serves _ _); [|auto].
  destruct (match_path _ _) as [ps|]; [|auto].
  intros [= <-]. left. eauto.
Qed.

(** X1.  No request is ever dispatched to the route GET /api/campaigns/my:
    whatever the method, the path and the header, the route that handles a
    request is another one, since [/api/campaigns/:id] is tried first and
    matches every path that [/api/campaigns/my] matches. *)
Theorem my_campaigns_route_is_dead (req : Request) (r : Route) ps :
  dispatch registerRoutes req = Some (r, ps) ->
  r_path r <> my_campaigns_path.
Proof.
  unfold registerRoutes, my_campaigns_path. intros H.
  do 3 (apply dispatch_cons in H as [(_ & ps' & _ & Heq) | (_ & H)];
        [injection Heq as -> _; discriminate|]).
  apply dispatch_cons in H as [(_ & ps' & _ & Heq) | (Hid & H)];
    [injection Heq as -> _; discriminate|].
  apply dispatch_cons in H as [(Hs & ps' & Hm & _) | (_ & H)].
  { exfalso. cbn [r_path r_method app_get] in Hs, Hm, Hid.
    destruct Hid as [Hid | Hid]; [congruence|].
    exact (@literal_then_param "api" "campaigns" "my" "id" _ _ Hm Hid). }
  do 16 (apply dispatch_cons in H as [(_ & ps' & _ & Heq) | (_ & H)];
         [injection Heq as -> _; discriminate|]).
  discriminate H.
Qed.

Lemma my_campaigns_route_is_dead_witness :
  option_map (fun x => r_path (fst x)) (dispatch registerRoutes get_my_campaigns_alice)
    = Some [Lit "api"; Lit "campaigns"; Param "id"] /\
  [Lit "api"; Lit "campaigns"; Param "id"] <> my_campaigns_path.
Proof.
  split; [reflexivity|].
  exact (@my_campaigns_route_is_dead get_my_campaigns_alice
           (app_get [Lit "api"; Lit "campaigns"; Param "id"]
              (fun ps => get_campaign (param "id" ps)))
           [("id", "my")] eq_refl).
Defined.

(** X17.  GET /api/campaigns/my is the only dead route: for every other
    route registered there is a request, made of the method of the route
    and of its path with a segment in place of each parameter, that is
    dispatched to that very route. *)
Theorem every_other_route_is_reached (r : Route) :
  In r registerRoutes ->
  r_path r <> my_campaigns_path ->
  exists ps, dispatch registerRoutes (sample_request r) = Some (r, ps).
Proof.
  intros Hin Hnot. unfold registerRoutes in Hin. simpl in Hin.
  repeat (destruct Hin as [<- | Hin];
          [first [eexists; reflexivity | exfalso; now apply Hnot]|]).
  contradiction.
Qed.

Lemma every_other_route_is_reached_witness :
  exists ps,
    dispatch registerRoutes
      (sample_request (app_patch [Lit "api"; Lit "admin"; Lit "tickets"; Param "id"]
                         (fun ps => patch_admin_ticket (param "id" ps))))
    = Some (app_patch [Lit "api"; Lit "admin"; Lit "tickets"; Param "id"]
              (fun ps => patch_admin_ticket (param "id" ps)), ps).
Proof.
  refine (@every_other_route_is_reached _ _ _).
  - unfold registerRoutes. simpl. tauto.
  - discriminate.
Defined.

(* ================================================================= *)
(** ** What a GET never does *)

Lemma read_only_ret (A : Type) (a : A) : read_only (ret a).
Proof. intros w. split; [reflexivity|]. exists []. now rewrite app_nil_r. Qed.

Lemma read_only_bind (A B : Type) (m : M A) (k : A -> M B) :
  read_only m -> (forall a, read_only (k a)) -> read_only (bind m k).
Proof.
  intros Hm Hk w. unfold bind.
  destruct (Hm w) as (Hs & l1 & Hl1 & Hw1).
  destruct (m w) as [a w1]. simpl in *.
  destruct (Hk a w1) as (Hs2 & l2 & Hl2 & Hw2).
  split; [congruence|].
  exists (l1 ++ l2). rewrite Hl2, Hl1, app_assoc. split; [reflexivity|].
  rewrite existsb_app, Hw1, Hw2. reflexivity.
Qed.

Lemma read_only_await_rows (R : Type) (sch : Schema R) (q : Query) :
  read_only (await_rows sch q).
Proof.
  intros w. rewrite await_rows_eq. split; [reflexivity|].
  eexists. split; reflexivity.
Qed.

Lemma read_only_await_row (R : Type) (sch : Schema R) (q : Query) :
  read_only (await_row sch q).
Proof.
  intros w. rewrite await_row_eq. split; [reflexivity|].
  eexists. split; reflexivity.
Qed.

Lemma read_only_auth_getUser (token : string) : read_only (auth_getUser token).
Proof.
  intros w. split; [reflexivity|]. eexists. split; reflexivity.
Qed.

Lemma read_only_authenticated (req : Request) (k : string -> M Response) :
  (forall user, read_only (k user)) -> read_only (authenticated req k).
Proof.
  intros Hk. unfold authenticated, status_json.
  destruct (negb _); [apply read_only_ret|].
  apply read_only_bind; [apply read_only_auth_getUser|].
  intros a. destruct (au_error a); [apply read_only_ret|].
  destruct (au_user a); [apply Hk | apply read_only_ret].
Qed.

Ltac read_only_steps :=
  unfold json, status_json;
  repeat first
    [ apply read_only_ret
    | apply read_only_await_rows
    | apply read_only_await_row
    | apply read_only_auth_getUser
    | apply read_only_authenticated; intros ?
    | apply read_only_bind; [|intros ?]
    | match goal with
      | |- read_only (match ?x with _ => _ end) => destruct x
      | |- read_only (if ?x then _ else _) => destruct x
      end ].

Lemma read_only_handlers (id : string) (req : Request) :
  read_only (get_auth_session req) /\ read_only (get_auth_user req) /\
  read_only (get_campaigns req) /\ read_only (get_campaign id req) /\
  read_only (get_campaigns_my req) /\
  read_only (get_campaign_donations id req) /\
  read_only (get_donations_my req) /\ read_only (get_reviews req) /\
  read_only (get_admin_tickets req) /\
  read_only (get_ngo_verifications_my req) /\
  read_only (get_admin_ngo_verifications req) /\
  read_only (get_stats req).
Proof.
  repeat match goal with |- _ /\ _ => split end;
    unfold get_auth_session, get_auth_user, get_campaigns, get_campaign,
      get_campaigns_my, get_campaign_donations, get_donations_my,
      get_reviews, get_admin_tickets, get_ngo_verifications_my,
      get_admin_ngo_verifications, get_stats;
    read_only_steps.
Qed.

Lemma serve_inv (req : Request) (m : M Response) :
  serve req = Some m ->
  exists r ps, dispatch registerRoutes req = Some (r, ps) /\ m = r_handler r ps req.
Proof.
  unfold serve. generalize (dispatch registerRoutes req).
  intros [[r ps]|]; [|discriminate]. intros [= <-]. eauto.
Qed.

Lemma read_only_route (req : Request) (r : Route) ps :
  serves GET (method req) = true ->
  match_path verify_hospital_path (path req) = None ->
  dispatch registerRoutes req = Some (r, ps) ->
  read_only (r_handler r ps req).
Proof.
  intros Hget Hnot H. unfold registerRoutes in H.
  do 21 (apply dispatch_cons in H as [(Hs & ps' & Hm & Heq) | (_ & H)];
    [ injection Heq as -> ->;
      cbn [r_method app_get app_post app_patch] in Hs;
      cbn [r_path app_get app_post app_patch] in Hm;
      cbn [r_handler app_get app_post app_patch];
      first
        [ destruct (read_only_handlers (param "id" ps') req)
            as (? & ? & ? & ? & ? & ? & ? & ? & ? & ? & ? & ?); assumption
        | exfalso; destruct (method req); discriminate
        | exfalso; unfold verify_hospital_path in Hnot; congruence ]
    | ]).
  discriminate H.
Qed.

(** X2.  A GET (or HEAD) request to any route other than
    /api/verify-hospital leaves the store as it was and asks it for no
    change: every call it makes is a read or a call to the identity
    provider.  /api/verify-hospital is the one GET route that writes. *)
Theorem get_requests_are_read_only (req : Request) (m : M Response) :
  serves GET (method req) = true ->
  serve req = Some m ->
  match_path verify_hospital_path (path req) = None ->
  read_only m.
Proof.
  intros Hget Hserve Hnot.
  apply serve_inv in Hserve as (r & ps & H & ->).
  exact (@read_only_route req r ps Hget Hnot H).
Qed.

Lemma get_requests_are_read_only_witness :
  read_only (get_campaign "c1" get_c1) /\
  tbl_campaigns (store (snd (get_verify_hospital (verify_c1 "yes")
                               (world_of store_c1 []))))
    = [{| c_id := "c1"; c_created_by := "alice"; c_unique_code := "TF-ABC123";
          c_collected_amount := Js.int 100; c_verified := true;
          c_created_at := 1;
          c_fields := [] |}].
Proof.
  split; [|reflexivity].
  exact (@get_requests_are_read_only get_c1 (get_campaign "c1" get_c1)
           eq_refl eq_refl eq_refl).
Defined.

(* ================================================================= *)
(** ** The bearer token *)

Lemma replace_eq (pat rep s : string) :
  Js.replace pat rep s =
    if String.prefix pat s
    then (rep ++ String.substring (String.length pat)
                   (String.length s - String.length pat) s)%string
    else match s with
         | EmptyString => EmptyString
         | String c s' => String c (Js.replace pat rep s')
         end.
Proof. destruct s; reflexivity. Qed.

Lemma prefix_append (pat t : string) : String.prefix pat (pat ++ t) = true.
Proof.
  induction pat as [|c pat IH]; simpl; [now destruct t|].
  destruct (ascii_dec c c); [exact IH | congruence].
Qed.

Lemma substring_all (t : string) : String.substring 0 (String.length t) t = t.
Proof. induction t as [|c t IH]; simpl; congruence. Qed.

Lemma substring_append (pat t : string) :
  String.substring (String.length pat)
    (String.length (pat ++ t) - String.length pat) (pat ++ t) = t.
Proof.
  induction pat as [|c pat IH]; simpl.
  - rewrite Nat.sub_0_r. apply substring_all.
  - exact IH.
Qed.

Lemma replace_leading (pat rep t : string) :
  Js.replace pat rep (pat ++ t) = (rep ++ t)%string.
Proof. now rewrite replace_eq, prefix_append, substring_append. Qed.

Lemma replace_absent (pat rep s : string) :
  occurs pat s = false -> Js.replace pat rep s = s.
Proof.
  induction s as [|c s IH]; simpl; intros H;
    apply orb_false_iff in H as [Hp Ho].
  - now rewrite Hp.
  - rewrite Hp. f_equal. auto.
Qed.

Lemma prefix_cons (a b : ascii) (s1 s2 : string) :
  String.prefix (String a s1) (String b s2)
  = if ascii_dec a b then String.prefix s1 s2 else false.
Proof. reflexivity. Qed.

Lemma replace_skip (pat rep : string) (c : ascii) (s : string) :
  String.prefix pat (String c s) = false ->
  Js.replace pat rep (String c s) = String c (Js.replace pat rep s).
Proof. intros H. now rewrite replace_eq, H. Qed.

Lemma replace_after (p t : string) :
  lacks "B" p = true ->
  Js.replace "Bearer " "" (p ++ "Bearer " ++ t) = (p ++ t)%string.
Proof.
  induction p as [|c p IH]; intros Hp.
  - apply (replace_leading "Bearer " "" t).
  - simpl in Hp. apply andb_true_iff in Hp as (Hc & Hp).
    change (String c p ++ "Bearer " ++ t)%string
      with (String c (p ++ "Bearer " ++ t)%string).
    rewrite replace_skip.
    + rewrite (IH Hp). reflexivity.
    + rewrite prefix_cons.
      destruct (ascii_dec "B" c) as [e|n]; [|reflexivity].
      subst c. discriminate Hc.
Qed.

(** X3.  The token a handler sends to the identity provider: a header made
    of the scheme and a token gives back the token; a header in which the
    scheme does not occur is sent whole; the scheme is removed where it
    first occurs, which need not be the front of the header: after any
    text without the letter B, that text stays in front of the token. *)
Theorem bearer_extraction :
  (forall t, bearer (Some ("Bearer " ++ t)%string) = t) /\
  (forall h, occurs "Bearer " h = false -> bearer (Some h) = h) /\
  (forall p t, lacks "B" p = true ->
     bearer (Some (p ++ "Bearer " ++ t)%string) = (p ++ t)%string).
Proof.
  unfold bearer. split; [|split].
  - intros t. apply (replace_leading "Bearer " "" t).
  - intros h. apply replace_absent.
  - intros p t. apply replace_after.
Qed.

Lemma bearer_extraction_witness :
  bearer (Some "Bearer alice-token") = "alice-token" /\
  bearer (Some "bearer alice-token") = "bearer alice-token" /\
  bearer (Some "xBearer alice-token") = "xalice-token".
Proof.
  destruct bearer_extraction as (H1 & H2 & H3).
  split; [exact (H1 "alice-token")|].
  split; [exact (H2 "bearer alice-token" eq_refl)|].
  exact (H3 "x" "alice-token" eq_refl).
Defined.


(* ================================================================= *)
(** ** Listings *)

(** A query with a filter and an order and no limit: the rows the filter
    keeps, each once, newest first. *)
Lemma rows_of_sorted (R : Type) (sch : Schema R) (q : Query) (col : string) (s : Store) :
  q_order q = Some col -> q_limit q = None ->
  StronglySorted (not_newer (s_time sch col)) (rows_of sch q s) /\
  Permutation (rows_of sch q s) (filter (keeps sch q) (s_rows sch s)).
Proof.
  intros Ho Hl. unfold rows_of, limited, ordered. rewrite Ho, Hl.
  split; [apply sort_desc_sorted | apply sort_desc_perm].
Qed.

(** X4.  GET /api/campaigns answers a failure of the store with 500 and
    its message; otherwise it sends every campaign of the table, each
    once, newest first, with no limit on their number. *)
Theorem campaigns_listing (req : Request) (w : World) :
  match fault_at 0 w with
  | Some e => fst (get_campaigns req w) = internal_error e
  | None =>
      exists l,
        fst (get_campaigns req w) = {| status := 200; sent := JCampaigns l |} /\
        StronglySorted (not_newer c_created_at) l /\
        Permutation l (tbl_campaigns (store w)) /\
        List.length l = List.length (tbl_campaigns (store w))
  end.
Proof.
  unfold get_campaigns, bind. rewrite await_rows_eq.
  destruct (fault_at 0 w) as [e|]; [reflexivity|]. simpl.
  destruct (@rows_of_sorted _ Campaigns (order_desc "created_at" (select "*"))
              "created_at" (store w) eq_refl eq_refl) as (Hs & Hp).
  rewrite filter_keeps_all in Hp by reflexivity.
  eexists. split; [reflexivity|]. split; [exact Hs|]. split; [exact Hp|].
  now apply Permutation_length.
Qed.

(** X5.  GET /api/campaigns/:id/donations, when the store answers, sends
    exactly the donations made to the campaign [id], each once, newest
    first.  An identifier to which no donation was made, that of a campaign
    or not, gets 200 with the empty list, never 404. *)
Theorem campaign_donations_listing (id : string) (req : Request) (w : World) :
  fault_at 0 w = None ->
  exists l,
    fst (get_campaign_donations id req w) = {| status := 200; sent := JDonations l |} /\
    StronglySorted (not_newer d_created_at) l /\
    Permutation l (filter (donated_to id) (tbl_donations (store w))) /\
    (forall d, In d l <-> In d (tbl_donations (store w)) /\ d_campaign_id d = id) /\
    ((forall d, In d (tbl_donations (store w)) -> d_campaign_id d <> id) -> l = []).
Proof.
  intros F0. unfold get_campaign_donations, bind. rewrite await_rows_eq, F0. simpl.
  destruct (@rows_of_sorted _ Donations
              (order_desc "created_at" (eq_ "campaign_id" id (select "*")))
              "created_at" (store w) eq_refl eq_refl) as (Hs & Hp).
  change (filter _ (s_rows Donations (store w)))
    with (filter (donated_to id) (tbl_donations (store w))) in Hp.
  assert (Hin : forall d, In d (rows_of Donations
                  (order_desc "created_at" (eq_ "campaign_id" id (select "*")))
                  (store w))
                <-> In d (tbl_donations (store w)) /\ d_campaign_id d = id).
  { intros d. split.
    - intros H. apply (Permutation_in _ Hp), filter_In in H as (H1 & H2).
      split; [exact H1 | now apply String.eqb_eq].
    - intros (H1 & H2). apply (Permutation_in _ (Permutation_sym Hp)), filter_In.
      split; [exact H1 | now apply String.eqb_eq]. }
  eexists. split; [reflexivity|]. split; [exact Hs|]. split; [exact Hp|].
  split; [exact Hin|].
  intros Hnone.
  destruct (rows_of Donations _ (store w)) as [|d l] eqn:E; [reflexivity|].
  exfalso. destruct (proj1 (Hin d) (or_introl eq_refl)) as (H1 & H2).
  exact (Hnone d H1 H2).
Qed.

Lemma campaign_donations_listing_witness :
  fst (get_campaign_donations "nobody" (get_donations_of "nobody")
         (world_of store_donors []))
  = {| status := 200; sent := JDonations [] |}.
Proof.
  destruct (@campaign_donations_listing "nobody" (get_donations_of "nobody")
              (world_of store_donors []) eq_refl) as (l & Hr & _ & _ & _ & Hnone).
  rewrite Hr, Hnone; [reflexivity|].
  intros d [<- | [<- | [<- | []]]]; discriminate.
Defined.

(** X6.  GET /api/donations/my, for a caller the identity provider
    resolves and when the store answers, sends exactly the donations whose
    donor is the caller, each once, newest first: never a donation of
    another user, never an anonymous one. *)
Theorem donations_my_lists_own (req : Request) (w : World) (user : string) :
  signed_in req w user ->
  fault_at 0 w = None ->
  exists l,
    fst (get_donations_my req w) = {| status := 200; sent := JDonations l |} /\
    StronglySorted (not_newer d_created_at) l /\
    Permutation l (filter (donated_by user) (tbl_donations (store w))) /\
    (forall d, In d l <-> In d (tbl_donations (store w)) /\ d_donor_id d = Some user).
Proof.
  intros (Ht & Hu) F0. unfold get_donations_my.
  rewrite (@authenticated_passes req _ w user Ht Hu). unfold bind.
  rewrite await_rows_eq.
  change (fault_at 0 (called_provider req w)) with (fault_at 0 w). rewrite F0.
  change (store (called_provider req w)) with (store w). simpl.
  destruct (@rows_of_sorted _ Donations
              (order_desc "created_at" (eq_ "donor_id" user (select "*")))
              "created_at" (store w) eq_refl eq_refl) as (Hs & Hp).
  change (filter _ (s_rows Donations (store w)))
    with (filter (donated_by user) (tbl_donations (store w))) in Hp.
  eexists. split; [reflexivity|]. split; [exact Hs|]. split; [exact Hp|].
  intros d. unfold donated_by in Hp. split.
  - intros H. apply (Permutation_in _ Hp), filter_In in H as (H1 & H2).
    split; [exact H1|]. destruct (d_donor_id d) as [u|]; [|discriminate].
    apply String.eqb_eq in H2. now subst.
  - intros (H1 & H2). apply (Permutation_in _ (Permutation_sym Hp)), filter_In.
    split; [exact H1|]. rewrite H2. apply String.eqb_refl.
Qed.

Lemma donations_my_lists_own_witness :
  option_map (fun m => sent (fst (m (world_of store_donors []))))
             (serve get_my_donations_alice)
  = Some (JDonations
            [{| d_id := "d1"; d_campaign_id := "c1"; d_amount := Js.int 60;
                d_tip_amount := Js.int 0; d_donor_name := None;
                d_donor_id := Some "alice"; d_created_at := 2 |}]) /\
  exists l, fst (get_donations_my get_my_donations_alice (world_of store_donors []))
            = {| status := 200; sent := JDonations l |}.
Proof.
  split; [reflexivity|].
  destruct (@donations_my_lists_own get_my_donations_alice
              (world_of store_donors []) "alice"
              (conj eq_refl eq_refl) eq_refl) as (l & Hr & _).
  exists l. exact Hr.
Defined.

(* ================================================================= *)
(** ** Statistics *)

Lemma or_zero_int (n : Z) :
  0 <= n < 2 ^ 53 -> or_zero (Js.int n) = Js.int n.
Proof.
  intros Hn. destruct (Z.eq_dec n 0) as [-> | N]; [reflexivity|].
  unfold or_zero, Js.or, Js.int. now rewrite NumberFacts.of_Z_canonical by lia.
Qed.

Lemma total_nonneg (cs : list Campaign) (ns : list Z) :
  Forall2 collected_is cs ns -> 0 <= total ns.
Proof.
  induction 1 as [|c n cs ns (Hn & _) _ IH]; simpl; lia.
Qed.

(** The fold of GET /api/stats over collected amounts that are integers:
    no partial sum is rounded while the total is below [2^53]. *)
Lemma sum_collected_from (cs : list Campaign) (ns : list Z) (acc : Z) :
  Forall2 collected_is cs ns -> 0 <= acc -> acc + total ns < 2 ^ 53 ->
  fold_left (fun sum c => Js.plus sum (or_zero (c_collected_amount c))) cs
            (Js.int acc)
  = Js.int (acc + total ns).
Proof.
  intros H. revert acc.
  induction H as [|c n cs ns (Hn & Hc) Hrest IH]; intros acc Hacc Hsum.
  - simpl. now rewrite Z.add_0_r.
  - pose proof (total_nonneg Hrest) as Ht. simpl in Hsum |- *.
    assert (Hstep : Js.plus (Js.int acc) (or_zero (c_collected_amount c))
                    = Js.int (acc + n)).
    { destruct Hc as [-> | (-> & ->)].
      - rewrite or_zero_int by lia.
        change (Js.plus (Js.int acc) (Js.int n))
          with (Js.Num (Js.add (Js.of_Z acc) (Js.of_Z n))).
        unfold Js.int. now rewrite NumberFacts.add_of_Z by lia.
      - change (or_zero Js.Null) with (Js.int 0).
        change (Js.plus (Js.int acc) (Js.int 0))
          with (Js.Num (Js.add (Js.of_Z acc) (Js.of_Z 0))).
        unfold Js.int. now rewrite NumberFacts.add_of_Z by lia. }
    rewrite Hstep, IH by lia. f_equal. lia.
Qed.

Lemma rows_of_plain (R : Type) (sch : Schema R) (cols : string) (s : Store) :
  rows_of sch (select cols) s = s_rows sch s.
Proof.
  unfold rows_of, limited, ordered. simpl. now apply filter_keeps_all.
Qed.

(** X7.  GET /api/stats always answers 200 and only reads: the campaigns,
    then the donations.  [campaignsFunded] is the number of verified
    campaigns and [livesImpacted] the number of donations.  A failure of a
    read is not reported: the figures that depend on it are 0, as for an
    empty table.  [totalRaised] is the sum of the collected amounts when
    they are non-negative integers, an empty column counting as 0, and
    their sum is below [2^53]. *)
Theorem stats_never_fail (req : Request) (w : World) :
  let r := get_stats req w in
  let cs := tbl_campaigns (store w) in
  status (fst r) = 200 /\
  store (snd r) = store w /\
  log (snd r) = log w ++ stats_calls /\
  exists raised,
    sent (fst r) =
      JStats raised
        (match fault_at 0 w with
         | Some _ => 0
         | None => Z.of_nat (List.length (filter c_verified cs))
         end)
        (match fault_at 1 w with
         | Some _ => 0
         | None => Z.of_nat (List.length (tbl_donations (store w)))
         end) /\
    (fault_at 0 w <> None -> raised = Js.int 0) /\
    (fault_at 0 w = None ->
     forall ns, Forall2 collected_is cs ns -> total ns < 2 ^ 53 ->
                raised = Js.int (total ns)).
Proof.
  cbv zeta. unfold get_stats, bind, json, ret.
  rewrite await_rows_eq, await_rows_eq, fault_at_called, !rows_of_plain.
  simpl. unfold stats_calls. rewrite <- app_assoc. simpl.
  split; [reflexivity|]. split; [reflexivity|]. split; [reflexivity|].
  exists (or_zero (match fault_at 0 w with
                   | Some _ => Js.Undefined
                   | None => sum_collected (tbl_campaigns (store w))
                   end)).
  split; [|split].
  - destruct (fault_at 0 w), (fault_at 1 w); reflexivity.
  - intros F0. destruct (fault_at 0 w); [reflexivity | congruence].
  - intros F0 ns Hns Hsum. rewrite F0. unfold sum_collected.
    pose proof (total_nonneg Hns) as Ht.
    rewrite (@sum_collected_from _ ns 0 Hns) by lia.
    apply or_zero_int. simpl. lia.
Qed.

(** Three campaigns that have collected [2^53], 1 and 1: the sum of the
    handler is [2^53], each addition of 1 being rounded away. *)
Example stats_total_is_rounded :
  let campaign n :=
    {| c_id := "c"; c_created_by := "u"; c_unique_code := "TF-000000";
       c_collected_amount := Js.int n; c_verified := false;
       c_created_at := 0; c_fields := [] |} in
  sum_collected [campaign (2 ^ 53); campaign 1; campaign 1] = Js.int (2 ^ 53).
Proof. reflexivity. Qed.

(* ================================================================= *)
(** ** Hospital verification *)

Lemma rewrite_rows_none (R : Type) (sch : Schema R) (q : Query) (g : R -> R) (l : list R) :
  filter (keeps sch q) l = [] -> rewrite_rows sch q g l = l.
Proof.
  unfold rewrite_rows. induction l as [|r l IH]; simpl; [reflexivity|].
  destruct (keeps sch q r); [discriminate|]. intros H. now rewrite IH.
Qed.

(** X8.  GET /api/verify-hospital asks for no credential.  Without a
    campaign identifier or a decision it answers 400 and calls nothing.
    Otherwise it writes the decision to the campaigns whose identifier is
    the text of the parameter: verified when the decision is the text
    [yes], not verified for any other value, also for [yes] given twice,
    which arrives as an array; the other columns and the other campaigns
    are as they were.  It answers 500 with a fixed text when the store
    fails, and 200 otherwise, also when no campaign has the identifier and
    nothing was changed. *)
Theorem verify_hospital_effect (req : Request) (w : World) :
  let r := get_verify_hospital req w in
  let id := member "campaign_id" (query req) in
  let decision := member "decision" (query req) in
  (Js.to_boolean id = false \/ Js.to_boolean decision = false ->
     fst r = {| status := 400; sent := Text "Invalid request" |} /\ snd r = w) /\
  (Js.to_boolean id = true -> Js.to_boolean decision = true ->
     match fault_at 0 w with
     | Some _ =>
         fst r = {| status := 500; sent := Text "Error updating campaign" |} /\
         store (snd r) = store w
     | None =>
         exists yes home,
           fst r = {| status := 200; sent := VerificationPage yes home |} /\
           (yes = true <-> decision = Js.Str "yes") /\
           tbl_campaigns (store (snd r)) =
             map (fun c => if String.eqb (c_id c) (Js.to_string id)
                           then set_campaign_verified yes c else c)
                 (tbl_campaigns (store w)) /\
           map c_collected_amount (tbl_campaigns (store (snd r)))
             = map c_collected_amount (tbl_campaigns (store w)) /\
           ((forall c, In c (tbl_campaigns (store w)) ->
                       c_id c <> Js.to_string id) ->
            store (snd r) = store w)
     end).
Proof.
  cbv zeta. unfold get_verify_hospital. split.
  - intros [H | H]; rewrite H; simpl; rewrite ?orb_true_r; auto.
  - intros Hi Hd. rewrite Hi, Hd. simpl. unfold bind.
    rewrite await_update_eq. simpl s_patch.
    destruct (fault_at 0 w) as [e|]; simpl; [auto|].
    eexists. eexists. split; [reflexivity|]. split; [|split; [|split]].
    + destruct (member "decision" (query req)) as [| |b|x|s|l|l]; simpl;
        try (split; intros; discriminate).
      split.
      * intros H. apply String.eqb_eq in H. now subst.
      * intros [= ->]. reflexivity.
    + reflexivity.
    + unfold rewrite_rows. rewrite map_map. apply map_ext.
      intros c. now destruct (keeps _ _ c).
    + intros Hnone. rewrite rewrite_rows_none.
      * now destruct (store w).
      * induction (tbl_campaigns (store w)) as [|c l IH]; simpl; [reflexivity|].
        unfold keeps at 1. simpl.
        destruct (String.eqb (c_id c) _) eqn:E.
        -- apply String.eqb_eq in E. exfalso. apply (Hnone c); [now left | exact E].
        -- apply IH. intros c' Hc'. apply Hnone. now right.
Qed.

Lemma verify_hospital_effect_witness :
  let r := get_verify_hospital verify_c1_twice (world_of store_c1 []) in
  status (fst r) = 200 /\
  map c_verified (tbl_campaigns (store (snd r))) = [false] /\
  fst (get_verify_hospital get_c1 (world_of store_c1 []))
    = {| status := 400; sent := Text "Invalid request" |}.
Proof.
  cbv zeta.
  pose proof (proj2 (verify_hospital_effect verify_c1_twice (world_of store_c1 []))
                eq_refl eq_refl) as (yes & home & Hr & Hyes & Hc & _).
  split; [now rewrite Hr|]. split.
  - rewrite Hc. destruct yes; [|reflexivity].
    discriminate (proj1 Hyes eq_refl).
  - apply (proj1 (verify_hospital_effect get_c1 (world_of store_c1 []))).
    left. reflexivity.
Defined.

(* ================================================================= *)
(** ** Missing and repeated records *)

(** X9.  A PATCH on an identifier that no record has, of a ticket or of an
    NGO verification, is answered 500 with the message of error PGRST116,
    not 404; the store is left as it was and no user is promoted. *)
Theorem patch_unknown_id_is_500 (id : string) (req : Request) (w : World) :
  fault_at 0 w = None ->
  (tickets_of id (store w) = [] ->
     fst (patch_admin_ticket id req w) = internal_error PGRST116 /\
     store (snd (patch_admin_ticket id req w)) = store w) /\
  (verifications_of id (store w) = [] ->
     fst (patch_admin_ngo_verification id req w) = internal_error PGRST116 /\
     store (snd (patch_admin_ngo_verification id req w)) = store w /\
     log (snd (patch_admin_ngo_verification id req w))
       = log w ++ [verify_call id (verified (body req))]).
Proof.
  intros F0. split.
  - intros Hnone. unfold patch_admin_ticket, bind.
    rewrite await_update_row_eq, F0. simpl s_patch.
    change (filter _ (s_rows Tickets (store w))) with (tickets_of id (store w)).
    rewrite Hnone. auto.
  - intros Hnone.
    pose proof (patch_admin_ngo_verification_run id req w) as H.
    cbv zeta in H. rewrite F0, Hnone in H. exact H.
Qed.

Lemma patch_unknown_id_is_500_witness :
  fst (patch_admin_ticket "t9" (patch_ticket "t9") (world_of store_c1 []))
    = internal_error PGRST116 /\
  fst (patch_admin_ngo_verification "v9" approve_v1 (world_of store_ngo []))
    = internal_error PGRST116.
Proof.
  split.
  - apply (proj1 (@patch_unknown_id_is_500 "t9" (patch_ticket "t9")
                    (world_of store_c1 []) eq_refl)). reflexivity.
  - apply (proj2 (@patch_unknown_id_is_500 "v9" approve_v1
                    (world_of store_ngo []) eq_refl)). reflexivity.
Defined.

(** X10.  GET /api/ngo-verifications/my, for a caller the identity
    provider resolves: the record of the caller when there is exactly one;
    200 with [null] when the caller has none, and also when the caller has
    several; a failure of the store is answered 500 with its message,
    unless its code is PGRST116, which is answered 200 with [null] too. *)
Theorem ngo_verification_my_answers (req : Request) (w : World) (user : string) :
  signed_in req w user ->
  fst (get_ngo_verifications_my req w) =
    match fault_at 0 w with
    | Some e =>
        if String.eqb (code e) "PGRST116"
        then {| status := 200; sent := JNull |}
        else internal_error e
    | None =>
        match verifications_by user (store w) with
        | [v] => {| status := 200; sent := JVerification v |}
        | _ => {| status := 200; sent := JNull |}
        end
    end.
Proof. exact (@ngo_my_run req w user). Qed.

Lemma ngo_verification_my_answers_witness :
  fst (get_ngo_verifications_my (get_my_verification "alice-token")
         (world_of store_twice []))
    = {| status := 200; sent := JNull |} /\
  List.length (verifications_by "alice" store_twice) = 2%nat.
Proof.
  split; [|reflexivity].
  exact (@ngo_verification_my_answers (get_my_verification "alice-token")
           (world_of store_twice []) "alice" (conj eq_refl eq_refl)).
Defined.

(** X11.  GET /api/auth/user, for a caller the identity provider resolves:
    the row of the users table whose identifier is the caller's when there
    is exactly one; 404 "User not found" in every other case, a failure of
    the store included, whose message is not sent. *)
Theorem auth_user_answers (req : Request) (w : World) (user : string) :
  signed_in req w user ->
  fst (get_auth_user req w) =
    match fault_at 0 w, users_of user (store w) with
    | None, [u] => {| status := 200; sent := JUser u |}
    | _, _ => user_not_found
    end /\
  forall u, fst (get_auth_user req w) = {| status := 200; sent := JUser u |} ->
            u_id u = user /\ In u (tbl_users (store w)).
Proof.
  intros (Ht & Hu). unfold get_auth_user.
  rewrite (@authenticated_passes req _ w user Ht Hu). unfold bind.
  rewrite await_row_eq.
  change (fault_at 0 (called_provider req w)) with (fault_at 0 w).
  change (store (called_provider req w)) with (store w).
  unfold rows_of, limited, ordered. simpl q_limit. simpl q_order. cbv iota.
  change (filter _ (s_rows Users (store w))) with (users_of user (store w)).
  destruct (fault_at 0 w) as [e|]; simpl.
  - split; [reflexivity | discriminate].
  - destruct (users_of user (store w)) as [|u0 [|u1 l]] eqn:E; simpl;
      (split; [reflexivity|]); try discriminate.
    intros u [= <-].
    assert (Hin : In u0 (users_of user (store w))) by (rewrite E; now left).
    apply filter_In in Hin as (H1 & H2). apply String.eqb_eq in H2. auto.
Qed.

Lemma auth_user_answers_witness :
  fst (get_auth_user get_user_alice (world_of store_c1 [Some store_timeout]))
    = user_not_found /\
  fst (get_auth_user get_user_alice (world_of store_c1 []))
    = {| status := 200;
         sent := JUser {| u_id := "alice"; u_is_ngo := false; u_fields := [] |} |}.
Proof.
  split.
  - exact (proj1 (@auth_user_answers get_user_alice
                    (world_of store_c1 [Some store_timeout]) "alice"
                    (conj eq_refl eq_refl))).
  - exact (proj1 (@auth_user_answers get_user_alice
                    (world_of store_c1 []) "alice" (conj eq_refl eq_refl))).
Defined.

(* ================================================================= *)
(** ** Creating a campaign *)

Lemma format_matches (l : list ascii) :
  List.length l = 6%nat -> Forall (fun c => alnum c = true) l ->
  Re.matches Re.campaign_code ("TF-" ++ text_of l) = true.
Proof.
  intros Hl Hall.
  destruct l as [|c1 [|c2 [|c3 [|c4 [|c5 [|c6 [|c7 l]]]]]]]; try discriminate Hl.
  repeat match goal with H : Forall _ (_ :: _) |- _ => inversion_clear H end.
  unfold Re.campaign_code.
  change ("TF-" ++ text_of [c1; c2; c3; c4; c5; c6])%string
    with ("T" ++ ("F" ++ ("-" ++ (String c1 "" ++ (String c2 "" ++
          (String c3 "" ++ (String c4 "" ++ (String c5 "" ++
          (String c6 "" ++ "")))))))))%string.
  repeat (apply ReFacts.matches_Cat;
          [first [apply ReFacts.matches_Chr
                 | apply ReFacts.matches_upper_or_digit; assumption]|]).
  reflexivity.
Qed.

(** The generator, as a step of a handler: the code has the format and the
    world has only lost six draws. *)
Lemma generated_code (w : World) :
  valid_draws 6 w ->
  let r := generateUniqueCampaignCode w in
  Re.matches Re.campaign_code (fst r) = true /\
  store (snd r) = store w /\ log (snd r) = log w /\
  faults (snd r) = faults w /\ drawn (snd r) = (drawn w + 6)%nat.
Proof.
  intros Hv. cbv zeta. unfold generateUniqueCampaignCode.
  destruct (@code_loop_spec 6 "TF-" w Hv) as (l & Hl & Hall & -> & Hs & Hg & Hf & Hd).
  split; [now apply format_matches | auto].
Qed.

(** X12.  POST /api/campaigns, for a caller the identity provider
    resolves: when the store accepts the insert, the response is the new
    campaign, the one row added to the table; its creator is the caller and
    its code has the format [TF-] plus six characters, whatever the body
    says; none of the five other tables changes.  When the store fails, the
    answer is 500 with its message and the store is as it was. *)
Theorem campaign_creation (req : Request) (w : World) (user : string) :
  signed_in req w user ->
  valid_draws 6 w ->
  let r := post_campaigns req w in
  match fault_at 0 w with
  | Some e => fst r = internal_error e /\ store (snd r) = store w
  | None =>
      exists c,
        fst r = {| status := 200; sent := JCampaign c |} /\
        tbl_campaigns (store (snd r)) = tbl_campaigns (store w) ++ [c] /\
        c_created_by c = user /\
        Re.matches Re.campaign_code (c_unique_code c) = true /\
        tbl_users (store (snd r)) = tbl_users (store w) /\
        tbl_donations (store (snd r)) = tbl_donations (store w) /\
        tbl_reviews (store (snd r)) = tbl_reviews (store w) /\
        tbl_tickets (store (snd r)) = tbl_tickets (store w) /\
        tbl_ngo_verifications (store (snd r)) = tbl_ngo_verifications (store w)
  end.
Proof.
  intros (Ht & Hu) Hv. cbv zeta. unfold post_campaigns.
  rewrite (@authenticated_passes req _ w user Ht Hu). unfold bind.
  destruct (@generated_code (called_provider req w) Hv) as (Hm & Hs & _ & Hf & _).
  destruct (generateUniqueCampaignCode (called_provider req w)) as [code w1].
  simpl in Hm, Hs, Hf.
  rewrite await_insert_eq. simpl s_new.
  assert (F : fault_at 0 w1 = fault_at 0 w) by (unfold fault_at; now rewrite Hf).
  rewrite F. destruct (fault_at 0 w) as [e|]; simpl.
  - rewrite Hs. auto.
  - rewrite Hs. eexists. split.
    + destruct (_ && _); reflexivity.
    + destruct (_ && _); simpl; repeat split; auto.
Qed.

Lemma campaign_creation_witness :
  exists c,
    fst (post_campaigns create_campaign (world_of empty_store []))
      = {| status := 200; sent := JCampaign c |} /\
    c_created_by c = "alice" /\
    Re.matches Re.campaign_code (c_unique_code c) = true.
Proof.
  assert (Hv : valid_draws 6 (world_of empty_store [])).
  { intros k _. unfold Js.in_unit. simpl. lia. }
  destruct (@campaign_creation create_campaign (world_of empty_store []) "alice"
              (conj eq_refl eq_refl) Hv) as (c & Hr & _ & Hc & Hm & _).
  exists c. auto.
Defined.

(* ================================================================= *)
(** ** The codes the generator can produce *)

Lemma char_reached (c : ascii) :
  alnum c = true ->
  Js.in_unit (draw_for (Z.of_nat (position c chars))) /\
  Js.charAt chars (Js.floor_mul (draw_for (Z.of_nat (position c chars))) 36)
    = String c "".
Proof.
  destruct c as [[] [] [] [] [] [] [] []]; intros H;
    try (vm_compute in H; discriminate H);
    (split; [unfold Js.in_unit; vm_compute; repeat split; intro; discriminate
            | vm_compute; reflexivity]).
Qed.

Lemma code_loop_spells (l : list ascii) : forall code w,
  Forall (fun c => alnum c = true) l ->
  (forall k, (k < List.length l)%nat ->
             random w (drawn w + k) = draws_for l k) ->
  fst (code_loop (List.length l) code w) = (code ++ text_of l)%string.
Proof.
  induction l as [|c l IH]; intros code w Hall Hr; simpl.
  - induction code; simpl; congruence.
  - inversion_clear Hall as [|? ? Hc Hl].
    unfold bind, Math_random.
    pose proof (Hr O ltac:(simpl; lia)) as H0.
    rewrite Nat.add_0_r in H0. rewrite H0. unfold draws_for. simpl nth.
    change (Z.of_nat (String.length chars)) with 36.
    rewrite (proj2 (char_reached c Hc)).
    rewrite IH; [apply append_one | exact Hl |].
    intros k Hk. simpl drawn. simpl random.
    specialize (Hr (S k) ltac:(simpl; lia)).
    rewrite Nat.add_succ_r in Hr. exact Hr.
Qed.

(** X13.  Every code of the format can be generated: for six characters of
    [A-Z0-9] there are results of [Math.random], numbers of the unit
    interval, with which [generateUniqueCampaignCode] returns [TF-]
    followed by these six characters. *)
Theorem every_code_is_generated (l : list ascii) :
  List.length l = 6%nat ->
  Forall (fun c => alnum c = true) l ->
  forall w, random w = draws_for l -> drawn w = O ->
    valid_draws 6 w /\
    fst (generateUniqueCampaignCode w) = ("TF-" ++ text_of l)%string.
Proof.
  intros Hl Hall w Hr Hd. split.
  - intros k Hk. rewrite Hr. unfold draws_for.
    apply char_reached.
    rewrite Forall_forall in Hall. apply Hall, nth_In. lia.
  - unfold generateUniqueCampaignCode. rewrite <- Hl.
    apply code_loop_spells; [exact Hall|].
    intros k _. now rewrite Hr, Hd.
Qed.

Lemma every_code_is_generated_witness :
  fst (generateUniqueCampaignCode
         (world_spelling ["Z"; "9"; "A"; "0"; "M"; "5"]%char))
  = "TF-Z9A0M5".
Proof.
  refine (proj2 (@every_code_is_generated ["Z"; "9"; "A"; "0"; "M"; "5"]%char
                   eq_refl _
                   (world_spelling ["Z"; "9"; "A"; "0"; "M"; "5"]%char)
                   eq_refl eq_refl)).
  repeat constructor.
Defined.

(* ================================================================= *)
(** ** Round trips *)

Lemma rows_of_in (R : Type) (sch : Schema R) (q : Query) (s : Store) (r : R) :
  q_limit q = None ->
  (In r (rows_of sch q s) <-> In r (s_rows sch s) /\ keeps sch q r = true).
Proof.
  intros Hl. unfold rows_of, limited, ordered. rewrite Hl.
  rewrite <- filter_In.
  destruct (q_order q) as [col|]; [|reflexivity].
  split; apply Permutation_in;
    [apply sort_desc_perm | apply Permutation_sym, sort_desc_perm].
Qed.

Lemma campaign_donations_run (id : string) (req : Request) (w : World) :
  fault_at 0 w = None ->
  fst (get_campaign_donations id req w)
    = {| status := 200;
         sent := JDonations (rows_of Donations (donations_of_query id) (store w)) |}.
Proof.
  intros F0. unfold get_campaign_donations, bind.
  now rewrite await_rows_eq, F0.
Qed.

Lemma donations_my_run (req : Request) (w : World) (user : string) :
  signed_in req w user -> fault_at 0 w = None ->
  fst (get_donations_my req w)
    = {| status := 200;
         sent := JDonations (rows_of Donations (donations_by_query user) (store w)) |}.
Proof.
  intros (Ht & Hu) F0. unfold get_donations_my.
  rewrite (@authenticated_passes req _ w user Ht Hu). unfold bind.
  rewrite await_rows_eq.
  change (fault_at 0 (called_provider req w)) with (fault_at 0 w).
  now rewrite F0.
Qed.

Lemma post_donations_row (req : Request) (w : World) :
  fault_at 0 w = None ->
  tbl_donations (store (snd (post_donations req w)))
    = tbl_donations (store w) ++ [donation_row req (donor_of req w) (store w)].
Proof.
  intros F0. pose proof (post_donations_run req w) as H. cbv zeta in H.
  rewrite F0 in H. destruct H as (_ & H).
  destruct (fault_at 1 w); [now destruct H as (_ & ->)|].
  destruct (find_campaign _ _); destruct H as (_ & ->); [|reflexivity].
  now destruct (fault_at 2 w).
Qed.

(** X14.  A donation that POST /api/donations records is listed afterwards:
    by GET /api/campaigns/:id/donations for its campaign, and by
    GET /api/donations/my for a caller exactly when the donor resolved
    from the token of the donation is that caller; an anonymous donation is
    in nobody's list. *)
Theorem donation_round_trip (req : Request) (w : World) :
  fault_at 0 w = None ->
  let w' := snd (post_donations req w) in
  let row := donation_row req (donor_of req w) (store w) in
  (forall req', fault_at 0 w' = None ->
     exists l, fst (get_campaign_donations (campaignId (body req)) req' w')
                 = {| status := 200; sent := JDonations l |} /\ In row l) /\
  (forall req' user, signed_in req' w' user -> fault_at 0 w' = None ->
     exists l, fst (get_donations_my req' w')
                 = {| status := 200; sent := JDonations l |} /\
               (In row l <-> donor_of req w = Val user)).
Proof.
  intros F0. cbv zeta.
  pose proof (@post_donations_row req w F0) as Ht.
  split.
  - intros req' F'. eexists. split; [exact (@campaign_donations_run _ req' _ F')|].
    apply rows_of_in; [reflexivity|]. split.
    + simpl s_rows. rewrite Ht. apply in_or_app. right. now left.
    + unfold keeps. simpl. apply String.eqb_refl.
  - intros req' user Hs F'. eexists. split; [exact (@donations_my_run req' _ user Hs F')|].
    rewrite rows_of_in by reflexivity. simpl s_rows. rewrite Ht.
    unfold keeps. simpl. split.
    + intros (_ & H). destruct (donor_of req w) as [| |u]; try discriminate.
      apply String.eqb_eq in H. now subst.
    + intros ->. split; [|apply String.eqb_refl].
      apply in_or_app. right. now left.
Qed.

Lemma donation_round_trip_witness :
  let w' := snd (post_donations donate_50_alice (world_of store_c1 [])) in
  exists l, fst (get_donations_my get_my_donations_alice w')
              = {| status := 200; sent := JDonations l |} /\
            In (donation_row donate_50_alice (Val "alice") store_c1) l.
Proof.
  cbv zeta.
  destruct (proj2 (@donation_round_trip donate_50_alice (world_of store_c1 []) eq_refl)
              get_my_donations_alice "alice" (conj eq_refl eq_refl) eq_refl)
    as (l & Hr & Hin).
  exists l. split; [exact Hr|]. apply Hin. reflexivity.
Defined.

Lemma sort_desc_newest (R : Type) (key : R -> Z) (x : R) (l : list R) :
  (forall y, In y l -> key y < key x) ->
  sort_desc key (l ++ [x]) = x :: sort_desc key l.
Proof.
  induction l as [|a l IH]; intros H; simpl; [reflexivity|].
  rewrite IH by (intros y Hy; apply H; now right). simpl.
  assert (Ha : key a < key x) by (apply H; now left).
  apply Z.ltb_lt in Ha. now rewrite Ha.
Qed.

Lemma get_reviews_run (req : Request) (w : World) :
  fault_at 0 w = None ->
  fst (get_reviews req w)
    = {| status := 200;
         sent := JDocs (firstn 10 (sort_desc doc_created_at (tbl_reviews (store w)))) |}.
Proof.
  intros F0. unfold get_reviews, bind. rewrite await_rows_eq, F0.
  unfold rows_of, limited, ordered. now rewrite filter_keeps_all by reflexivity.
Qed.

(** X15.  A review that POST /api/reviews stores is the first review that
    GET /api/reviews sends afterwards, when its body carries no creation
    time of its own and the reviews already stored were created before it:
    the limit of ten never hides the review just posted. *)
Theorem review_round_trip (req : Request) (w : World) :
  fault_at 0 w = None ->
  p_created_at (preset (body req)) = None ->
  reviews_in_the_past (store w) ->
  exists d,
    fst (post_reviews req w) = {| status := 200; sent := JDoc d |} /\
    doc_fields d = others (body req) /\
    tbl_reviews (store (snd (post_reviews req w))) = tbl_reviews (store w) ++ [d] /\
    forall req', fault_at 0 (snd (post_reviews req w)) = None ->
      exists l, fst (get_reviews req' (snd (post_reviews req w)))
                  = {| status := 200; sent := JDocs (d :: l) |} /\
                (List.length l <= 9)%nat.
Proof.
  intros F0 Hnone Hpast.
  set (d := {| doc_id := preset_or (p_id (preset (body req)))
                           (fresh_id (next_id (store w)));
               doc_created_at := clock (store w);
               doc_fields := others (body req) |}).
  assert (Hpost : fst (post_reviews req w) = {| status := 200; sent := JDoc d |} /\
                  tbl_reviews (store (snd (post_reviews req w)))
                    = tbl_reviews (store w) ++ [d]).
  { unfold post_reviews, bind. rewrite await_insert_eq, F0. simpl.
    rewrite Hnone. split; reflexivity. }
  destruct Hpost as (Hr & Ht).
  exists d. split; [exact Hr|]. split; [reflexivity|]. split; [exact Ht|].
  intros req' F'. rewrite (@get_reviews_run req' _ F'), Ht.
  rewrite sort_desc_newest by exact Hpast. rewrite firstn_cons.
  eexists. split; [reflexivity|]. apply firstn_le_length.
Qed.

Lemma review_round_trip_witness :
  exists d,
    fst (post_reviews post_review (world_of store_reviews []))
      = {| status := 200; sent := JDoc d |} /\
    doc_created_at d = 13.
Proof.
  assert (Hp : reviews_in_the_past store_reviews).
  { intros d Hd. simpl in Hd.
    repeat (destruct Hd as [<- | Hd]; [reflexivity|]). contradiction. }
  destruct (@review_round_trip post_review (world_of store_reviews [])
              eq_refl eq_refl Hp)
    as (d & Hr & _).
  exists d. split; [exact Hr|].
  injection Hr as <-. reflexivity.
Defined.

(** X16.  POST /api/ngo-verifications, for a caller the identity provider
    resolves, stores a record whose user is the caller, without looking for
    an earlier one and without touching the users.  Afterwards
    GET /api/ngo-verifications/my sends the caller that record if it is the
    caller's first, and [null] if the caller already had one: a second
    request hides both. *)
Theorem verification_round_trip (req : Request) (w : World) (user : string) :
  signed_in req w user ->
  fault_at 0 w = None ->
  let w' := snd (post_ngo_verifications req w) in
  exists v,
    fst (post_ngo_verifications req w) = {| status := 200; sent := JVerification v |} /\
    v_user_id v = user /\
    tbl_ngo_verifications (store w') = tbl_ngo_verifications (store w) ++ [v] /\
    tbl_users (store w') = tbl_users (store w) /\
    log w' = log w ++ [GetUser (bearer (authorization req));
                       Insert ngo_verifications (NewVerification (body req) user)] /\
    forall req', signed_in req' w' user -> fault_at 0 w' = None ->
      fst (get_ngo_verifications_my req' w') =
        match verifications_by user (store w) with
        | [] => {| status := 200; sent := JVerification v |}
        | _ => {| status := 200; sent := JNull |}
        end.
Proof.
  intros (Ht & Hu) F0. cbv zeta.
  set (v := {| v_id := preset_or (p_id (preset (body req)))
                         (fresh_id (next_id (store w)));
               v_user_id := user;
               v_verified := verified (body req);
               v_requested_at := preset_or (p_requested_at (preset (body req)))
                                   (clock (store w));
               v_fields := others (body req) |}).
  assert (Hpost :
    fst (post_ngo_verifications req w) = {| status := 200; sent := JVerification v |} /\
    tbl_ngo_verifications (store (snd (post_ngo_verifications req w)))
      = tbl_ngo_verifications (store w) ++ [v] /\
    tbl_users (store (snd (post_ngo_verifications req w))) = tbl_users (store w) /\
    log (snd (post_ngo_verifications req w))
      = log w ++ [GetUser (bearer (authorization req));
                  Insert ngo_verifications (NewVerification (body req) user)]).
  { unfold post_ngo_verifications.
    rewrite (@authenticated_passes req _ w user Ht Hu). unfold bind.
    rewrite await_insert_eq.
    change (fault_at 0 (called_provider req w)) with (fault_at 0 w).
    rewrite F0. simpl. rewrite <- app_assoc. repeat split. }
  destruct Hpost as (Hr & Htbl & Husers & Hlog).
  exists v. repeat (split; [assumption || reflexivity|]).
  intros req' Hs' F'. rewrite (@ngo_my_run req' _ user Hs'), F'.
  unfold verifications_by at 1. rewrite Htbl, filter_app. simpl.
  rewrite String.eqb_refl.
  fold (verifications_by user (store w)).
  now destruct (verifications_by user (store w)) as [|v0 [|v1 l]].
Qed.

Lemma verification_round_trip_witness :
  let w' := snd (post_ngo_verifications (request_verification "alice-token")
                   (world_of store_ngo [])) in
  fst (get_ngo_verifications_my (get_my_verification "alice-token") w')
    = {| status := 200; sent := JNull |} /\
  List.length (verifications_by "alice" (store w')) = 2%nat.
Proof.
  cbv zeta.
  destruct (@verification_round_trip (request_verification "alice-token")
              (world_of store_ngo []) "alice" (conj eq_refl eq_refl) eq_refl)
    as (v & _ & _ & _ & _ & _ & Hget).
  split; [|reflexivity].
  exact (Hget (get_my_verification "alice-token") (conj eq_refl eq_refl) eq_refl).
Defined.

(* ================================================================= *)
(** ** Who is asked for a credential *)

Lemma never_401_ret (r : Response) : status r <> 401 -> never_401 (ret r).
Proof. intros H w. exact H. Qed.

Lemma never_401_bind (A : Type) (m : M A) (k : A -> M Response) :
  (forall a, never_401 (k a)) -> never_401 (bind m k).
Proof. intros Hk w. unfold bind. destruct (m w) as [a w1]. apply Hk. Qed.

Ltac never_401_steps :=
  unfold json, status_json;
  repeat first
    [ apply never_401_ret; discriminate
    | apply never_401_bind; intros ?
    | match goal with
      | |- never_401 (match ?x with _ => _ end) => destruct x
      | |- never_401 (if ?x then _ else _) => destruct x
      end ].

Lemma open_handlers (id : string) (req : Request) :
  never_401 (get_auth_session req) /\ never_401 (get_campaigns req) /\
  never_401 (get_campaign id req) /\ never_401 (get_campaign_donations id req) /\
  never_401 (post_donations req) /\ never_401 (get_reviews req) /\
  never_401 (post_reviews req) /\ never_401 (get_admin_tickets req) /\
  never_401 (post_tickets req) /\ never_401 (patch_admin_ticket id req) /\
  never_401 (get_admin_ngo_verifications req) /\
  never_401 (patch_admin_ngo_verification id req) /\
  never_401 (get_stats req) /\
  never_401 (post_send_hospital_verification req) /\
  never_401 (get_verify_hospital req).
Proof.
  repeat match goal with |- _ /\ _ => split end;
    unfold get_auth_session, get_campaigns, get_campaign,
      get_campaign_donations, post_donations, record_donation, get_reviews,
      post_reviews, get_admin_tickets, post_tickets, patch_admin_ticket,
      get_admin_ngo_verifications, patch_admin_ngo_verification, get_stats,
      post_send_hospital_verification, get_verify_hospital;
    never_401_steps.
Qed.

Lemma guard_401 (req : Request) (k : string -> M Response) (w : World) :
  (forall user, never_401 (k user)) ->
  status (fst (authenticated req k w)) = 401 ->
  unauthenticated req w.
Proof.
  intros Hk. unfold authenticated, unauthenticated, bearer.
  destruct (Js.truthy (authorization req)); simpl; [|auto].
  unfold bind, auth_getUser, record. simpl.
  destruct (au_error _) eqn:E; [intros _; right; left; congruence|].
  destruct (au_user _) eqn:U; [|auto].
  intros H. now apply Hk in H.
Qed.

Lemma guarded_handlers (req : Request) (w : World) :
  (status (fst (get_auth_user req w)) = 401 -> unauthenticated req w) /\
  (status (fst (get_campaigns_my req w)) = 401 -> unauthenticated req w) /\
  (status (fst (post_campaigns req w)) = 401 -> unauthenticated req w) /\
  (status (fst (get_donations_my req w)) = 401 -> unauthenticated req w) /\
  (status (fst (get_ngo_verifications_my req w)) = 401 -> unauthenticated req w) /\
  (status (fst (post_ngo_verifications req w)) = 401 -> unauthenticated req w).
Proof.
  repeat match goal with |- _ /\ _ => split end;
    unfold get_auth_user, get_campaigns_my, post_campaigns, get_donations_my,
      get_ngo_verifications_my, post_ngo_verifications;
    apply guard_401; intros user; never_401_steps.
Qed.

Lemma route_401 (req : Request) (r : Route) ps (w : World) :
  dispatch registerRoutes req = Some (r, ps) ->
  status (fst (r_handler r ps req w)) = 401 ->
  unauthenticated req w /\ In (r_method r, r_path r) guarded_routes.
Proof.
  intros H H401. unfold registerRoutes in H.
  pose proof (guarded_handlers req w) as (G1 & G2 & G3 & G4 & G5 & G6).
  assert (Hopen : forall id m,
            In m [get_auth_session req; get_campaigns req; get_campaign id req;
                  get_campaign_donations id req; post_donations req;
                  get_reviews req; post_reviews req; get_admin_tickets req;
                  post_tickets req; patch_admin_ticket id req;
                  get_admin_ngo_verifications req;
                  patch_admin_ngo_verification id req; get_stats req;
                  post_send_hospital_verification req; get_verify_hospital req] ->
            never_401 m).
  { intros id m Hin.
    destruct (open_handlers id req)
      as (? & ? & ? & ? & ? & ? & ? & ? & ? & ? & ? & ? & ? & ? & ?).
    simpl in Hin.
    repeat (destruct Hin as [<- | Hin]; [assumption|]). contradiction. }
  do 3 (apply dispatch_cons in H as [(_ & ps' & _ & Heq) | (_ & H)];
    [ injection Heq as -> ->;
      cbn [r_handler r_method r_path app_get app_post app_patch] in *;
      first
        [ exfalso; refine (Hopen (param "id" ps') _ _ w H401); simpl; tauto
        | split; [auto | simpl; tauto] ]
    | ]).
  apply dispatch_cons in H as [(_ & ps' & _ & Heq) | (Hid & H)].
  { injection Heq as -> ->.
    cbn [r_handler r_method r_path app_get app_post app_patch] in *.
    exfalso. refine (Hopen (param "id" ps') _ _ w H401). simpl. tauto. }
  apply dispatch_cons in H as [(Hs & ps' & Hm & _) | (_ & H)].
  { exfalso. cbn [r_path r_method app_get] in Hs, Hm, Hid.
    destruct Hid as [Hid | Hid]; [congruence|].
    exact (@literal_then_param "api" "campaigns" "my" "id" _ _ Hm Hid). }
  do 16 (apply dispatch_cons in H as [(_ & ps' & _ & Heq) | (_ & H)];
    [ injection Heq as -> ->;
      cbn [r_handler r_method r_path app_get app_post app_patch] in *;
      first
        [ exfalso; refine (Hopen (param "id" ps') _ _ w H401); simpl; tauto
        | split; [auto | simpl; tauto] ]
    | ]).
  discriminate H.
Qed.

(** X18.  A response 401 comes only from one of the five guarded routes,
    and only for a request without a usable credential.  Every other
    route, the routes under /api/admin among them, serves any request
    without asking who sends it. *)
Theorem only_guarded_routes_answer_401 (req : Request) (m : M Response) (w : World) :
  serve req = Some m ->
  status (fst (m w)) = 401 ->
  unauthenticated req w /\
  exists r ps, dispatch registerRoutes req = Some (r, ps) /\
               In (r_method r, r_path r) guarded_routes.
Proof.
  intros Hserve H401.
  apply serve_inv in Hserve as (r & ps & H & ->).
  destruct (@route_401 req r ps w H H401) as (Hu & Hin). eauto.
Qed.

Lemma only_guarded_routes_answer_401_witness :
  unauthenticated get_user_anonymous (world_of store_c1 []) /\
  exists r ps, dispatch registerRoutes get_user_anonymous = Some (r, ps) /\
               In (r_method r, r_path r) guarded_routes.
Proof.
  exact (@only_guarded_routes_answer_401 get_user_anonymous
           (get_auth_user get_user_anonymous) (world_of store_c1 [])
           eq_refl eq_refl).
Defined.

(** X19.  Whatever the spelling of the path and whether the method is GET
    or HEAD, a request that one of the five guarded routes handles and
    that carries no usable credential is answered 401 "Unauthorized"; the
    store is not called and nothing but the call to the identity provider
    is logged. *)
Theorem guarded_routes_reject (req : Request) (r : Route) ps (w : World) :
  dispatch registerRoutes req = Some (r, ps) ->
  In (r_method r, r_path r) guarded_routes ->
  unauthenticated req w ->
  fst (r_handler r ps req w) = unauthorized /\
  store (snd (r_handler r ps req w)) = store w /\
  log (snd (r_handler r ps req w)) = log w ++ auth_calls req.
Proof.
  intros H Hin Hu. unfold registerRoutes in H.
  do 21 (apply dispatch_cons in H as [(_ & ps' & _ & Heq) | (_ & H)];
    [ injection Heq as -> ->;
      cbn [r_handler r_method r_path app_get app_post app_patch] in *;
      first
        [ exfalso; simpl in Hin;
          repeat (destruct Hin as [Hin | Hin]; [discriminate Hin|]);
          contradiction
        | unfold get_auth_user, post_campaigns, get_donations_my,
            get_ngo_verifications_my, post_ngo_verifications;
          match goal with |- context [authenticated _ ?k _] =>
            destruct (authenticated_rejects k Hu) as (H1 & H2 & _ & H4)
          end; auto ]
    | ]).
  discriminate H.
Qed.

Lemma guarded_routes_reject_witness :
  option_map (fun m => fst (m (world_of store_donors [])))
             (serve head_my_donations) = Some unauthorized /\
  fst (get_donations_my head_my_donations (world_of store_donors [])) = unauthorized.
Proof.
  split; [reflexivity|].
  refine (proj1 (@guarded_routes_reject head_my_donations
                   (app_get [Lit "api"; Lit "donations"; Lit "my"]
                      (fun _ => get_donations_my))
                   [] (world_of store_donors []) eq_refl _ _)).
  - simpl. tauto.
  - left. reflexivity.
Defined.

(* ================================================================= *)
(** ** What a donation leaves alone *)

Lemma with_total_frame (id : string) (total : Js.value) (l : list Campaign) :
  Forall2 (after_donation id) l
    (rewrite_rows Campaigns (where_ "id" id) (set_total total) l).
Proof.
  induction l as [|c l IH]; simpl; constructor; [|exact IH].
  unfold keeps. simpl.
  destruct (String.eqb (c_id c) id) eqn:E; [|now left].
  apply String.eqb_eq in E. right. eauto.
Qed.

Lemma after_donation_refl (id : string) (l : list Campaign) :
  Forall2 (after_donation id) l l.
Proof. induction l; constructor; auto. now left. Qed.

(** The campaigns table after POST /api/donations, on every path. *)
Lemma post_donations_campaigns (req : Request) (w : World) :
  tbl_campaigns (store (snd (post_donations req w))) =
    match fault_at 0 w, fault_at 1 w, fault_at 2 w,
          find_campaign (campaignId (body req)) (store w) with
    | None, None, None, Data c =>
        rewrite_rows Campaigns (where_ "id" (campaignId (body req)))
          (set_total (Js.sent_as (Js.plus (c_collected_amount c) (amount (body req)))))
          (tbl_campaigns (store w))
    | _, _, _, _ => tbl_campaigns (store w)
    end.
Proof.
  pose proof (post_donations_run req w) as H. cbv zeta in H.
  destruct (fault_at 0 w); [now destruct H as (_ & -> & _)|].
  destruct H as (_ & H).
  destruct (fault_at 1 w); [now destruct H as (_ & ->)|].
  destruct (find_campaign _ _); destruct H as (_ & ->);
    destruct (fault_at 2 w); reflexivity.
Qed.

(** X20.  POST /api/donations changes, besides the donations, nothing but
    the collected amount of the campaigns of the identifier it names: the
    users, the reviews, the tickets and the NGO verifications are as they
    were, and so are every other campaign and every other column. *)
Theorem donation_frame (req : Request) (w : World) :
  let s := store w in
  let s' := store (snd (post_donations req w)) in
  tbl_users s' = tbl_users s /\
  tbl_reviews s' = tbl_reviews s /\
  tbl_tickets s' = tbl_tickets s /\
  tbl_ngo_verifications s' = tbl_ngo_verifications s /\
  Forall2 (after_donation (campaignId (body req)))
          (tbl_campaigns s) (tbl_campaigns s').
Proof.
  cbv zeta. split; [|split; [|split; [|split]]].
  5: { rewrite post_donations_campaigns.
       repeat match goal with
              | |- context [match ?x with _ => _ end] => destruct x
              end;
         first [apply after_donation_refl | apply with_total_frame]. }
  all: pose proof (post_donations_run req w) as H; cbv zeta in H;
    destruct (fault_at 0 w); [now destruct H as (_ & -> & _)|];
    destruct H as (_ & H);
    (destruct (fault_at 1 w); [now destruct H as (_ & ->)|]);
    destruct (find_campaign _ _); destruct H as (_ & ->);
    destruct (fault_at 2 w); reflexivity.
Qed.

(** X21.  The tip, the donor name and the donor do not reach the ledger:
    two requests that name the same campaign and the same amount leave the
    same campaigns table, whatever else they say. *)
Theorem tip_is_not_collected (req1 req2 : Request) (w : World) :
  same_gift req1 req2 ->
  tbl_campaigns (store (snd (post_donations req1 w)))
  = tbl_campaigns (store (snd (post_donations req2 w))).
Proof.
  intros (Hid & Ha). rewrite !post_donations_campaigns, Hid, Ha. reflexivity.
Qed.

Lemma tip_is_not_collected_witness :
  tbl_campaigns (store (snd (post_donations donate_50_tip (world_of store_c1 []))))
  = tbl_campaigns (store (snd (post_donations donate_50 (world_of store_c1 [])))).
Proof.
  exact (@tip_is_not_collected donate_50_tip donate_50 (world_of store_c1 [])
           (conj eq_refl eq_refl)).
Defined.

(* ================================================================= *)
(** ** The statuses of the responses *)

Lemma answers_ret (l : list Z) (r : Response) :
  In (status r) l -> answers_within l (ret r).
Proof. intros H w. exact H. Qed.

Lemma answers_bind (l : list Z) (A : Type) (m : M A) (k : A -> M Response) :
  (forall a, answers_within l (k a)) -> answers_within l (bind m k).
Proof. intros Hk w. unfold bind. destruct (m w) as [a w1]. apply Hk. Qed.

Ltac answers_steps :=
  unfold authenticated, json, status_json;
  repeat first
    [ apply answers_ret; simpl; tauto
    | apply answers_bind; intros ?
    | match goal with
      | |- answers_within _ (match ?x with _ => _ end) => destruct x
      | |- answers_within _ (if ?x then _ else _) => destruct x
      | |- answers_within _ (let t := ?x in _) => cbv zeta
      end ].

Lemma handler_statuses (id : string) (req : Request) (m : M Response) :
  In m [ get_auth_session req; get_auth_user req; get_campaigns req;
         get_campaign id req; get_campaigns_my req; post_campaigns req;
         get_campaign_donations id req; get_donations_my req;
         post_donations req; get_reviews req; post_reviews req;
         get_admin_tickets req; post_tickets req; patch_admin_ticket id req;
         get_ngo_verifications_my req; post_ngo_verifications req;
         get_admin_ngo_verifications req; patch_admin_ngo_verification id req;
         get_stats req; post_send_hospital_verification req;
         get_verify_hospital req ] ->
  answers_within statuses m.
Proof.
  unfold statuses. simpl.
  intros Hin.
  repeat (destruct Hin as [<- | Hin];
          [ unfold get_auth_session, get_auth_user, get_campaigns, get_campaign,
              get_campaigns_my, post_campaigns, get_campaign_donations,
              get_donations_my, post_donations, record_donation, get_reviews,
              post_reviews, get_admin_tickets, post_tickets, patch_admin_ticket,
              get_ngo_verifications_my, post_ngo_verifications,
              get_admin_ngo_verifications, patch_admin_ngo_verification,
              get_stats, post_send_hospital_verification, get_verify_hospital;
            answers_steps | ]).
  contradiction.
Qed.

(** X22.  Every response of a route of [registerRoutes] has status 200,
    400, 401, 404 or 500: no handler answers 403, so a caller the identity
    provider resolves is never refused for what it asks, and none answers
    201, 204 or 409. *)
Theorem response_statuses (req : Request) (m : M Response) (w : World) :
  serve req = Some m ->
  In (status (fst (m w))) statuses.
Proof.
  intros Hserve. apply serve_inv in Hserve as (r & ps & H & ->).
  unfold registerRoutes in H.
  do 21 (apply dispatch_cons in H as [(_ & ps' & _ & Heq) | (_ & H)];
    [ injection Heq as -> ->;
      cbn [r_handler app_get app_post app_patch];
      refine (@handler_statuses (param "id" ps') req _ _ w); simpl; tauto
    | ]).
  discriminate H.
Qed.

Lemma response_statuses_witness :
  In (status (fst (get_campaign "c1" get_c1 (world_of store_c1 [])))) statuses.
Proof.
  exact (@response_statuses get_c1 (get_campaign "c1" get_c1)
           (world_of store_c1 []) eq_refl).
Defined.
